(** * POSIX wrapper for FatFS (posix/posix.c): descriptor table, streams,
      line-ending normalisation and error translation.

    The C file is embedded shallowly.  The process-wide state
    ([__iob], [errno], the heap blocks handed out by [safecalloc]) is one
    record threaded through every function; the FatFS engine and the console
    byte transports are an interface ([Platform]) over an abstract world [W].
    A function returns [None] where the C code dereferences a pointer that is
    NULL or does not point to a live block of the expected kind. *)

From Stdlib Require Import ZArith String Ascii List Lia.
From Stdlib.Strings Require Import Byte.
From stdpp Require Import base option numbers list gmap strings.

Local Open Scope string_scope.
Local Open Scope Z_scope.

(** ** Integer types of the target *)

(** The typedefs live in headers that are not among the sources.  On the
    ESP8266 [long] is 32-bit, and so is taken [off_t]; FatFS's [FSIZE_t] and
    [UINT] are 32-bit unsigned; [stream->flags] is a [uint8_t].  An integer
    is a [Z], and [u32], [s32], [u8] are the conversions to these types. *)
Definition u32 (z : Z) : Z := z mod 2 ^ 32.
Definition s32 (z : Z) : Z := (z + 2 ^ 31) mod 2 ^ 32 - 2 ^ 31.
Definition u8 (z : Z) : Z := z mod 2 ^ 8.

(** A [char] read from memory, as the [int] the C expression yields. *)
Definition byte_to_Z (b : byte) : Z := Z.of_N (Byte.to_N b).

(** [(unsigned char) c] for an [int] c. *)
Definition Z_to_byte (c : Z) : byte :=
  match Byte.of_N (Z.to_N (u8 c)) with
  | Some b => b
  | None => x00
  end.

Definition EOF : Z := -1.

(** ** Constants of the absent headers *)

(** Modelled from the spec: posix.h is not among the sources.  The spec's
    stream record has a readable, a writable, an end-of-file, an error, an
    allocated-by-this-layer and a pushback-pending flag; they are distinct
    bits of the [flags] byte, with the values of avr-libc's stdio.h, which
    posix.c names as its reference. *)
Definition __SRD : Z := 0x01.
Definition __SWR : Z := 0x02.
Definition __SSTR : Z := 0x04.
Definition __SPGM : Z := 0x08.
Definition __SERR : Z := 0x10.
Definition __SEOF : Z := 0x20.
Definition __SUNGET : Z := 0x40.
Definition __SMALLOC : Z := 0x80.

Definition _FDEV_SETUP_READ : Z := __SRD.
Definition _FDEV_SETUP_WRITE : Z := __SWR.
Definition _FDEV_SETUP_RW : Z := Z.lor __SRD __SWR.
Definition _FDEV_ERR : Z := -1.
Definition _FDEV_EOF : Z := -2.

(** Modelled from the spec: the open(2) flag words of posix.h, absent from
    the sources; an access mode in the two low bits plus creation-policy
    bits. *)
Definition O_ACCMODE : Z := 0x3.
Definition O_RDONLY : Z := 0x0.
Definition O_WRONLY : Z := 0x1.
Definition O_RDWR : Z := 0x2.
Definition O_CREAT : Z := 0x40.
Definition O_TRUNC : Z := 0x200.
Definition O_APPEND : Z := 0x400.

Definition SEEK_SET : Z := 0.
Definition SEEK_CUR : Z := 1.
Definition SEEK_END : Z := 2.

(** FatFS open-mode bits (ff.h). *)
Definition FA_READ : Z := 0x01.
Definition FA_WRITE : Z := 0x02.
Definition FA_CREATE_ALWAYS : Z := 0x08.
Definition FA_OPEN_ALWAYS : Z := 0x10.

(** FatFS result codes; the numbers are the ones posix.c writes next to each
    case of [fatfs_to_errno]. *)
Definition FR_OK : Z := 0.
Definition FR_DISK_ERR : Z := 1.
Definition FR_INT_ERR : Z := 2.
Definition FR_NOT_READY : Z := 3.
Definition FR_NO_FILE : Z := 4.
Definition FR_NO_PATH : Z := 5.
Definition FR_INVALID_NAME : Z := 6.
Definition FR_DENIED : Z := 7.
Definition FR_EXIST : Z := 8.
Definition FR_INVALID_OBJECT : Z := 9.
Definition FR_WRITE_PROTECTED : Z := 10.
Definition FR_INVALID_DRIVE : Z := 11.
Definition FR_NOT_ENABLED : Z := 12.
Definition FR_NO_FILESYSTEM : Z := 13.
Definition FR_MKFS_ABORTED : Z := 14.
Definition FR_TIMEOUT : Z := 15.
Definition FR_LOCKED : Z := 16.
Definition FR_NOT_ENOUGH_CORE : Z := 17.
Definition FR_TOO_MANY_OPEN_FILES : Z := 18.
Definition FR_INVALID_PARAMETER : Z := 19.

(** POSIX error numbers: the index of the message in [sys_errlist]. *)
Definition EPERM : Z := 1.
Definition ENOENT : Z := 2.
Definition EIO : Z := 5.
Definition ENXIO : Z := 6.
Definition EBADF : Z := 9.
Definition ENOMEM : Z := 12.
Definition EACCES : Z := 13.
Definition EBUSY : Z := 16.
Definition EINVAL : Z := 22.
Definition ENFILE : Z := 23.
Definition EMFILE : Z := 24.
Definition ENOSPC : Z := 28.
Definition EROFS : Z := 30.
Definition EBADMSG : Z := 35.

Definition sys_errlist : list string :=
  [ "OK"; "Operation not permitted"; "No such file or directory";
    "No such process"; "Interrupted system call"; "I/O error";
    "No such device or address"; "Argument list too long";
    "Exec format error"; "Bad file number"; "No child processes";
    "Try again"; "Out of memory"; "Permission denied"; "Bad address";
    "Block device required"; "Device or resource busy"; "File exists";
    "Cross-device link"; "No such device"; "Not a directory";
    "Is a directory"; "Invalid argument"; "File table overflow";
    "Too many open files"; "Not a typewriter"; "Text file busy";
    "File too large"; "No space left on device"; "Illegal seek";
    "Read-only file system"; "Too many links"; "Broken pipe";
    "Math argument out of domain of func";
    "Math result not representable"; "Bad Message" ]%string.

(** [strerror(errnum)] *)
Definition strerror (errnum : Z) : option string :=
  sys_errlist !! Z.to_nat errnum.

(** ** Error Translator *)

Definition fatfs_to_errno (Result : Z) : Z :=
  if Result =? FR_OK then 0
  else if Result =? FR_DISK_ERR then EIO
  else if Result =? FR_INT_ERR then EPERM
  else if Result =? FR_NOT_READY then EBUSY
  else if Result =? FR_NO_FILE then ENOENT
  else if Result =? FR_NO_PATH then ENOENT
  else if Result =? FR_INVALID_NAME then EINVAL
  else if Result =? FR_DENIED then EACCES
  else if Result =? FR_EXIST then EACCES
  else if Result =? FR_INVALID_OBJECT then EINVAL
  else if Result =? FR_WRITE_PROTECTED then EROFS
  else if Result =? FR_INVALID_DRIVE then ENXIO
  else if Result =? FR_NOT_ENABLED then ENOSPC
  else if Result =? FR_NO_FILESYSTEM then ENXIO
  else if Result =? FR_MKFS_ABORTED then EINVAL
  else if Result =? FR_TIMEOUT then EBUSY
  else if Result =? FR_LOCKED then EBUSY
  else if Result =? FR_NOT_ENOUGH_CORE then ENOMEM
  else if Result =? FR_TOO_MANY_OPEN_FILES then EMFILE
  else if Result =? FR_INVALID_PARAMETER then EINVAL
  else EBADMSG.

(** ** Mode strings *)

(** Modelled from the spec: [modecmp] comes from the absent stringsup.h;
    each mode string is matched explicitly against its canonical form, so
    it is string equality. *)
Definition modecmp (str pat : string) : bool := String.eqb str pat.

Definition posix_fopen_modes_to_open (mode : string) : Z :=
  if modecmp mode "r" || modecmp mode "rb" then
    O_RDONLY
  else if modecmp mode "r+" || modecmp mode "r+b" || modecmp mode "rb+" then
    Z.lor O_RDWR O_TRUNC
  else if modecmp mode "w" || modecmp mode "wb" then
    Z.lor (Z.lor O_WRONLY O_CREAT) O_TRUNC
  else if modecmp mode "w+" || modecmp mode "w+b" || modecmp mode "wb+" then
    Z.lor (Z.lor O_RDWR O_CREAT) O_TRUNC
  else if modecmp mode "a" || modecmp mode "ab" then
    Z.lor (Z.lor O_WRONLY O_CREAT) O_APPEND
  else if modecmp mode "a+" || modecmp mode "a+b" || modecmp mode "ab+" then
    let flag := Z.lor (Z.lor O_RDWR O_CREAT) O_APPEND in
    -1
  else
    -1.

(** The fifteen strings of the mode grammar. *)
Definition mode_grammar : list string :=
  [ "r"; "rb"; "r+"; "r+b"; "rb+"; "w"; "wb"; "w+"; "w+b"; "wb+";
    "a"; "ab"; "a+"; "a+b"; "ab+" ].

(** ** Data model *)

(** A non-NULL address; a C pointer is an [option ptr], NULL being [None]. *)
Definition ptr : Type := positive.

(** The byte-get and byte-put function pointers a stream can hold: the
    Filesystem Bridge's own ([fatfs_getc], [fatfs_putc]) or a console
    transport registered through [fdevopen]. *)
Inductive getfn : Type := Get_fatfs | Get_dev (d : nat).
Inductive putfn : Type := Put_fatfs | Put_dev (d : nat).

(** Modelled from the spec: [struct __file] is declared in the absent
    posix.h; the fields are the ones posix.c reads and writes, the pushback
    slot holds one byte.  [buf] is a block and an offset into it. *)
Record FILE : Type := mkFILE {
  buf : option (ptr * nat);
  unget : byte;
  flags : Z;
  size : Z;
  len : Z;
  put : option putfn;
  get : option getfn;
  udata : option ptr
}.

(** What [safecalloc(sizeof(FILE),1)] hands out: all fields zero. *)
Definition FILE_zero : FILE :=
  mkFILE None x00 0 0 0 None None None.

Definition with_flags (v : Z) (f : FILE) : FILE :=
  mkFILE (buf f) (unget f) v (size f) (len f) (put f) (get f) (udata f).
Definition with_len (v : Z) (f : FILE) : FILE :=
  mkFILE (buf f) (unget f) (flags f) (size f) v (put f) (get f) (udata f).
Definition with_buf (v : option (ptr * nat)) (f : FILE) : FILE :=
  mkFILE v (unget f) (flags f) (size f) (len f) (put f) (get f) (udata f).
Definition with_udata (v : option ptr) (f : FILE) : FILE :=
  mkFILE (buf f) (unget f) (flags f) (size f) (len f) (put f) (get f) v.
Definition with_put_get (p : option putfn) (g : option getfn) (f : FILE) : FILE :=
  mkFILE (buf f) (unget f) (flags f) (size f) (len f) p g (udata f).

(** A live heap block.  The contents of a [FIL] belong to the engine and
    live in its world; the heap only records that the block is allocated. *)
Inductive block : Type :=
| B_FILE (f : FILE)
| B_FIL
| B_chars (s : list byte).

(** The external collaborators: the FatFS engine (ff.c), the console byte
    transports behind [stream->get], and the allocator behind [safecalloc].
    [f_read] yields the result code and the bytes it transferred, whose
    number is the [size] it reports; [f_tell] is [fh->fptr]. *)
Class Platform (W : Type) : Type := {
  f_open : W -> ptr -> string -> Z -> Z * W;
  f_close : W -> ptr -> Z * W;
  f_read : W -> ptr -> Z -> Z * list byte * W;
  f_lseek : W -> ptr -> Z -> Z * W;
  f_tell : W -> ptr -> Z;
  f_size : W -> ptr -> Z;
  dev_get : nat -> W -> Z * W;
  can_alloc : gmap ptr block -> bool;
  f_tell_range : forall w fh, 0 <= f_tell w fh < 2 ^ 32;
  f_size_range : forall w fh, 0 <= f_size w fh < 2 ^ 32
}.

(** Process-wide state: the descriptor table [__iob], [errno], the heap and
    the world of the collaborators. *)
Record state (W : Type) : Type := mkState {
  __iob : list (option ptr);
  errno : Z;
  heap : gmap ptr block;
  world : W
}.
Arguments mkState {W} _ _ _ _.
Arguments __iob {W} _.
Arguments errno {W} _.
Arguments heap {W} _.
Arguments world {W} _.

(** [isatty]: handles 0..2 are the console. *)
Definition isatty (fileno : Z) : bool :=
  (0 <=? fileno) && (fileno <=? 2).

Section Posix.
Context {W : Type} `{PF : Platform W}.

(** [MAX_FILES] is the declared length of the array [__iob]. *)
Definition MAX_FILES (st : state W) : Z := Z.of_nat (length (__iob st)).

(** *** State and fault monad *)

Definition M (A : Type) : Type := state W -> option (A * state W).

Definition ret {A : Type} (a : A) : M A := fun st => Some (a, st).
Definition bind {A B : Type} (m : M A) (k : A -> M B) : M B :=
  fun st => match m st with
            | Some (a, st') => k a st'
            | None => None
            end.
Definition fault {A : Type} : M A := fun _ => None.

Notation "'do' x <- m ; k" := (bind m (fun x => k))
  (at level 10, x pattern, m at level 100, k at level 200).
Notation "'run' m ; k" := (bind m (fun _ => k))
  (at level 10, m at level 100, k at level 200).

Definition set_errno (e : Z) : M unit :=
  fun st => Some (tt, mkState (__iob st) e (heap st) (world st)).
Definition set_heap (h : gmap ptr block) : M unit :=
  fun st => Some (tt, mkState (__iob st) (errno st) h (world st)).
Definition set_iob (t : list (option ptr)) : M unit :=
  fun st => Some (tt, mkState t (errno st) (heap st) (world st)).
Definition get_state : M (state W) := fun st => Some (st, st).

(** Run an engine primitive on the world. *)
Definition engine {A : Type} (f : W -> A * W) : M A :=
  fun st => let '(a, w) := f (world st) in
            Some (a, mkState (__iob st) (errno st) (heap st) w).

(** [__iob[i]] for an index the caller has checked; reading outside the
    array is a fault. *)
Definition iob_at (i : Z) : M (option ptr) :=
  fun st => if (0 <=? i) && (i <? MAX_FILES st)
            then match __iob st !! Z.to_nat i with
                 | Some s => Some (s, st)
                 | None => None
                 end
            else None.

(** [__iob[i] = v] *)
Definition iob_store (i : Z) (v : option ptr) : M unit :=
  fun st => if (0 <=? i) && (i <? MAX_FILES st)
            then set_iob (<[Z.to_nat i := v]> (__iob st)) st
            else None.

(** [*stream] and [*stream = f] *)
Definition load_FILE (stream : ptr) : M FILE :=
  fun st => match heap st !! stream with
            | Some (B_FILE f) => Some (f, st)
            | _ => None
            end.
Definition store_FILE (stream : ptr) (f : FILE) : M unit :=
  fun st => match heap st !! stream with
            | Some (B_FILE _) => set_heap (<[stream := B_FILE f]> (heap st)) st
            | _ => None
            end.
Definition modify_FILE (stream : ptr) (g : FILE -> FILE) : M unit :=
  do f <- load_FILE stream; store_FILE stream (g f).

(** [stream->flags |= m] and [stream->flags &= ~m], stored in a uint8_t. *)
Definition flags_set (m : Z) (f : FILE) : FILE :=
  with_flags (u8 (Z.lor (flags f) m)) f.
Definition flags_clear (m : Z) (f : FILE) : FILE :=
  with_flags (u8 (Z.land (flags f) (Z.lnot m))) f.

(** [safecalloc] of one block with initial contents [b]: NULL when the
    allocator is out of memory, else a fresh address. *)
Definition safecalloc (b : block) : M (option ptr) :=
  fun st => if can_alloc (heap st)
            then let p := fresh (dom (heap st)) in
                 Some (Some p, mkState (__iob st) (errno st)
                                       (<[p := b]> (heap st)) (world st))
            else Some (None, st).

Definition safefree (p : ptr) : M unit :=
  fun st => set_heap (delete p (heap st)) st.

(** ** Descriptor Table *)

(** [stdin], [stdout], [stderr] are [__iob[0]], [__iob[1]], [__iob[2]]. *)
Definition stdin : M (option ptr) := iob_at 0.
Definition stdout : M (option ptr) := iob_at 1.
Definition stderr : M (option ptr) := iob_at 2.

Definition fileno_to_stream (fileno : Z) : M (option ptr) :=
  do st <- get_state;
  if (fileno <? 0) || (fileno >=? MAX_FILES st) then
    run set_errno EBADF; ret None
  else
    do stream <- iob_at fileno;
    match stream with
    | None => run set_errno EBADF; ret None
    | Some s => ret (Some s)
    end.

(** The loop of [fileno]: [n] slots are left to visit, starting at [i]. *)
Fixpoint fileno_scan (stream : ptr) (n : nat) (i : Z) : M Z :=
  match n with
  | O => ret (-1)
  | S n' =>
      do slot <- iob_at i;
      if decide (slot = Some stream) then ret i
      else fileno_scan stream n' (i + 1)
  end.

Definition fileno (stream : option ptr) : M Z :=
  match stream with
  | None => run set_errno EBADF; ret (-1)
  | Some s => do st <- get_state; fileno_scan s (length (__iob st)) 0
  end.

(** [fdev_get_udata(stream)] is [stream->udata]. *)
Definition fdev_get_udata (stream : ptr) : M (option ptr) :=
  do f <- load_FILE stream; ret (udata f).
Definition fdev_set_udata (stream : ptr) (u : option ptr) : M unit :=
  modify_FILE stream (with_udata u).

Definition fileno_to_fatfs (fileno : Z) : M (option ptr) :=
  if isatty fileno then
    run set_errno EBADF; ret None
  else
    do stream <- fileno_to_stream fileno;
    match stream with
    | None => ret None
    | Some s =>
        do fh <- fdev_get_udata s;
        match fh with
        | None => run set_errno EBADF; ret None
        | Some h => ret (Some h)
        end
    end.

Definition free_file_descriptor (fileno : Z) : M Z :=
  if isatty fileno then
    run set_errno EBADF; ret (-1)
  else
    do stream <- fileno_to_stream fileno;
    match stream with
    | None => ret (-1)
    | Some s =>
        do f <- load_FILE s;
        run match udata f with
            | Some fh => safefree fh
            | None => ret tt
            end;
        run match buf f with
            | Some (b, _) =>
                if Z.land (flags f) __SMALLOC =? 0 then ret tt else safefree b
            | None => ret tt
            end;
        run iob_store fileno None;
        run safefree s;
        ret fileno
    end.

(** The body of [new_file_descriptor]'s loop at a slot [i] found free: a
    zeroed [FILE] and a zeroed [FIL], bound together and stored in the
    table. *)
Definition new_file_descriptor_alloc (i : Z) : M Z :=
  do stream <- safecalloc (B_FILE FILE_zero);
  match stream with
  | None => run set_errno ENOMEM; ret (-1)
  | Some s =>
      do fh <- safecalloc B_FIL;
      match fh with
      | None => run safefree s; run set_errno ENOMEM; ret (-1)
      | Some h =>
          run iob_store i (Some s);
          run fdev_set_udata s (Some h);
          ret i
      end
  end.

(** The loop of [new_file_descriptor]: [n] slots are left to visit, starting
    at [i]. *)
Fixpoint new_file_descriptor_scan (n : nat) (i : Z) : M Z :=
  match n with
  | O => run set_errno ENFILE; ret (-1)
  | S n' =>
      if isatty i then new_file_descriptor_scan n' (i + 1)
      else
        do slot <- iob_at i;
        match slot with
        | Some _ => new_file_descriptor_scan n' (i + 1)
        | None => new_file_descriptor_alloc i
        end
  end.

Definition new_file_descriptor : M Z :=
  do st <- get_state; new_file_descriptor_scan (length (__iob st)) 0.

(** ** Line Terminator Normalizer *)

Definition CR : byte := x0d.
Definition LF : byte := x0a.

(** [fatfs_getc]: one raw byte from the engine; after a carriage return one
    byte of lookahead, undone with the engine's seek when it is not a line
    feed.  [pos] is a [long], passed back to [f_lseek] as an [FSIZE_t]. *)
Definition fatfs_getc (stream : option ptr) : M Z :=
  run set_errno 0;
  match stream with
  | None => run set_errno EBADF; ret EOF
  | Some s =>
      do fh <- fdev_get_udata s;
      match fh with
      | None => run set_errno EBADF; ret EOF
      | Some h =>
          do r <- engine (fun w => f_read w h 1);
          match r with
          | (res, [c]) =>
              if res =? FR_OK then
                if Byte.eqb c CR then
                  do st <- get_state;
                  let pos := s32 (f_tell (world st) h) in
                  do r2 <- engine (fun w => f_read w h 1);
                  match r2 with
                  | (res2, [c2]) =>
                      if res2 =? FR_OK then
                        if Byte.eqb c2 LF then
                          ret (Z.land (byte_to_Z LF) 0xff)
                        else
                          do _ <- engine (fun w => f_lseek w h (u32 pos));
                          ret (byte_to_Z LF)
                      else ret (byte_to_Z LF)
                  | (_, _) => ret (byte_to_Z LF)
                  end
                else ret (Z.land (byte_to_Z c) 0xff)
              else
                run set_errno (fatfs_to_errno res);
                run modify_FILE s (flags_set __SEOF);
                ret EOF
          | (res, _) =>
              run set_errno (fatfs_to_errno res);
              run modify_FILE s (flags_set __SEOF);
              ret EOF
          end
      end
  end.

(** ** Stream Record *)

(** [*stream->buf] of a string stream. *)
Definition load_char (b : ptr) (off : nat) : M byte :=
  fun st => match heap st !! b with
            | Some (B_chars l) =>
                match l !! off with
                | Some c => Some (c, st)
                | None => None
                end
            | _ => None
            end.

(** [fgetc].  The diagnostic [printf] of the missing-get branch writes to the
    console only and is left out; [stream->len] is an [int] that the code
    never lets overflow in the cases below. *)
Definition fgetc (stream : option ptr) : M Z :=
  match stream with
  | None => run set_errno EBADF; ret EOF
  | Some s =>
      do f <- load_FILE s;
      if Z.land (flags f) __SRD =? 0 then ret EOF
      else if negb (Z.land (flags f) __SUNGET =? 0) then
        run store_FILE s (with_len (len f + 1) (flags_clear __SUNGET f));
        ret (byte_to_Z (unget f))
      else if negb (Z.land (flags f) __SSTR =? 0) then
        match buf f with
        | None => fault
        | Some (b, off) =>
            do c <- load_char b off;
            if Byte.eqb c x00 then
              run store_FILE s (flags_set __SEOF f);
              ret EOF
            else
              run store_FILE s (with_len (len f + 1)
                                  (with_buf (Some (b, S off)) f));
              ret (byte_to_Z c)
        end
      else
        match get f with
        | None => ret EOF
        | Some g =>
            do c <- match g with
                    | Get_fatfs => fatfs_getc (Some s)
                    | Get_dev d => engine (dev_get d)
                    end;
            if c <? 0 then
              run modify_FILE s
                    (flags_set (if c =? _FDEV_ERR then __SERR else __SEOF));
              ret EOF
            else
              run modify_FILE s (fun f' => with_len (len f' + 1) f');
              ret c
        end
  end.


(** ** Filesystem Bridge *)

(** [lseek].  [position] is an [off_t]; it reaches [f_lseek], and is compared
    with [f_tell], as an [FSIZE_t].  The [printf] of the mismatch branch is
    left out. *)
Definition lseek (fileno position whence : Z) : M Z :=
  run set_errno 0;
  do fh <- fileno_to_fatfs fileno;
  match fh with
  | None => run set_errno EMFILE; ret (-1)
  | Some h =>
      if isatty fileno then ret (-1)
      else
        do stream <- fileno_to_stream fileno;
        match stream with
        | None => fault
        | Some s =>
            run modify_FILE s (flags_set __SUNGET);
            do st <- get_state;
            let position :=
              if whence =? SEEK_END then s32 (position + f_size (world st) h)
              else if whence =? SEEK_CUR then
                     s32 (position + f_tell (world st) h)
              else position in
            do res <- engine (fun w => f_lseek w h (u32 position));
            if negb (res =? 0) then
              run set_errno (fatfs_to_errno res); ret (-1)
            else
              do st' <- get_state;
              if negb (u32 position =? f_tell (world st') h) then ret (-1)
              else ret (s32 (f_tell (world st') h))
        end
  end.

Definition close (fileno : Z) : M Z :=
  run set_errno 0;
  do stream <- fileno_to_stream fileno;
  match stream with
  | None => ret (-1)
  | Some _ =>
      do fh <- fileno_to_fatfs fileno;
      match fh with
      | None => ret (-1)
      | Some h =>
          do res <- engine (fun w => f_close w h);
          do _ <- free_file_descriptor fileno;
          if negb (res =? FR_OK) then
            run set_errno (fatfs_to_errno res); ret (-1)
          else ret 0
      end
  end.

(** The FatFS mode byte [open] derives from the POSIX flags. *)
Definition open_fatfs_modes (flags : Z) : Z :=
  let fatfs_modes :=
    if Z.land flags O_ACCMODE =? O_RDWR then Z.lor FA_READ FA_WRITE
    else if Z.land flags O_ACCMODE =? O_RDONLY then FA_READ
    else FA_WRITE in
  if negb (Z.land flags O_CREAT =? 0) then
    if negb (Z.land flags O_TRUNC =? 0) then Z.lor fatfs_modes FA_CREATE_ALWAYS
    else Z.lor fatfs_modes FA_OPEN_ALWAYS
  else fatfs_modes.

Definition open (pathname : string) (flags : Z) : M Z :=
  run set_errno 0;
  let fatfs_modes := open_fatfs_modes flags in
  do fileno <- new_file_descriptor;
  do stream <- fileno_to_stream fileno;
  match stream with
  | None => do _ <- free_file_descriptor fileno; ret (-1)
  | Some s =>
      do fh <- fileno_to_fatfs fileno;
      match fh with
      | None =>
          do _ <- free_file_descriptor fileno;
          run set_errno EBADF; ret (-1)
      | Some h =>
          do res <- engine (fun w =>
                      f_open w h pathname (Z.land fatfs_modes 0xff));
          if negb (res =? FR_OK) then
            run set_errno (fatfs_to_errno res);
            do _ <- free_file_descriptor fileno;
            ret (-1)
          else
            do st <- get_state;
            do res2 <- (if negb (Z.land flags O_APPEND =? 0)
                        then engine (fun w => f_lseek w h (f_size (world st) h))
                        else ret FR_OK);
            if negb (res2 =? FR_OK) then
              run set_errno (fatfs_to_errno res2);
              do _ <- engine (fun w => f_close w h);
              do _ <- free_file_descriptor fileno;
              ret (-1)
            else
              run (if Z.land flags O_ACCMODE =? O_RDWR then
                     modify_FILE s (fun f =>
                       with_flags _FDEV_SETUP_RW
                         (with_put_get (Some Put_fatfs) (Some Get_fatfs) f))
                   else if Z.land flags O_ACCMODE =? O_RDONLY then
                     modify_FILE s (fun f =>
                       with_flags _FDEV_SETUP_READ
                         (with_put_get None (Some Get_fatfs) f))
                   else
                     modify_FILE s (fun f =>
                       with_flags _FDEV_SETUP_WRITE
                         (with_put_get (Some Put_fatfs) None f)));
              ret fileno
      end
  end.

Definition fopen (path mode : string) : M (option ptr) :=
  let flags := posix_fopen_modes_to_open mode in
  do fileno <- open path flags;
  fileno_to_stream fileno.

(** The caller's buffer after [data] has been stored from its start. *)
Fixpoint store_bytes (data buffer : list byte) : list byte :=
  match data, buffer with
  | d :: ds, _ :: bs => d :: store_bytes ds bs
  | _, _ => buffer
  end.

(** The console loop of [read]: [n] bytes are still wanted, the next one
    goes to offset [off]. *)
Fixpoint read_tty (n : nat) (stream : ptr) (buffer : list byte)
    (off : nat) (sz : Z) : M (Z * list byte) :=
  match n with
  | O => ret (sz, buffer)
  | S n' =>
      do r <- fgetc (Some stream);
      if r <? 0 then ret (sz, buffer)
      else read_tty n' stream (<[off := Z_to_byte r]> buffer) (S off) (sz + 1)
  end.

(** [read]: the caller's buffer is passed in and handed back with the
    return value. *)
Definition read (fd : Z) (buffer : list byte) (count : Z)
    : M (Z * list byte) :=
  let buffer := <[0%nat := x00]> buffer in
  run set_errno 0;
  do stream <- fileno_to_stream fd;
  do in_ <- stdin;
  if decide (stream = in_) then
    match stream with
    | None => fault
    | Some s =>
        run modify_FILE s (flags_set __SUNGET);
        read_tty (Z.to_nat count) s buffer 0 0
    end
  else
    do out <- stdout;
    if decide (stream = out) then ret (-1, buffer)
    else
      do err <- stderr;
      if decide (stream = err) then ret (-1, buffer)
      else
        do fh <- fileno_to_fatfs fd;
        match fh with
        | None => run set_errno EBADF; ret (-1, buffer)
        | Some h =>
            do r <- engine (fun w => f_read w h (u32 count));
            let '(res, data) := r in
            let buffer := store_bytes data buffer in
            if negb (res =? FR_OK) then
              run set_errno (fatfs_to_errno res); ret (-1, buffer)
            else ret (Z.of_nat (length data), buffer)
        end.

End Posix.

(** ** Derived notions used to state the properties *)

Notation "'do' x <- m ; k" := (bind m (fun x => k))
  (at level 10, x pattern, m at level 100, k at level 200).
Notation "'run' m ; k" := (bind m (fun _ => k))
  (at level 10, m at level 100, k at level 200).

Section Notions.
Context {W : Type} `{PF : Platform W}.

(** The state with [errno] overwritten. *)
Definition with_errno (e : Z) (st : state W) : state W :=
  mkState (__iob st) e (heap st) (world st).

(** The stream a handle resolves to: NULL when out of range or free. *)
Definition slot (st : state W) (i : Z) : option ptr :=
  if (0 <=? i) && (i <? MAX_FILES st)
  then mjoin (__iob st !! Z.to_nat i) else None.

(** The heap once the blocks a stream owns (its engine handle, and its
    buffer when the stream allocated it) have been released. *)
Definition release_owned (f : FILE) (h : gmap ptr block) : gmap ptr block :=
  let h1 := match udata f with
            | Some fh => delete fh h
            | None => h
            end in
  match buf f with
  | Some (b, _) => if Z.land (flags f) __SMALLOC =? 0 then h1 else delete b h1
  | None => h1
  end.

(** The addresses [safecalloc] gives to the stream and to the engine handle
    of the next descriptor. *)
Definition new_stream (st : state W) : ptr := fresh (dom (heap st)).
Definition new_fil (st : state W) : ptr :=
  fresh (dom (<[new_stream st := B_FILE FILE_zero]> (heap st))).

(** The state [new_file_descriptor] leaves when it hands out slot [k]: the
    slot holds the new stream, whose [udata] is the new engine handle. *)
Definition slot_allocated (st : state W) (k : Z) : state W :=
  mkState (<[Z.to_nat k := Some (new_stream st)]> (__iob st)) (errno st)
          (<[new_stream st := B_FILE (with_udata (Some (new_fil st)) FILE_zero)]>
             (<[new_fil st := B_FIL]>
                (<[new_stream st := B_FILE FILE_zero]> (heap st))))
          (world st).

(** The allocator can serve the stream and then the engine handle. *)
Definition two_blocks_available (st : state W) : bool :=
  can_alloc (heap st) &&
  can_alloc (<[fresh (dom (heap st)) := B_FILE FILE_zero]> (heap st)).

(** A table slot that holds a stream. *)
Definition occupied (st : state W) (j : Z) : Prop :=
  exists s : ptr, slot st j = Some s.

End Notions.

(** ** A small in-memory platform

    A concrete engine on which the functions above can be run: a disk of
    named byte strings, open-file objects with a position, a console input
    queue and an allocator with a fixed number of blocks.  Seeking past the
    end of a file is clamped to its size, and [seek_errors] makes every seek
    report a disk error. *)
Module MemFS.

Record memfile : Type := mkMemfile {
  mf_path : string;
  mf_data : list byte;
  mf_pos : Z
}.

Record mem_world : Type := mkWorld {
  disk : gmap string (list byte);
  opened : gmap ptr memfile;
  console : list Z;
  seek_errors : bool
}.

Definition heap_blocks : Z := 16.

Definition m_open (w : mem_world) (fh : ptr) (path : string) (mode : Z)
    : Z * mem_world :=
  let create := negb (Z.land mode (Z.lor FA_CREATE_ALWAYS FA_OPEN_ALWAYS) =? 0) in
  let trunc := negb (Z.land mode FA_CREATE_ALWAYS =? 0) in
  match disk w !! path with
  | Some d =>
      let d' := if trunc then [] else d in
      (FR_OK, mkWorld (<[path := d']> (disk w))
                      (<[fh := mkMemfile path d' 0]> (opened w))
                      (console w) (seek_errors w))
  | None =>
      if create then
        (FR_OK, mkWorld (<[path := []]> (disk w))
                        (<[fh := mkMemfile path [] 0]> (opened w))
                        (console w) (seek_errors w))
      else (FR_NO_FILE, w)
  end.

Definition m_close (w : mem_world) (fh : ptr) : Z * mem_world :=
  match opened w !! fh with
  | Some _ =>
      (FR_OK, mkWorld (disk w) (delete fh (opened w)) (console w)
                      (seek_errors w))
  | None => (FR_INVALID_OBJECT, w)
  end.

Definition m_read (w : mem_world) (fh : ptr) (n : Z)
    : Z * list byte * mem_world :=
  match opened w !! fh with
  | Some f =>
      let data := take (Z.to_nat n) (drop (Z.to_nat (mf_pos f)) (mf_data f)) in
      (FR_OK, data,
       mkWorld (disk w)
               (<[fh := mkMemfile (mf_path f) (mf_data f)
                          (mf_pos f + Z.of_nat (length data))]> (opened w))
               (console w) (seek_errors w))
  | None => (FR_INVALID_OBJECT, [], w)
  end.

Definition m_lseek (w : mem_world) (fh : ptr) (pos : Z) : Z * mem_world :=
  if seek_errors w then (FR_DISK_ERR, w)
  else
    match opened w !! fh with
    | Some f =>
        (FR_OK,
         mkWorld (disk w)
                 (<[fh := mkMemfile (mf_path f) (mf_data f)
                            (Z.min pos (Z.of_nat (length (mf_data f))))]>
                    (opened w))
                 (console w) (seek_errors w))
    | None => (FR_INVALID_OBJECT, w)
    end.

Definition m_tell (w : mem_world) (fh : ptr) : Z :=
  match opened w !! fh with
  | Some f => u32 (mf_pos f)
  | None => 0
  end.

Definition m_size (w : mem_world) (fh : ptr) : Z :=
  match opened w !! fh with
  | Some f => u32 (Z.of_nat (length (mf_data f)))
  | None => 0
  end.

Definition m_dev_get (d : nat) (w : mem_world) : Z * mem_world :=
  match console w with
  | c :: rest => (c, mkWorld (disk w) (opened w) rest (seek_errors w))
  | [] => (_FDEV_EOF, w)
  end.

Definition m_can_alloc (h : gmap ptr block) : bool :=
  Z.of_nat (base.size h) <? heap_blocks.

Lemma u32_range (z : Z) : 0 <= u32 z < 2 ^ 32.
Proof. unfold u32. apply Z.mod_pos_bound. lia. Qed.

Lemma m_tell_range (w : mem_world) (fh : ptr) : 0 <= m_tell w fh < 2 ^ 32.
Proof. unfold m_tell. destruct (opened w !! fh); [apply u32_range | lia]. Qed.

Lemma m_size_range (w : mem_world) (fh : ptr) : 0 <= m_size w fh < 2 ^ 32.
Proof. unfold m_size. destruct (opened w !! fh); [apply u32_range | lia]. Qed.

#[export] Instance platform : Platform mem_world := {|
  f_open := m_open;
  f_close := m_close;
  f_read := m_read;
  f_lseek := m_lseek;
  f_tell := m_tell;
  f_size := m_size;
  dev_get := m_dev_get;
  can_alloc := m_can_alloc;
  f_tell_range := m_tell_range;
  f_size_range := m_size_range
|}.

(** "abc" and a text with the three line-ending conventions. *)
Definition abc : list byte := [x61; x62; x63].
Definition mixed : list byte :=
  [x61; x0d; x0a; x62; x0d; x63; x0a; x64; x0d].

Definition disk0 : gmap string (list byte) :=
  <["/a.txt" := abc]> (<["/m.txt" := mixed]> ∅).

(** Console streams as [fdevopen] leaves them: a readable one for [stdin],
    a writable one shared by [stdout] and [stderr]. *)
Definition console_in : FILE :=
  mkFILE None x00 (Z.lor __SMALLOC __SRD) 0 0 None (Some (Get_dev 0)) None.
Definition console_out : FILE :=
  mkFILE None x00 (Z.lor __SMALLOC __SWR) 0 0 (Some (Put_dev 0)) None None.

Definition world0 : mem_world := mkWorld disk0 ∅ [] false.

(** Eight slots, consoles registered, nothing else open. *)
Definition st0 : state mem_world :=
  mkState [Some 1%positive; Some 2%positive; Some 2%positive;
           None; None; None; None; None]
          0
          (<[1%positive := B_FILE console_in]>
             (<[2%positive := B_FILE console_out]> ∅))
          world0.

(** The state a run ends in, and the value it returns. *)
Definition after {A : Type} (m : option (A * state mem_world))
    : state mem_world :=
  match m with
  | Some (_, st) => st
  | None => st0
  end.
Definition value {A : Type} (m : option (A * state mem_world)) : option A :=
  match m with
  | Some (a, _) => Some a
  | None => None
  end.

(** "/a.txt" and "/m.txt" opened read-only on handle 3. *)
Definition st_a : state mem_world := after (open "/a.txt" O_RDONLY st0).
Definition st_m : state mem_world := after (open "/m.txt" O_RDONLY st0).

(** The stream record and the addresses [open] leaves on handle 3. *)
Definition stream3 : ptr := 3%positive.
Definition fil3 : ptr := 4%positive.
Definition file3 : FILE :=
  mkFILE None x00 _FDEV_SETUP_READ 0 0 None (Some Get_fatfs) (Some fil3).

(** [st_a] once the engine has lost its open-file object (the volume was
    remounted): the engine close of handle 3 will fail. *)
Definition st_stale : state mem_world :=
  mkState (__iob st_a) 0 (heap st_a) world0.

(** [st0] with the allocator exhausted: all sixteen blocks are in use. *)
Definition st_oom : state mem_world :=
  mkState (__iob st0) 0
    (foldr (fun p h => <[p := B_chars []]> h) (heap st0)
       [10; 11; 12; 13; 14; 15; 16; 17; 18; 19; 20; 21; 22; 23]%positive)
    world0.

(** [st0] after five successful opens: handles 3..7 are all in use. *)
Definition st_full : state mem_world :=
  after (open "/a.txt" O_RDONLY
    (after (open "/a.txt" O_RDONLY
      (after (open "/a.txt" O_RDONLY
        (after (open "/a.txt" O_RDONLY
          (after (open "/a.txt" O_RDONLY st0))))))))).

(** [st0] on a disk whose seeks fail. *)
Definition st_badseek : state mem_world :=
  mkState (__iob st0) 0 (heap st0) (mkWorld disk0 ∅ [] true).

(** [n] successive [fgetc] on handle 3. *)
Fixpoint fgetc_n (n : nat) (st : state mem_world) : list (option Z) :=
  match n with
  | O => []
  | S n' =>
      value (fgetc (Some stream3) st)
      :: fgetc_n n' (after (fgetc (Some stream3) st))
  end.

(** [st_m] after "a", CR LF and "b" have been read: the next raw bytes are
    a bare CR and "c". *)
Definition st_m4 : state mem_world :=
  after (fgetc (Some stream3)
           (after (fgetc (Some stream3)
                     (after (fgetc (Some stream3) st_m))))).

End MemFS.

(** * Further Functions *)

(** ** Path names *)

(** [basename]: the text after the last slash; the empty string for NULL. *)
Fixpoint basename_loop (str base : string) : string :=
  match str with
  | EmptyString => base
  | String c rest =>
      if Ascii.eqb c "/" then basename_loop rest rest
      else basename_loop rest base
  end.

Definition basename (str : option string) : string :=
  match str with
  | None => ""
  | Some s => basename_loop s s
  end.

(** [baseext]: the text after the last dot of the whole string, the empty
    string when there is none.  The code does not test for NULL. *)
Fixpoint baseext_loop (str ext : string) : string :=
  match str with
  | EmptyString => ext
  | String c rest =>
      if Ascii.eqb c "." then baseext_loop rest rest
      else baseext_loop rest ext
  end.

Definition baseext (str : string) : string := baseext_loop str "".

(** [dirname]: the index of the last slash, 0 when there is none or for
    NULL. *)
Fixpoint dirname_loop (str : string) (end_ ind : Z) : Z :=
  match str with
  | EmptyString => end_
  | String c rest =>
      dirname_loop rest (if Ascii.eqb c "/" then ind else end_) (ind + 1)
  end.

Definition dirname (str : option string) : Z :=
  match str with
  | None => 0
  | Some s => dirname_loop s 0 0
  end.

(** Whether [c] occurs in [s]. *)
Fixpoint has_char (c : ascii) (s : string) : bool :=
  match s with
  | EmptyString => false
  | String d rest => Ascii.eqb d c || has_char c rest
  end.

(** ** FAT timestamps *)

Definition u16 (z : Z) : Z := z mod 2 ^ 16.

(** The fields of [struct tm] the conversions use; [fat_time_to_unix] zeroes
    the others. *)
Record tm : Type := mkTm {
  tm_sec : Z;
  tm_min : Z;
  tm_hour : Z;
  tm_mday : Z;
  tm_mon : Z;
  tm_year : Z
}.

(** The [struct tm] that [fat_time_to_unix] fills from a FAT date and time
    before it hands it to [timegm]. *)
Definition fat_time_to_tm (date time : Z) : tm :=
  mkTm (Z.land (Z.shiftl time 1) 0x3e)
       (Z.land (Z.shiftr time 5) 0x3f)
       (Z.land (Z.shiftr time 11) 0x1f)
       (Z.land date 0x1f)
       (Z.land (Z.shiftr date 5) 0x0f - 1)
       (Z.land (Z.shiftr date 9) 0x7f + 80).

(** The FAT date and time [unix_time_to_fat] packs from the [struct tm]
    that [gmtime] returned. *)
Definition tm_to_fat_time (t : tm) : Z * Z :=
  (u16 (Z.lor (Z.lor (Z.shiftl (u16 (tm_year t - 80)) 9)
                     (Z.shiftl (u16 (tm_mon t) + 1) 5))
              (u16 (tm_mday t))),
   u16 (Z.lor (Z.lor (Z.shiftl (u16 (tm_hour t)) 11)
                     (Z.shiftl (u16 (tm_min t)) 5))
              (Z.shiftr (u16 (tm_sec t)) 1))).

Section Calendar.
(** [timegm] and [gmtime] come from the time library. *)
Variable timegm : tm -> Z.
Variable gmtime : Z -> tm.

Definition fat_time_to_unix (date time : Z) : Z :=
  timegm (fat_time_to_tm date time).

Definition unix_time_to_fat (epoch : Z) : Z * Z :=
  tm_to_fat_time (gmtime epoch).

End Calendar.

(** [P] holds of the [n] integers from [z] on. *)
Fixpoint all_upto (n : nat) (z : Z) (P : Z -> bool) : bool :=
  match n with
  | O => true
  | S k => P z && all_upto k (z + 1) P
  end.

(** The round trips of the two conversions, as checks over the finitely
    many values of a field. *)
Definition fat_date_round_trip (d : Z) : bool :=
  fst (tm_to_fat_time (fat_time_to_tm d 0)) =? d.
Definition fat_time_round_trip (t : Z) : bool :=
  snd (tm_to_fat_time (fat_time_to_tm 0 t)) =? t.

Definition tm_date_round_trip (y : Z) : bool :=
  all_upto 15 0 (fun m =>
    all_upto 32 0 (fun d =>
      let t := mkTm 0 0 0 d m (y + 80) in
      let u := fat_time_to_tm (fst (tm_to_fat_time t)) 0 in
      (tm_mday u =? d) && (tm_mon u =? m) && (tm_year u =? y + 80))).

Definition tm_time_round_trip (h : Z) : bool :=
  all_upto 64 0 (fun m =>
    all_upto 64 0 (fun s =>
      let t := mkTm s m h 0 0 0 in
      let u := fat_time_to_tm 0 (snd (tm_to_fat_time t)) in
      (tm_sec u =? 2 * (s / 2)) && (tm_min u =? m) && (tm_hour u =? h))).

(** The stream record [open] leaves on success, for its flags and the
    engine handle [h]: get and put bound by access mode. *)
Definition opened_file (flags : Z) (h : ptr) : FILE :=
  if Z.land flags O_ACCMODE =? O_RDWR then
    mkFILE None x00 _FDEV_SETUP_RW 0 0 (Some Put_fatfs) (Some Get_fatfs)
           (Some h)
  else if Z.land flags O_ACCMODE =? O_RDONLY then
    mkFILE None x00 _FDEV_SETUP_READ 0 0 None (Some Get_fatfs) (Some h)
  else
    mkFILE None x00 _FDEV_SETUP_WRITE 0 0 (Some Put_fatfs) None (Some h).

(** The handle [new_file_descriptor] would hand out: the first non-console
    slot that is free. *)
Definition first_free {W : Type} (st : state W) (k : Z) : Prop :=
  3 <= k < MAX_FILES st /\
  __iob st !! Z.to_nat k = Some None /\
  forall j : Z, 3 <= j < k -> occupied st j.

(** The state a successful [open] leaves when it took slot [k] and the
    engine left the world [w]: the slot holds the new stream, bound to the
    new engine handle, and [errno] is 0. *)
Definition open_succeeded {W : Type} (st : state W) (k flags : Z) (w : W)
    : state W :=
  mkState (<[Z.to_nat k := Some (new_stream st)]> (__iob st)) 0
          (<[new_stream st := B_FILE (opened_file flags (new_fil st))]>
             (<[new_fil st := B_FIL]> (heap st)))
          w.

(** The mode byte that [fopen]'s [open] hands to [f_open] for a mode
    string. *)
Definition fopen_fatfs_mode (mode : string) : Z :=
  Z.land (open_fatfs_modes (posix_fopen_modes_to_open mode)) 0xff.

(** ** Further stream and position functions *)

Section PosixMore.
Context {W : Type} `{PF : Platform W}.

(** The monad of the functions, at this world. *)
Local Abbreviation MW := (@M W).

(** [feof] and [ferror] read [stream->flags] without a NULL test. *)
Definition feof (stream : option ptr) : MW Z :=
  match stream with
  | None => fault
  | Some s =>
      do f <- load_FILE s;
      ret (if Z.land (flags f) __SEOF =? 0 then 0 else 1)
  end.

Definition ferror (stream : option ptr) : MW Z :=
  match stream with
  | None => fault
  | Some s =>
      do f <- load_FILE s;
      ret (if Z.land (flags f) __SERR =? 0 then 0 else 1)
  end.

Definition clrerror (stream : option ptr) : MW unit :=
  match stream with
  | None => fault
  | Some s =>
      run modify_FILE s (flags_clear __SEOF);
      modify_FILE s (flags_clear __SERR)
  end.

Definition getchar : MW Z :=
  do s <- stdin; fgetc s.

(** [ftell]: [fh->fptr] as a [long]. *)
Definition ftell (stream : option ptr) : MW Z :=
  run set_errno 0;
  do fn <- fileno stream;
  if isatty fn then ret (-1)
  else
    do fh <- fileno_to_fatfs fn;
    match fh with
    | None => run set_errno EBADF; ret (-1)
    | Some h => do st <- get_state; ret (s32 (f_tell (world st) h))
    end.

Definition fseek (stream : option ptr) (offset whence : Z) : MW Z :=
  do fn <- fileno stream;
  if fn <? 0 then ret (-1)
  else
    do r <- lseek fn offset whence;
    if r =? -1 then ret (-1) else ret 0.

(** [fgetpos]: the return value and what is stored in [*pos], a
    [size_t]. *)
Definition fgetpos (stream : option ptr) : MW (Z * Z) :=
  do offset <- ftell stream;
  ret (if offset =? -1 then -1 else 0, u32 offset).

(** [fsetpos], given the value of [*pos]. *)
Definition fsetpos (stream : option ptr) (pos : Z) : MW Z :=
  fseek stream (s32 pos) SEEK_SET.

Definition rewind (stream : option ptr) : MW unit :=
  do _ <- fseek stream 0 SEEK_SET; ret tt.

Definition fclose (stream : option ptr) : MW Z :=
  do fn <- fileno stream;
  if fn <? 0 then ret EOF else close fn.

(** The loop of [fgets] for a size that is not negative: [n] rounds are
    left, [ind] characters are in [str].  [None] is the early return of
    NULL. *)
Fixpoint fgets_loop (n : nat) (stream : option ptr) (str : list byte)
    (ind : nat) : MW (option nat * list byte) :=
  match n with
  | O => ret (Some ind, str)
  | S n' =>
      do c <- fgetc stream;
      if c =? EOF then
        match ind with
        | O => ret (None, str)
        | S _ => ret (Some ind, str)
        end
      else if c =? 10 then ret (Some ind, str)
      else if c =? 0x08 then fgets_loop n' stream str (Nat.pred ind)
      else fgets_loop n' stream (<[ind := Z_to_byte c]> str) (S ind)
  end.

(** [fgets]: whether [str] (rather than NULL) is returned, and the buffer
    [str] afterwards. *)
Definition fgets (str : list byte) (size : Z) (stream : option ptr)
    : MW (bool * list byte) :=
  do r <- fgets_loop (Z.to_nat size) stream str 0;
  match r with
  | (None, str') => ret (false, str')
  | (Some ind, str') => ret (true, <[ind := x00]> str')
  end.

(** The loop of [fatfs_to_fileno]. *)
Fixpoint fatfs_to_fileno_scan (fh : ptr) (n : nat) (i : Z) : MW Z :=
  match n with
  | O => run set_errno EBADF; ret (-1)
  | S n' =>
      do stream <- iob_at i;
      match stream with
      | Some s =>
          do u <- fdev_get_udata s;
          if decide (Some fh = u) then ret i
          else fatfs_to_fileno_scan fh n' (i + 1)
      | None => fatfs_to_fileno_scan fh n' (i + 1)
      end
  end.

Definition fatfs_to_fileno (fh : option ptr) : MW Z :=
  match fh with
  | None => run set_errno EBADF; ret (-1)
  | Some h =>
      do st <- get_state; fatfs_to_fileno_scan h (length (__iob st)) 0
  end.

(** [fdevopen]: a new stream for a console transport; it becomes [stdin],
    [stdout], [stderr] where these are still unassigned. *)
Definition fdevopen (put_ : option putfn) (get_ : option getfn)
    : MW (option ptr) :=
  match put_, get_ with
  | None, None => ret None
  | _, _ =>
      do s <- safecalloc (B_FILE FILE_zero);
      match s with
      | None => ret None
      | Some p =>
          run modify_FILE p (with_flags __SMALLOC);
          run match get_ with
              | Some g =>
                  run modify_FILE p (fun f =>
                        flags_set __SRD
                          (with_put_get (put f) (Some g) f));
                  do in_ <- stdin;
                  match in_ with
                  | None => iob_store 0 (Some p)
                  | Some _ => ret tt
                  end
              | None => ret tt
              end;
          run match put_ with
              | Some q =>
                  run modify_FILE p (fun f =>
                        flags_set __SWR
                          (with_put_get (Some q) (get f) f));
                  do out <- stdout;
                  run match out with
                      | None => iob_store 1 (Some p)
                      | Some _ => ret tt
                      end;
                  do err <- stderr;
                  match err with
                  | None => iob_store 2 (Some p)
                  | Some _ => ret tt
                  end
              | None => ret tt
              end;
          ret (Some p)
      end
  end.

(** The stream of handle [k] is bound to the engine handle [h]. *)
Definition bound_to (st : state W) (k : Z) (h : ptr) : Prop :=
  exists (s : ptr) (f : FILE),
    slot st k = Some s /\ heap st !! s = Some (B_FILE f) /\ udata f = Some h.

(** Whether a function pointer was given. *)
Definition given {A : Type} (o : option A) : bool :=
  match o with
  | Some _ => true
  | None => false
  end.

(** A console slot after [fdevopen] has offered it the stream [p]: taken
    only when [enabled] (the transport has the function the slot needs) and
    the slot is still NULL. *)
Definition register_if_free (enabled : bool) (k : nat) (p : ptr)
    (t : list (option ptr)) : list (option ptr) :=
  if enabled then
    match t !! k with
    | Some None => <[k := Some p]> t
    | _ => t
    end
  else t.

(** The console slots a transport can serve: [stdin] needs a [get]
    function, [stdout] and [stderr] need a [put] function. *)
Definition console_role (put_ : option putfn) (get_ : option getfn)
    (k : nat) : bool :=
  match k with
  | 0%nat => given get_
  | 1%nat | 2%nat => given put_
  | _ => false
  end.

(** The stream record [fdevopen] builds. *)
Definition console_file (put_ : option putfn) (get_ : option getfn) : FILE :=
  mkFILE None x00
    (Z.lor (Z.lor __SMALLOC (if given get_ then __SRD else 0))
           (if given put_ then __SWR else 0))
    0 0 put_ get_ None.

End PosixMore.

(** ** Further run states *)

(** [st0] with "hi" and a newline typed at the console. *)
Definition st_typed : state MemFS.mem_world :=
  mkState (__iob MemFS.st0) 0 (heap MemFS.st0)
          (MemFS.mkWorld MemFS.disk0 ∅ [104; 105; 10] false).

(** A table of four free slots before any console has been registered. *)
Definition st_boot : state MemFS.mem_world :=
  mkState [None; None; None; None] 0 ∅ MemFS.world0.

(** ** Writing, synchronising and file metadata *)

(** File attribute bits of a directory entry (ff.h). *)
Definition AM_RDO : Z := 0x01.
Definition AM_SYS : Z := 0x04.
Definition AM_DIR : Z := 0x10.

(** Mode bits (sys/stat.h) and the permission sets posix.h builds from
    them. *)
Definition S_IFDIR : Z := 0x4000.
Definition S_IFREG : Z := 0x8000.
Definition S_IWUSR : Z := 0x80.
Definition S_IWGRP : Z := 0x10.
Definition S_IWOTH : Z := 0x02.
Definition FATFS_R : Z := 0x124.
Definition FATFS_W : Z := 0x92.
Definition FATFS_X : Z := 0x49.

(** The fields of [FILINFO] that [stat] reads and [utime] fills. *)
Record FILINFO : Type := mkFILINFO {
  fsize : Z;
  fdate : Z;
  ftime : Z;
  fattrib : Z
}.

(** The fields of [struct stat] that [stat] assigns. *)
Record stat_t : Type := mkStat {
  st_size : Z;
  st_atime : Z;
  st_mtime : Z;
  st_ctime : Z;
  st_uid : Z;
  st_gid : Z;
  st_mode : Z
}.

Definition with_st_size (v : Z) (b : stat_t) : stat_t :=
  mkStat v (st_atime b) (st_mtime b) (st_ctime b) (st_uid b) (st_gid b)
         (st_mode b).
Definition with_st_atime (v : Z) (b : stat_t) : stat_t :=
  mkStat (st_size b) v (st_mtime b) (st_ctime b) (st_uid b) (st_gid b)
         (st_mode b).
Definition with_st_mtime (v : Z) (b : stat_t) : stat_t :=
  mkStat (st_size b) (st_atime b) v (st_ctime b) (st_uid b) (st_gid b)
         (st_mode b).
Definition with_st_ctime (v : Z) (b : stat_t) : stat_t :=
  mkStat (st_size b) (st_atime b) (st_mtime b) v (st_uid b) (st_gid b)
         (st_mode b).
Definition with_st_uid (v : Z) (b : stat_t) : stat_t :=
  mkStat (st_size b) (st_atime b) (st_mtime b) (st_ctime b) v (st_gid b)
         (st_mode b).
Definition with_st_gid (v : Z) (b : stat_t) : stat_t :=
  mkStat (st_size b) (st_atime b) (st_mtime b) (st_ctime b) (st_uid b) v
         (st_mode b).
Definition with_st_mode (v : Z) (b : stat_t) : stat_t :=
  mkStat (st_size b) (st_atime b) (st_mtime b) (st_ctime b) (st_uid b)
         (st_gid b) v.

(** The collaborators of the functions below: the engine's writing and
    directory operations, the console output transport, the time library,
    and whether the compiler's plain [char] is signed. *)
Class PlatformIO (W : Type) : Type := {
  f_write : W -> ptr -> list byte -> Z * Z * W;
  f_sync : W -> ptr -> Z * W;
  f_truncate : W -> ptr -> Z * W;
  f_stat : W -> string -> Z * FILINFO * W;
  f_chmod : W -> string -> Z -> Z -> Z * W;
  f_mkdir : W -> string -> Z * W;
  f_utime : W -> string -> Z -> Z -> Z * W;
  dev_put : nat -> byte -> W -> Z * W;
  timegm : tm -> Z;
  gmtime : Z -> tm;
  time : W -> Z;
  char_is_signed : bool
}.

Section PosixIO.
Context {W : Type} `{PF : Platform W} `{PIO : PlatformIO W}.

Local Abbreviation MW := (@M W).

(** A [char] as the [int] it promotes to. *)
Definition char_to_int (b : byte) : Z :=
  if char_is_signed && (128 <=? byte_to_Z b) then byte_to_Z b - 256
  else byte_to_Z b.

(** [fatfs_putc]: one byte to the engine. *)
Definition fatfs_putc (c : byte) (stream : option ptr) : MW Z :=
  run set_errno 0;
  match stream with
  | None => run set_errno EBADF; ret EOF
  | Some s =>
      do fh <- fdev_get_udata s;
      match fh with
      | None => run set_errno EBADF; ret EOF
      | Some h =>
          do r <- engine (fun w => f_write w h [c]);
          let '(res, sz) := r in
          if negb (res =? FR_OK) || negb (sz =? 1) then
            run set_errno (fatfs_to_errno res);
            run modify_FILE s (flags_set __SEOF);
            ret EOF
          else ret (char_to_int c)
      end
  end.

(** [*stream->buf = c] of a string stream. *)
Definition store_char (b : ptr) (off : nat) (c : byte) : MW unit :=
  fun st => match heap st !! b with
            | Some (B_chars l) =>
                if (off <? length l)%nat
                then set_heap (<[b := B_chars (<[off := c]> l)]> (heap st)) st
                else None
            | _ => None
            end.

(** [stream != stdout && stream != stderr] *)
Definition not_console_out (s : ptr) : MW bool :=
  do out <- stdout;
  if decide (Some s = out) then ret false
  else do err <- stderr; ret (negb (bool_decide (Some s = err))).

(** [fputc].  The diagnostic [printf] of the missing-put branch is left
    out. *)
Definition fputc (c : Z) (stream : option ptr) : MW Z :=
  run set_errno 0;
  match stream with
  | None => run set_errno EBADF; ret EOF
  | Some s =>
      do file <- not_console_out s;
      if file then fatfs_putc (Z_to_byte c) (Some s)
      else
        do f <- load_FILE s;
        if Z.land (flags f) __SWR =? 0 then ret EOF
        else if negb (Z.land (flags f) __SSTR =? 0) then
          run (if len f <? size f then
                 match buf f with
                 | None => fault
                 | Some (b, off) =>
                     run store_char b off (Z_to_byte c);
                     store_FILE s (with_buf (Some (b, S off)) f)
                 end
               else ret tt);
          run modify_FILE s (fun f' => with_len (len f' + 1) f');
          ret c
        else
          match put f with
          | None => ret EOF
          | Some p =>
              do r <- match p with
                      | Put_fatfs => fatfs_putc (Z_to_byte c) (Some s)
                      | Put_dev d => engine (dev_put d (Z_to_byte c))
                      end;
              run (if r =? EOF then ret tt
                   else modify_FILE s (fun f' => with_len (len f' + 1) f'));
              ret r
          end
  end.

(** The console loop of [write]: [n] bytes are still to go, the next one is
    at offset [off]. *)
Fixpoint write_tty (n : nat) (stream : option ptr) (buffer : list byte)
    (off : nat) (sz : Z) : MW Z :=
  match n with
  | O => ret sz
  | S n' =>
      match buffer !! off with
      | None => fault
      | Some b =>
          let c := char_to_int b in
          do r <- fputc c stream;
          if negb (c =? r) then ret sz
          else write_tty n' stream buffer (S off) (sz + 1)
      end
  end.

(** [stream == stdout || stream == stderr] for a stream that may be
    NULL. *)
Definition is_console_out (stream : option ptr) : MW bool :=
  do out <- stdout;
  if decide (stream = out) then ret true
  else do err <- stderr; ret (bool_decide (stream = err)).

(** [write] *)
Definition write (fd : Z) (buffer : list byte) (count : Z) : MW Z :=
  run set_errno 0;
  do stream <- fileno_to_stream fd;
  do tty <- is_console_out stream;
  if tty then write_tty (Z.to_nat count) stream buffer 0 0
  else
    do in_ <- stdin;
    if decide (stream = in_) then ret (-1)
    else
      do fh <- fileno_to_fatfs fd;
      match fh with
      | None => run set_errno EBADF; ret (-1)
      | Some h =>
          do r <- engine (fun w =>
                    f_write w h (take (Z.to_nat (u32 count)) buffer));
          let '(res, sz) := r in
          if negb (res =? FR_OK) then
            run set_errno (fatfs_to_errno res); ret (-1)
          else ret (s32 sz)
      end.

(** [ftruncate] *)
Definition ftruncate (fd length : Z) : MW Z :=
  run set_errno 0;
  if isatty fd then ret (-1)
  else
    do fh <- fileno_to_fatfs fd;
    match fh with
    | None => ret (-1)
    | Some h =>
        do rc <- engine (fun w => f_lseek w h (u32 length));
        if negb (rc =? FR_OK) then
          run set_errno (fatfs_to_errno rc); ret (-1)
        else
          do rc <- engine (fun w => f_truncate w h);
          if negb (rc =? FR_OK) then
            run set_errno (fatfs_to_errno rc); ret (-1)
          else ret 0
    end.

(** [syncfs]: [stream->flags] is written before anything tells whether the
    handle has a stream. *)
Definition syncfs (fd : Z) : MW Z :=
  run set_errno 0;
  if isatty fd then run set_errno EBADF; ret (-1)
  else
    do stream <- fileno_to_stream fd;
    match stream with
    | None => fault
    | Some s =>
        run modify_FILE s (flags_set __SUNGET);
        do fh <- fileno_to_fatfs fd;
        match fh with
        | None => run set_errno EBADF; ret (-1)
        | Some h =>
            do res <- engine (fun w => f_sync w h);
            if negb (res =? FR_OK) then
              run set_errno (fatfs_to_errno res); ret (-1)
            else ret 0
        end
    end.

(** The body of [sync]'s loop at handle [i]. *)
Definition sync_visit (i : Z) : MW unit :=
  if isatty i then ret tt
  else
    do fh <- fileno_to_fatfs i;
    match fh with
    | None => ret tt
    | Some _ => do _ <- syncfs i; ret tt
    end.

(** The loop of [sync]: [n] handles are left, starting at [i]. *)
Fixpoint sync_loop (n : nat) (i : Z) : MW unit :=
  match n with
  | O => ret tt
  | S n' => run sync_visit i; sync_loop n' (i + 1)
  end.

Definition sync : MW unit :=
  do st <- get_state; sync_loop (length (__iob st)) 0.

(** [stat]: the caller's [struct stat] is passed in and handed back with the
    return value. *)
Definition stat (name : string) (buf : stat_t) : MW (Z * stat_t) :=
  run set_errno 0;
  if String.eqb name "/" || String.eqb name "." then
    ret (0, with_st_mode S_IFDIR
              (with_st_size 0
                 (with_st_gid 0
                    (with_st_uid 0
                       (with_st_ctime 0
                          (with_st_mtime 0 (with_st_atime 0 buf)))))))
  else
    do r <- engine (fun w => f_stat w name);
    let '(res, info) := r in
    if negb (res =? FR_OK) then
      run set_errno (fatfs_to_errno res); ret (-1, buf)
    else
      let buf := with_st_size (fsize info) buf in
      let epoch := fat_time_to_unix timegm (fdate info) (ftime info) in
      let buf := with_st_ctime epoch
                   (with_st_mtime epoch (with_st_atime epoch buf)) in
      let mode := Z.lor FATFS_R FATFS_X in
      let mode := if Z.land (fattrib info) AM_RDO =? 0
                  then u16 (Z.lor mode FATFS_W) else mode in
      let buf := if negb (Z.land (fattrib info) AM_SYS =? 0)
                 then with_st_gid 0 (with_st_uid 0 buf) else buf in
      let buf := with_st_gid 1000 (with_st_uid 1000 buf) in
      let mode := if negb (Z.land (fattrib info) AM_DIR =? 0)
                  then u16 (Z.lor mode S_IFDIR)
                  else u16 (Z.lor mode S_IFREG) in
      ret (0, with_st_mode mode buf).

(** [utime]: [times] is the [modtime] of the caller's [struct utimbuf], or
    NULL. *)
Definition utime (filename : string) (times : option Z) : MW Z :=
  do st <- get_state;
  let ut := match times with
            | Some modtime => modtime
            | None => time (world st)
            end in
  let '(date, tim) := unix_time_to_fat gmtime ut in
  do res <- engine (fun w => f_utime w filename date tim);
  ret (fatfs_to_errno res).

(** [chmod] *)
Definition chmod (pathname : string) (mode : Z) : MW Z :=
  run set_errno 0;
  if Z.land mode (Z.lor (Z.lor S_IWUSR S_IWGRP) S_IWOTH) =? 0 then
    do rc <- engine (fun w => f_chmod w pathname AM_RDO AM_RDO);
    if negb (rc =? FR_OK) then
      run set_errno (fatfs_to_errno rc); ret (-1)
    else ret 0
  else ret 0.

(** [mkdir] *)
Definition mkdir (pathname : string) (mode : Z) : MW Z :=
  run set_errno 0;
  do r <- (if negb (mode =? 0) then chmod pathname mode else ret 0);
  if negb (r =? 0) then ret (-1)
  else
    do res <- engine (fun w => f_mkdir w pathname);
    if negb (res =? FR_OK) then
      run set_errno (fatfs_to_errno res); ret (-1)
    else ret 0.

End PosixIO.

(** Every stream of the table is a live [FILE]. *)
Definition streams_live {W : Type} (st : state W) : Prop :=
  forall (k : nat) (s : ptr),
    __iob st !! k = Some (Some s) ->
    exists f : FILE, heap st !! s = Some (B_FILE f).

(** From [st] to [st'] the table is the same and every [FILE] is still one,
    bound to the same engine handle, with a pushback that was pending still
    pending. *)
Definition streams_kept {W : Type} (st st' : state W) : Prop :=
  __iob st' = __iob st /\
  forall (s : ptr) (f : FILE),
    heap st !! s = Some (B_FILE f) ->
    exists f' : FILE,
      heap st' !! s = Some (B_FILE f') /\ udata f' = udata f /\
      (Z.land (flags f) __SUNGET <> 0 -> Z.land (flags f') __SUNGET <> 0).

(** ** The in-memory platform with writing and metadata

    The engine of [MemFS] extended with what the functions above need: the
    mode each file object was opened with, an attribute byte and a
    timestamp per path, the bytes sent to the console, and a clock.  The
    calendar conversions are the proleptic Gregorian ones. *)
Module MemIO.
Import MemFS.

Record io_world : Type := mkIO {
  fs : mem_world;
  modes : gmap ptr Z;
  attribs : gmap string Z;
  stamps : gmap string (Z * Z);
  printed : list byte;
  clock : Z
}.

Definition with_fs (m : mem_world) (w : io_world) : io_world :=
  mkIO m (modes w) (attribs w) (stamps w) (printed w) (clock w).

Definition io_open (w : io_world) (fh : ptr) (path : string) (mode : Z)
    : Z * io_world :=
  let '(r, m) := m_open (fs w) fh path mode in
  (r, mkIO m (if r =? FR_OK then <[fh := mode]> (modes w) else modes w)
           (attribs w) (stamps w) (printed w) (clock w)).

Definition io_close (w : io_world) (fh : ptr) : Z * io_world :=
  let '(r, m) := m_close (fs w) fh in (r, with_fs m w).

Definition io_read (w : io_world) (fh : ptr) (n : Z)
    : Z * list byte * io_world :=
  let '(r, d, m) := m_read (fs w) fh n in (r, d, with_fs m w).

Definition io_lseek (w : io_world) (fh : ptr) (pos : Z) : Z * io_world :=
  let '(r, m) := m_lseek (fs w) fh pos in (r, with_fs m w).

Definition io_dev_get (d : nat) (w : io_world) : Z * io_world :=
  let '(c, m) := m_dev_get d (fs w) in (c, with_fs m w).

(** The file object [fh] with its data replaced, on the disk as well. *)
Definition put_data (w : io_world) (fh : ptr) (f : memfile)
    (data : list byte) (pos : Z) : io_world :=
  with_fs (mkWorld (<[mf_path f := data]> (disk (fs w)))
                   (<[fh := mkMemfile (mf_path f) data pos]> (opened (fs w)))
                   (console (fs w)) (seek_errors (fs w))) w.

Definition io_write (w : io_world) (fh : ptr) (data : list byte)
    : Z * Z * io_world :=
  match opened (fs w) !! fh with
  | Some f =>
      if Z.land (default 0 (modes w !! fh)) FA_WRITE =? 0
      then (FR_DENIED, 0, w)
      else
        let pos := Z.to_nat (mf_pos f) in
        let data' := (take pos (mf_data f) ++ data
                      ++ drop (pos + length data) (mf_data f))%list in
        (FR_OK, Z.of_nat (length data),
         put_data w fh f data' (mf_pos f + Z.of_nat (length data)))
  | None => (FR_INVALID_OBJECT, 0, w)
  end.

Definition io_sync (w : io_world) (fh : ptr) : Z * io_world :=
  match opened (fs w) !! fh with
  | Some _ => (FR_OK, w)
  | None => (FR_INVALID_OBJECT, w)
  end.

Definition io_truncate (w : io_world) (fh : ptr) : Z * io_world :=
  match opened (fs w) !! fh with
  | Some f =>
      if Z.land (default 0 (modes w !! fh)) FA_WRITE =? 0
      then (FR_DENIED, w)
      else (FR_OK, put_data w fh f (take (Z.to_nat (mf_pos f)) (mf_data f))
                     (mf_pos f))
  | None => (FR_INVALID_OBJECT, w)
  end.

(** An entry without a recorded timestamp dates from 1980-01-01. *)
Definition io_stat (w : io_world) (path : string)
    : Z * FILINFO * io_world :=
  match disk (fs w) !! path with
  | Some d =>
      let '(date, tim) := default (0x21, 0) (stamps w !! path) in
      (FR_OK,
       mkFILINFO (Z.of_nat (length d)) date tim
                 (default 0 (attribs w !! path)), w)
  | None => (FR_NO_FILE, mkFILINFO 0 0 0 0, w)
  end.

Definition io_chmod (w : io_world) (path : string) (attr mask : Z)
    : Z * io_world :=
  match disk (fs w) !! path with
  | Some _ =>
      let old := default 0 (attribs w !! path) in
      (FR_OK,
       mkIO (fs w) (modes w)
            (<[path := Z.lor (Z.land old (Z.lnot mask)) (Z.land attr mask)]>
               (attribs w))
            (stamps w) (printed w) (clock w))
  | None => (FR_NO_FILE, w)
  end.

Definition io_mkdir (w : io_world) (path : string) : Z * io_world :=
  match disk (fs w) !! path with
  | Some _ => (FR_EXIST, w)
  | None =>
      (FR_OK,
       mkIO (mkWorld (<[path := []]> (disk (fs w))) (opened (fs w))
                     (console (fs w)) (seek_errors (fs w)))
            (modes w) (<[path := AM_DIR]> (attribs w)) (stamps w)
            (printed w) (clock w))
  end.

Definition io_utime (w : io_world) (path : string) (date tim : Z)
    : Z * io_world :=
  match disk (fs w) !! path with
  | Some _ =>
      (FR_OK,
       mkIO (fs w) (modes w) (attribs w) (<[path := (date, tim)]> (stamps w))
            (printed w) (clock w))
  | None => (FR_NO_FILE, w)
  end.

(** The console echoes the byte it was given. *)
Definition io_dev_put (d : nat) (b : byte) (w : io_world) : Z * io_world :=
  (byte_to_Z b,
   mkIO (fs w) (modes w) (attribs w) (stamps w) (printed w ++ [b])%list (clock w)).

(** Days since 1970-01-01 of a civil date, and back. *)
Definition days_from_civil (y m d : Z) : Z :=
  let y := if m <=? 2 then y - 1 else y in
  let era := y / 400 in
  let yoe := y - era * 400 in
  let doy := (153 * (if 2 <? m then m - 3 else m + 9) + 2) / 5 + d - 1 in
  let doe := yoe * 365 + yoe / 4 - yoe / 100 + doy in
  era * 146097 + doe - 719468.

Definition civil_from_days (z : Z) : Z * Z * Z :=
  let z := z + 719468 in
  let era := z / 146097 in
  let doe := z - era * 146097 in
  let yoe := (doe - doe / 1460 + doe / 36524 - doe / 146096) / 365 in
  let doy := doe - (365 * yoe + yoe / 4 - yoe / 100) in
  let mp := (5 * doy + 2) / 153 in
  let d := doy - (153 * mp + 2) / 5 + 1 in
  let m := if mp <? 10 then mp + 3 else mp - 9 in
  let y := yoe + era * 400 in
  (if m <=? 2 then y + 1 else y, m, d).

Definition io_timegm (t : tm) : Z :=
  days_from_civil (tm_year t + 1900) (tm_mon t + 1) (tm_mday t) * 86400
  + tm_hour t * 3600 + tm_min t * 60 + tm_sec t.

Definition io_gmtime (epoch : Z) : tm :=
  let '(y, m, d) := civil_from_days (epoch / 86400) in
  let r := epoch mod 86400 in
  mkTm (r mod 60) (r / 60 mod 60) (r / 3600) d (m - 1) (y - 1900).

Lemma io_tell_range (w : io_world) (fh : ptr) :
  0 <= m_tell (fs w) fh < 2 ^ 32.
Proof. apply m_tell_range. Qed.

Lemma io_size_range (w : io_world) (fh : ptr) :
  0 <= m_size (fs w) fh < 2 ^ 32.
Proof. apply m_size_range. Qed.

#[export] Instance platform : Platform io_world := {|
  f_open := io_open;
  f_close := io_close;
  f_read := io_read;
  f_lseek := io_lseek;
  f_tell := fun w fh => m_tell (fs w) fh;
  f_size := fun w fh => m_size (fs w) fh;
  dev_get := io_dev_get;
  can_alloc := m_can_alloc;
  f_tell_range := io_tell_range;
  f_size_range := io_size_range
|}.

#[export] Instance platform_io : PlatformIO io_world := {|
  f_write := io_write;
  f_sync := io_sync;
  f_truncate := io_truncate;
  f_stat := io_stat;
  f_chmod := io_chmod;
  f_mkdir := io_mkdir;
  f_utime := io_utime;
  dev_put := io_dev_put;
  timegm := io_timegm;
  gmtime := io_gmtime;
  time := clock;
  char_is_signed := false
|}.

(** A state of [MemFS] on this platform; the clock shows
    2025-10-30 17:33:31. *)
Definition io_state (st : state mem_world) : state io_world :=
  mkState (__iob st) (errno st) (heap st)
          (mkIO (world st) ∅ ∅ ∅ [] 1761845611).

Definition io0 : state io_world := io_state st0.

Definition io_after {A : Type} (m : option (A * state io_world))
    : state io_world :=
  match m with
  | Some (_, st) => st
  | None => io0
  end.

(** "/a.txt" opened on handle 3, for reading and writing and for reading
    only. *)
Definition io_rw : state io_world := io_after (open "/a.txt" O_RDWR io0).
Definition io_ro : state io_world := io_after (open "/a.txt" O_RDONLY io0).

(** [st_a] once its three bytes have been read. *)
Definition st_a_end : state mem_world :=
  after (fgetc (Some stream3)
           (after (fgetc (Some stream3)
                     (after (fgetc (Some stream3) st_a))))).

End MemIO.

(** ** An engine whose seek goes where it is asked

    [MemFS] keeps the position within the data, as FatFS does for a file
    open for reading.  For a file open for writing FatFS moves the position
    beyond the end, extending the file, as far as the volume has room.  This
    platform is [MemFS] with such a seek: the position becomes the one
    asked for; the data are left alone. *)
Module MemGrow.
Import MemFS.

Record grow_world : Type := mkGrow { under : mem_world }.

Definition lifted {A : Type} (r : A * mem_world) : A * grow_world :=
  (fst r, mkGrow (snd r)).

Definition g_read (w : grow_world) (fh : ptr) (n : Z)
    : Z * list byte * grow_world :=
  let '(r, d, m) := m_read (under w) fh n in (r, d, mkGrow m).

Definition g_lseek (w : grow_world) (fh : ptr) (pos : Z) : Z * grow_world :=
  match opened (under w) !! fh with
  | Some f =>
      (FR_OK,
       mkGrow (mkWorld (disk (under w))
                       (<[fh := mkMemfile (mf_path f) (mf_data f) pos]>
                          (opened (under w)))
                       (console (under w)) (seek_errors (under w))))
  | None => (FR_INVALID_OBJECT, w)
  end.

Lemma g_tell_range (w : grow_world) (fh : ptr) :
  0 <= m_tell (under w) fh < 2 ^ 32.
Proof. apply m_tell_range. Qed.

Lemma g_size_range (w : grow_world) (fh : ptr) :
  0 <= m_size (under w) fh < 2 ^ 32.
Proof. apply m_size_range. Qed.

#[export] Instance platform : Platform grow_world := {|
  f_open := fun w fh path mode => lifted (m_open (under w) fh path mode);
  f_close := fun w fh => lifted (m_close (under w) fh);
  f_read := g_read;
  f_lseek := g_lseek;
  f_tell := fun w fh => m_tell (under w) fh;
  f_size := fun w fh => m_size (under w) fh;
  dev_get := fun d w => lifted (m_dev_get d (under w));
  can_alloc := m_can_alloc;
  f_tell_range := g_tell_range;
  f_size_range := g_size_range
|}.




End MemGrow.

(** * Properties *)

(** ** Error Translator *)

(** The codes the switch of [fatfs_to_errno] lists are exactly 0..19. *)
Lemma fatfs_to_errno_fallback (r : Z) :
  r < FR_OK \/ FR_INVALID_PARAMETER < r -> fatfs_to_errno r = EBADMSG.
Proof.
  unfold FR_OK, FR_INVALID_PARAMETER. intros Hr. unfold fatfs_to_errno.
  repeat match goal with
         | |- context [?a =? ?b] =>
             let c := eval compute in b in
             destruct (Z.eqb_spec a b) as [E | _];
             [exfalso; change b with c in E; lia |]
         end.
  reflexivity.
Qed.

Lemma fatfs_to_errno_has_message (r : Z) :
  is_Some (strerror (fatfs_to_errno r)).
Proof.
  unfold fatfs_to_errno.
  repeat match goal with
         | |- context [?a =? ?b] => destruct (a =? b); [vm_compute; eauto |]
         end.
  vm_compute; eauto.
Qed.

(** C9: [fatfs_to_errno] is total on engine result codes.  [FR_OK] maps to
    0, each of the nineteen listed engine codes maps to its fixed POSIX
    code, every other integer maps to [EBADMSG], whose message is
    "Bad Message", and every result has an entry in [sys_errlist]. *)
Theorem fatfs_to_errno_table :
  fatfs_to_errno FR_OK = 0 /\
  fatfs_to_errno FR_DISK_ERR = EIO /\
  fatfs_to_errno FR_INT_ERR = EPERM /\
  fatfs_to_errno FR_NOT_READY = EBUSY /\
  fatfs_to_errno FR_NO_FILE = ENOENT /\
  fatfs_to_errno FR_NO_PATH = ENOENT /\
  fatfs_to_errno FR_INVALID_NAME = EINVAL /\
  fatfs_to_errno FR_DENIED = EACCES /\
  fatfs_to_errno FR_EXIST = EACCES /\
  fatfs_to_errno FR_INVALID_OBJECT = EINVAL /\
  fatfs_to_errno FR_WRITE_PROTECTED = EROFS /\
  fatfs_to_errno FR_INVALID_DRIVE = ENXIO /\
  fatfs_to_errno FR_NOT_ENABLED = ENOSPC /\
  fatfs_to_errno FR_NO_FILESYSTEM = ENXIO /\
  fatfs_to_errno FR_MKFS_ABORTED = EINVAL /\
  fatfs_to_errno FR_TIMEOUT = EBUSY /\
  fatfs_to_errno FR_LOCKED = EBUSY /\
  fatfs_to_errno FR_NOT_ENOUGH_CORE = ENOMEM /\
  fatfs_to_errno FR_TOO_MANY_OPEN_FILES = EMFILE /\
  fatfs_to_errno FR_INVALID_PARAMETER = EINVAL /\
  (forall r : Z,
     r < FR_OK \/ FR_INVALID_PARAMETER < r -> fatfs_to_errno r = EBADMSG) /\
  strerror EBADMSG = Some "Bad Message" /\
  strerror EIO = Some "I/O error" /\
  strerror ENOENT = Some "No such file or directory" /\
  strerror EROFS = Some "Read-only file system" /\
  strerror EMFILE = Some "Too many open files" /\
  (forall r : Z, is_Some (strerror (fatfs_to_errno r))).
Proof.
  repeat split; try reflexivity.
  - apply fatfs_to_errno_fallback.
  - apply fatfs_to_errno_has_message.
Qed.

(** ** Mode strings *)

Lemma modes_unrecognized (mode : string) :
  ~ In mode mode_grammar -> posix_fopen_modes_to_open mode = -1.
Proof.
  intros Hn. unfold posix_fopen_modes_to_open, modecmp.
  repeat match goal with
         | |- context [String.eqb mode ?s] =>
             destruct (String.eqb_spec mode s) as [E | _];
             [exfalso; apply Hn; rewrite E; simpl; tauto |]
         end.
  reflexivity.
Qed.

Lemma modes_never_rdwr_append (mode : string) :
  posix_fopen_modes_to_open mode <> Z.lor (Z.lor O_RDWR O_CREAT) O_APPEND.
Proof.
  unfold posix_fopen_modes_to_open, modecmp.
  repeat match goal with
         | |- context [String.eqb mode ?s] => destruct (String.eqb mode s)
         end; simpl; discriminate.
Qed.

(** C8: for "a+", "a+b" and "ab+" [posix_fopen_modes_to_open] returns -1
    although the read-write-create-append combination was computed; each
    other string of the grammar returns its access mode and creation policy;
    a string outside the grammar returns -1; no mode string yields the
    read-write-create-append flags, so [fopen] never passes them to [open]. *)
Theorem posix_fopen_modes_to_open_table :
  (forall mode : string,
     In mode ["a+"; "a+b"; "ab+"] -> posix_fopen_modes_to_open mode = -1) /\
  (forall mode : string,
     In mode ["r"; "rb"] -> posix_fopen_modes_to_open mode = O_RDONLY) /\
  (forall mode : string,
     In mode ["r+"; "r+b"; "rb+"] ->
     posix_fopen_modes_to_open mode = Z.lor O_RDWR O_TRUNC) /\
  (forall mode : string,
     In mode ["w"; "wb"] ->
     posix_fopen_modes_to_open mode = Z.lor (Z.lor O_WRONLY O_CREAT) O_TRUNC) /\
  (forall mode : string,
     In mode ["w+"; "w+b"; "wb+"] ->
     posix_fopen_modes_to_open mode = Z.lor (Z.lor O_RDWR O_CREAT) O_TRUNC) /\
  (forall mode : string,
     In mode ["a"; "ab"] ->
     posix_fopen_modes_to_open mode = Z.lor (Z.lor O_WRONLY O_CREAT) O_APPEND) /\
  (forall mode : string,
     ~ In mode mode_grammar -> posix_fopen_modes_to_open mode = -1) /\
  (forall mode : string,
     posix_fopen_modes_to_open mode <> Z.lor (Z.lor O_RDWR O_CREAT) O_APPEND).
Proof.
  repeat split;
    try (intros mode Hin; simpl in Hin;
         repeat destruct Hin as [<- | Hin]; try reflexivity; contradiction).
  - apply modes_unrecognized.
  - apply modes_never_rdwr_append.
Qed.

(** The theorem at "a+", at "w+" and at a string outside the grammar. *)
Lemma posix_fopen_modes_to_open_table_witness :
  posix_fopen_modes_to_open "a+" = -1 /\
  posix_fopen_modes_to_open "w+" = 0x242 /\
  posix_fopen_modes_to_open "rw" = -1.
Proof.
  destruct posix_fopen_modes_to_open_table
    as (Ha & _ & _ & _ & Hw & _ & Hu & _).
  split; [| split].
  - apply Ha. simpl. tauto.
  - rewrite (Hw "w+"); [reflexivity | simpl; tauto].
  - apply Hu. vm_compute. intros H.
    repeat destruct H as [H | H]; try discriminate H. exact H.
Defined.

(** ** Descriptor table and streams *)

Section Facts.
Context {W : Type} `{PF : Platform W}.

Ltac munfold :=
  unfold bind, ret, set_errno, set_heap, set_iob, get_state, engine, fault,
    with_errno in *.

Lemma iob_at_eq (i : Z) (st : state W) :
  0 <= i < MAX_FILES st ->
  exists x, __iob st !! Z.to_nat i = Some x /\ iob_at i st = Some (x, st).
Proof.
  intros Hi. unfold iob_at, MAX_FILES in *.
  destruct (lookup_lt_is_Some_2 (__iob st) (Z.to_nat i)) as [x Hx]; [lia |].
  exists x. split; [exact Hx |].
  replace ((0 <=? i) && (i <? Z.of_nat (length (__iob st)))) with true
    by (symmetry; apply andb_true_iff; split; [apply Z.leb_le | apply Z.ltb_lt]; lia).
  rewrite Hx. reflexivity.
Qed.

Lemma fileno_to_stream_eq (i : Z) (st : state W) :
  fileno_to_stream i st =
  Some (slot st i, match slot st i with
                   | Some _ => st
                   | None => with_errno EBADF st
                   end).
Proof.
  unfold fileno_to_stream, slot. munfold.
  destruct (Z.ltb_spec i 0) as [Hlt | Hge]; simpl.
  - replace (0 <=? i) with false by (symmetry; apply Z.leb_gt; lia).
    reflexivity.
  - destruct (Z.geb_spec i (MAX_FILES st)) as [Hb | Hb]; simpl.
    + replace (i <? MAX_FILES st) with false by (symmetry; apply Z.ltb_ge; lia).
      rewrite andb_false_r. reflexivity.
    + destruct (iob_at_eq i st) as (x & Hx & ->); [lia |].
      replace (0 <=? i) with true by (symmetry; apply Z.leb_le; lia).
      replace (i <? MAX_FILES st) with true by (symmetry; apply Z.ltb_lt; lia).
      simpl. rewrite Hx. simpl. destruct x; reflexivity.
Qed.


Lemma slot_range (st : state W) (i : Z) (s : ptr) :
  slot st i = Some s -> 0 <= i < MAX_FILES st.
Proof.
  unfold slot. destruct (Z.leb_spec 0 i), (Z.ltb_spec i (MAX_FILES st));
    simpl; intros; try discriminate; lia.
Qed.

Lemma slot_lookup (st : state W) (i : Z) (s : ptr) :
  slot st i = Some s <->
  0 <= i /\ __iob st !! Z.to_nat i = Some (Some s).
Proof.
  unfold slot, MAX_FILES. split.
  - destruct (Z.leb_spec 0 i), (Z.ltb_spec i (Z.of_nat (length (__iob st))));
      simpl; try discriminate.
    destruct (__iob st !! Z.to_nat i) as [[x|]|]; simpl; try discriminate.
    intros [= ->]. auto.
  - intros [Hi Hl]. pose proof (lookup_lt_Some _ _ _ Hl).
    destruct (Z.leb_spec 0 i); [| lia].
    destruct (Z.ltb_spec i (Z.of_nat (length (__iob st)))); [| lia].
    simpl. rewrite Hl. reflexivity.
Qed.

Lemma load_FILE_eq (s : ptr) (f : FILE) (st : state W) :
  heap st !! s = Some (B_FILE f) -> load_FILE s st = Some (f, st).
Proof. intros H. unfold load_FILE. rewrite H. reflexivity. Qed.

Lemma store_FILE_eq (s : ptr) (f g : FILE) (st : state W) :
  heap st !! s = Some (B_FILE f) ->
  store_FILE s g st =
  Some (tt, mkState (__iob st) (errno st) (<[s := B_FILE g]> (heap st))
                    (world st)).
Proof. intros H. unfold store_FILE. rewrite H. reflexivity. Qed.

Lemma modify_FILE_eq (s : ptr) (f : FILE) (g : FILE -> FILE) (st : state W) :
  heap st !! s = Some (B_FILE f) ->
  modify_FILE s g st =
  Some (tt, mkState (__iob st) (errno st) (<[s := B_FILE (g f)]> (heap st))
                    (world st)).
Proof.
  intros H. unfold modify_FILE, bind. rewrite (load_FILE_eq s f st H).
  apply (store_FILE_eq s f); exact H.
Qed.

Lemma fileno_to_fatfs_valid (i : Z) (st : state W) (s h : ptr) (f : FILE) :
  isatty i = false -> slot st i = Some s ->
  heap st !! s = Some (B_FILE f) -> udata f = Some h ->
  fileno_to_fatfs i st = Some (Some h, st).
Proof.
  intros Ht Hs Hf Hu. unfold fileno_to_fatfs. rewrite Ht.
  unfold bind. rewrite fileno_to_stream_eq, Hs.
  unfold fdev_get_udata, bind. rewrite (load_FILE_eq s f st Hf).
  unfold ret. rewrite Hu. reflexivity.
Qed.

Lemma iob_store_eq (i : Z) (v : option ptr) (st : state W) :
  0 <= i < MAX_FILES st ->
  iob_store i v st =
  Some (tt, mkState (<[Z.to_nat i := v]> (__iob st)) (errno st) (heap st)
                    (world st)).
Proof.
  intros Hi. unfold iob_store.
  destruct (Z.leb_spec 0 i); [| lia].
  destruct (Z.ltb_spec i (MAX_FILES st)); [| lia]. reflexivity.
Qed.

Lemma free_file_descriptor_valid (i : Z) (st : state W) (s : ptr) (f : FILE) :
  isatty i = false -> slot st i = Some s ->
  heap st !! s = Some (B_FILE f) ->
  free_file_descriptor i st =
  Some (i, mkState (<[Z.to_nat i := None]> (__iob st)) (errno st)
                   (delete s (release_owned f (heap st))) (world st)).
Proof.
  intros Ht Hs Hf. pose proof (slot_range st i s Hs) as Hr.
  unfold free_file_descriptor. rewrite Ht.
  unfold bind at 1. rewrite fileno_to_stream_eq, Hs.
  unfold bind at 1. rewrite (load_FILE_eq s f st Hf).
  unfold release_owned.
  destruct (udata f) as [fh|]; destruct (buf f) as [[b o]|];
    try destruct (Z.land (flags f) __SMALLOC =? 0);
    unfold bind, safefree, set_heap, ret; simpl;
    rewrite iob_store_eq by exact Hr; reflexivity.
Qed.

Lemma free_file_descriptor_invalid (i : Z) (st : state W) :
  slot st i = None ->
  free_file_descriptor i st = Some (-1, with_errno EBADF st).
Proof.
  intros Hs. unfold free_file_descriptor.
  destruct (isatty i); [reflexivity |].
  unfold bind. rewrite fileno_to_stream_eq, Hs. reflexivity.
Qed.


Lemma fresh_lookup (h : gmap ptr block) : h !! fresh (dom h) = None.
Proof. apply not_elem_of_dom. apply is_fresh. Qed.

Lemma new_file_descriptor_alloc_eq (k : Z) (st : state W) :
  0 <= k < MAX_FILES st ->
  new_file_descriptor_alloc k st =
  if two_blocks_available st then Some (k, slot_allocated st k)
  else Some (-1, with_errno ENOMEM st).
Proof.
  intros Hk. unfold new_file_descriptor_alloc, two_blocks_available.
  unfold bind at 1. unfold safecalloc at 1.
  destruct (can_alloc (heap st)) eqn:Ha; simpl; [| reflexivity].
  set (s := fresh (dom (heap st))).
  set (heap1 := <[s := B_FILE FILE_zero]> (heap st)).
  unfold bind at 1. unfold safecalloc. simpl. fold heap1.
  destruct (can_alloc heap1) eqn:Hb.
  - set (h := fresh (dom heap1)).
    unfold bind at 1. rewrite iob_store_eq by exact Hk. simpl.
    unfold bind at 1. unfold fdev_set_udata.
    assert (Hne : h <> s).
    { intros E. pose proof (fresh_lookup heap1) as Hf. fold h in Hf.
      rewrite E in Hf. unfold heap1 in Hf. rewrite lookup_insert_eq in Hf.
      discriminate. }
    erewrite modify_FILE_eq; [reflexivity |].
    simpl. rewrite lookup_insert_ne by exact Hne.
    unfold heap1. apply lookup_insert_eq.
  - unfold bind, safefree, set_heap, set_errno, ret, with_errno. simpl.
    unfold heap1. rewrite delete_insert_id by apply fresh_lookup.
    reflexivity.
Qed.

Lemma new_file_descriptor_scan_cases (n : nat) (i : Z) (st : state W) :
  0 <= i -> i + Z.of_nat n = MAX_FILES st ->
  (new_file_descriptor_scan n i st = Some (-1, with_errno ENFILE st) /\
   forall j, i <= j < MAX_FILES st -> isatty j = false -> occupied st j) \/
  (exists k, i <= k < MAX_FILES st /\ isatty k = false /\
             __iob st !! Z.to_nat k = Some None /\
             (forall j, i <= j < k -> isatty j = false -> occupied st j) /\
             new_file_descriptor_scan n i st = new_file_descriptor_alloc k st).
Proof.
  revert i. induction n as [| n IH]; intros i Hi Hlen.
  - left. split; [reflexivity |]. intros j Hj. lia.
  - assert (Hnext : 0 <= i + 1 /\ i + 1 + Z.of_nat n = MAX_FILES st) by lia.
    destruct Hnext as [H1 H2]. specialize (IH (i + 1) H1 H2).
    destruct (iob_at_eq i st) as (x & Hx & Hiob); [lia |].
    assert (E : new_file_descriptor_scan (S n) i st =
                if isatty i then new_file_descriptor_scan n (i + 1) st
                else match x with
                     | Some _ => new_file_descriptor_scan n (i + 1) st
                     | None => new_file_descriptor_alloc i st
                     end).
    { cbn [new_file_descriptor_scan]. destruct (isatty i); [reflexivity |].
      unfold bind. rewrite Hiob. destruct x; reflexivity. }
    rewrite E. clear E.
    assert (Hcons : forall k, (forall j, i + 1 <= j < k -> isatty j = false ->
                                         occupied st j) ->
                    (isatty i = false -> occupied st i) ->
                    forall j, i <= j < k -> isatty j = false -> occupied st j).
    { intros k Hsm Hi' j Hj Hjt.
      destruct (decide (j = i)) as [-> | Hne]; [auto |].
      apply Hsm; [lia | exact Hjt]. }
    destruct (isatty i) eqn:Ht; [| destruct x as [s |]].
    + destruct IH as [[Hs Hocc] | (k & Hk & Hkt & Hkf & Hsm & Hs)].
      * left. split; [exact Hs |]. apply Hcons; [exact Hocc | discriminate].
      * right. exists k. split; [lia |]. split; [exact Hkt |].
        split; [exact Hkf |]. split; [| exact Hs].
        apply Hcons; [exact Hsm | discriminate].
    + assert (Hoi : occupied st i).
      { exists s. apply slot_lookup. auto. }
      destruct IH as [[Hs Hocc] | (k & Hk & Hkt & Hkf & Hsm & Hs)].
      * left. split; [exact Hs |]. apply Hcons; [exact Hocc | auto].
      * right. exists k. split; [lia |]. split; [exact Hkt |].
        split; [exact Hkf |]. split; [| exact Hs].
        apply Hcons; [exact Hsm | auto].
    + right. exists i. split; [lia |]. split; [exact Ht |].
      split; [exact Hx |]. split; [| reflexivity].
      intros j Hj. lia.
Qed.

Lemma occupied_not_free (st : state W) (j : Z) :
  0 <= j -> occupied st j -> __iob st !! Z.to_nat j = Some None -> False.
Proof.
  intros Hj [s Hs] Hf. apply slot_lookup in Hs as [_ Hs]. congruence.
Qed.

Lemma isatty_false (j : Z) : isatty j = false <-> j < 0 \/ 3 <= j.
Proof.
  unfold isatty. destruct (Z.leb_spec 0 j), (Z.leb_spec j 2); simpl;
    split; intros; try discriminate; try reflexivity; lia.
Qed.

Lemma new_file_descriptor_cases (st : state W) :
  (new_file_descriptor st = Some (-1, with_errno ENFILE st) /\
   forall j, 3 <= j < MAX_FILES st -> occupied st j) \/
  (exists k, 3 <= k < MAX_FILES st /\
             __iob st !! Z.to_nat k = Some None /\
             (forall j, 3 <= j < k -> occupied st j) /\
             new_file_descriptor st =
             if two_blocks_available st then Some (k, slot_allocated st k)
             else Some (-1, with_errno ENOMEM st)).
Proof.
  unfold new_file_descriptor, bind, get_state.
  destruct (new_file_descriptor_scan_cases (length (__iob st)) 0 st)
    as [[Hs Hocc] | (k & Hk & Hkt & Hkf & Hsm & Hs)];
    [lia | unfold MAX_FILES; lia | |].
  - left. split; [exact Hs |]. intros j Hj. apply Hocc; [lia |].
    apply isatty_false. lia.
  - right. exists k. apply isatty_false in Hkt.
    repeat split; try lia; try assumption.
    + intros j Hj. apply Hsm; [lia | apply isatty_false; lia].
    + rewrite Hs. apply new_file_descriptor_alloc_eq. lia.
Qed.



Lemma new_fil_ne (st : state W) : new_fil st <> new_stream st.
Proof.
  unfold new_fil. intros E.
  pose proof (fresh_lookup (<[new_stream st := B_FILE FILE_zero]> (heap st)))
    as Hf.
  rewrite E, lookup_insert_eq in Hf. discriminate.
Qed.

Lemma slot_allocated_slot (st st1 : state W) (k : Z) :
  0 <= k < MAX_FILES st ->
  __iob st1 = __iob (slot_allocated st k) ->
  slot st1 k = Some (new_stream st).
Proof.
  intros Hk E. apply slot_lookup. split; [lia |].
  rewrite E. unfold slot_allocated. cbn [__iob].
  apply list_lookup_insert_eq. unfold MAX_FILES in Hk. lia.
Qed.

Lemma slot_allocated_file (st st1 : state W) (k : Z) :
  heap st1 = heap (slot_allocated st k) ->
  heap st1 !! new_stream st =
  Some (B_FILE (with_udata (Some (new_fil st)) FILE_zero)).
Proof.
  intros ->. unfold slot_allocated. cbn [heap]. apply lookup_insert_eq.
Qed.

Lemma slot_allocated_released (st : state W) (k : Z) :
  delete (new_stream st)
    (release_owned (with_udata (Some (new_fil st)) FILE_zero)
       (heap (slot_allocated st k))) = heap st.
Proof.
  unfold release_owned, slot_allocated.
  cbn [udata buf with_udata FILE_zero heap].
  rewrite (delete_insert_ne _ (new_fil st) (new_stream st))
    by apply new_fil_ne.
  rewrite (delete_insert_id _ (new_fil st)) by apply fresh_lookup.
  rewrite delete_insert_eq. apply delete_insert_id, fresh_lookup.
Qed.

Lemma slot_allocated_rollback (st st1 : state W) (k : Z) :
  3 <= k -> __iob st !! Z.to_nat k = Some None ->
  __iob st1 = __iob (slot_allocated st k) ->
  heap st1 = heap (slot_allocated st k) ->
  free_file_descriptor k st1 =
  Some (k, mkState (__iob st) (errno st1) (heap st) (world st1)).
Proof.
  intros Hk Hfree Ei Eh.
  assert (Hr : 0 <= k < MAX_FILES st).
  { pose proof (lookup_lt_Some _ _ _ Hfree). unfold MAX_FILES. lia. }
  rewrite (free_file_descriptor_valid k st1 (new_stream st)
             (with_udata (Some (new_fil st)) FILE_zero)).
  - rewrite Eh, slot_allocated_released, Ei.
    unfold slot_allocated. cbn [__iob].
    rewrite list_insert_insert_eq, list_insert_id by exact Hfree.
    reflexivity.
  - apply isatty_false. lia.
  - apply (slot_allocated_slot st); assumption.
  - apply (slot_allocated_file st st1 k). exact Eh.
Qed.

Lemma slot_invalid_handle (st : state W) : slot st (-1) = None.
Proof. reflexivity. Qed.

Ltac mred := cbv beta iota; cbn [fst snd __iob errno heap world negb].

Lemma first_free_unique (st : state W) (k k' : Z) :
  first_free st k -> first_free st k' -> k = k'.
Proof.
  intros (Hk & Hf & Hs) (Hk' & Hf' & Hs').
  destruct (Z.lt_trichotomy k k') as [Hlt | [E | Hgt]]; [| exact E |].
  - exfalso. apply (occupied_not_free st k); [lia | apply Hs'; lia | exact Hf].
  - exfalso. apply (occupied_not_free st k'); [lia | apply Hs; lia | exact Hf'].
Qed.

(** [open] when [new_file_descriptor] has no handle to give: the lookup of
    the stream of handle -1 fails. *)
Lemma open_without_descriptor (pathname : string) (flags : Z)
    (st : state W) :
  (forall j : Z, 3 <= j < MAX_FILES st -> occupied st j) \/
  two_blocks_available st = false ->
  open pathname flags st = Some (-1, with_errno EBADF st).
Proof.
  intros Hno. unfold open, bind. unfold set_errno at 1. mred.
  set (st_e := mkState (__iob st) 0 (heap st) (world st)).
  destruct (new_file_descriptor_cases st_e)
    as [[Hs Hocc] | (k & Hk & Hkf & Hsm & Hs)].
  - rewrite Hs. rewrite fileno_to_stream_eq, slot_invalid_handle. mred.
    rewrite free_file_descriptor_invalid by apply slot_invalid_handle.
    reflexivity.
  - destruct Hno as [Hall | Hmem].
    + exfalso. apply (occupied_not_free st k); [lia | | exact Hkf].
      apply Hall. exact Hk.
    + rewrite Hs. change (two_blocks_available st_e)
        with (two_blocks_available st). rewrite Hmem.
      rewrite fileno_to_stream_eq, slot_invalid_handle. mred.
      rewrite free_file_descriptor_invalid by apply slot_invalid_handle.
      reflexivity.
Qed.

(** What [open] computes once a handle [k] and its two blocks are there,
    from what the engine answers. *)
Lemma open_eq (pathname : string) (flags : Z) (st : state W) (k : Z) :
  first_free st k -> two_blocks_available st = true ->
  open pathname flags st =
  let h := new_fil st in
  let '(res, w1) :=
    f_open (world st) h pathname (Z.land (open_fatfs_modes flags) 0xff) in
  if negb (res =? FR_OK) then
    Some (-1, mkState (__iob st) (fatfs_to_errno res) (heap st) w1)
  else
    let '(res2, w2) :=
      if negb (Z.land flags O_APPEND =? 0)
      then f_lseek w1 h (f_size w1 h) else (FR_OK, w1) in
    if negb (res2 =? FR_OK) then
      let '(_, w3) := f_close w2 h in
      Some (-1, mkState (__iob st) (fatfs_to_errno res2) (heap st) w3)
    else Some (k, open_succeeded st k flags w2).
Proof.
  intros Hfirst Hmem. cbv zeta.
  unfold open, bind. unfold set_errno at 1. mred.
  set (st_e := mkState (__iob st) 0 (heap st) (world st)).
  destruct (new_file_descriptor_cases st_e)
    as [[Hs Hocc] | (k' & Hk & Hkf & Hsm & Hs)].
  { exfalso. destruct Hfirst as (Hk & Hf & _).
    apply (occupied_not_free st k); [lia | apply Hocc; exact Hk | exact Hf]. }
  assert (k' = k).
  { apply (first_free_unique st); [| exact Hfirst].
    split; [exact Hk |]. split; [exact Hkf | exact Hsm]. }
  subst k'. rewrite Hs.
  change (two_blocks_available st_e) with (two_blocks_available st).
  rewrite Hmem. mred.
  set (st1 := slot_allocated st_e k).
  assert (Hr : 0 <= k < MAX_FILES st_e) by lia.
  rewrite fileno_to_stream_eq.
  rewrite (slot_allocated_slot st_e st1 k Hr eq_refl). mred.
  rewrite (fileno_to_fatfs_valid k st1 (new_stream st_e) (new_fil st_e)
             (with_udata (Some (new_fil st_e)) FILE_zero));
    [| apply isatty_false; lia
     | apply (slot_allocated_slot st_e st1 k Hr eq_refl)
     | apply (slot_allocated_file st_e st1 k eq_refl)
     | reflexivity ].
  mred. unfold engine at 1.
  change (world st1) with (world st).
  change (new_fil st_e) with (new_fil st).
  change (new_stream st_e) with (new_stream st).
  destruct (f_open (world st) (new_fil st) pathname
              (Z.land (open_fatfs_modes flags) 255)) as [res w2].
  mred.
  assert (Hdone : forall w : W,
            match
              (if Z.land flags O_ACCMODE =? O_RDWR
               then modify_FILE (new_stream st)
                      (fun f => with_flags _FDEV_SETUP_RW
                         (with_put_get (Some Put_fatfs) (Some Get_fatfs) f))
               else if Z.land flags O_ACCMODE =? O_RDONLY
                    then modify_FILE (new_stream st)
                           (fun f => with_flags _FDEV_SETUP_READ
                              (with_put_get None (Some Get_fatfs) f))
                    else modify_FILE (new_stream st)
                           (fun f => with_flags _FDEV_SETUP_WRITE
                              (with_put_get (Some Put_fatfs) None f)))
                (mkState (__iob st1) (errno st1) (heap st1) w)
            with
            | Some (_, st') => ret k st'
            | None => None
            end = Some (k, open_succeeded st k flags w)).
  { intros w.
    assert (Hmod : forall g : FILE -> FILE,
              modify_FILE (new_stream st) g
                (mkState (__iob st1) (errno st1) (heap st1) w) =
              Some (tt, mkState (__iob st1) (errno st1)
                          (<[new_stream st :=
                               B_FILE (g (with_udata (Some (new_fil st))
                                            FILE_zero))]> (heap st1)) w)).
    { intros g.
      apply (modify_FILE_eq (new_stream st)
               (with_udata (Some (new_fil st)) FILE_zero) g
               (mkState (__iob st1) (errno st1) (heap st1) w)).
      apply (slot_allocated_file st_e _ k). reflexivity. }
    unfold open_succeeded, opened_file.
    destruct (Z.land flags O_ACCMODE =? O_RDWR);
      [| destruct (Z.land flags O_ACCMODE =? O_RDONLY)];
      rewrite Hmod; mred; unfold ret; subst st1; unfold slot_allocated;
      cbn [__iob errno heap];
      change (new_stream st_e) with (new_stream st);
      change (new_fil st_e) with (new_fil st);
      change (heap st_e) with (heap st);
      rewrite insert_insert_eq;
      rewrite (insert_insert_ne _ (new_fil st) (new_stream st))
        by apply new_fil_ne;
      rewrite insert_insert_eq; reflexivity. }
  destruct (res =? FR_OK); mred.
  - unfold get_state at 1. mred.
    destruct (negb (Z.land flags O_APPEND =? 0)).
    + unfold engine at 1. cbn [world].
      destruct (f_lseek w2 (new_fil st) (f_size w2 (new_fil st)))
        as [res2 w3]. mred.
      destruct (res2 =? FR_OK); mred.
      * apply Hdone.
      * unfold set_errno at 1. mred. unfold engine at 1. cbn [world].
        destruct (f_close w3 (new_fil st)) as [rc w4]. mred.
        rewrite (slot_allocated_rollback st_e _ k)
          by (reflexivity || lia || assumption).
        reflexivity.
    + unfold ret at 1. mred. change (FR_OK =? FR_OK) with true. mred.
      apply Hdone.
  - unfold set_errno at 1. mred.
    rewrite (slot_allocated_rollback st_e _ k)
      by (reflexivity || lia || assumption).
    reflexivity.
Qed.

(** C1: [open] always returns, and whenever it returns -1 the descriptor
    table and the heap are those of before the call.  Stage by stage: when
    [new_file_descriptor] has no handle to give (every non-console slot
    occupied, or no memory for the stream or the engine handle), the lookup
    of the stream fails and [open] returns -1 with nothing allocated; once a
    handle and its two blocks are there the lookups of the stream and of
    the engine handle succeed, and an engine [f_open] error, or a failed
    seek to the end under [O_APPEND] (after which the engine handle is
    closed), makes [open] release the slot and the two blocks and return -1
    with the translated [errno]; otherwise it returns the handle, a
    non-console slot that was free.  These cases are all there is. *)
Theorem open_failure_rolls_back (pathname : string) (flags : Z) (st : state W) :
  (exists (r : Z) (st' : state W),
     open pathname flags st = Some (r, st') /\
     (r = -1 -> __iob st' = __iob st /\ heap st' = heap st) /\
     (r <> -1 -> 3 <= r < MAX_FILES st /\
                 __iob st !! Z.to_nat r = Some None /\
                 slot st' r = Some (new_stream st))) /\
  ((forall j : Z, 3 <= j < MAX_FILES st -> occupied st j) \/
   two_blocks_available st = false \/
   exists k : Z, first_free st k /\ two_blocks_available st = true) /\
  ((forall j : Z, 3 <= j < MAX_FILES st -> occupied st j) \/
   two_blocks_available st = false ->
   open pathname flags st = Some (-1, with_errno EBADF st)) /\
  (forall (k res : Z) (w1 : W),
     first_free st k -> two_blocks_available st = true ->
     f_open (world st) (new_fil st) pathname
            (Z.land (open_fatfs_modes flags) 0xff) = (res, w1) ->
     (res <> FR_OK ->
      open pathname flags st =
      Some (-1, mkState (__iob st) (fatfs_to_errno res) (heap st) w1)) /\
     (res = FR_OK -> Z.land flags O_APPEND = 0 ->
      open pathname flags st = Some (k, open_succeeded st k flags w1)) /\
     (forall (res2 : Z) (w2 : W),
        res = FR_OK -> Z.land flags O_APPEND <> 0 ->
        f_lseek w1 (new_fil st) (f_size w1 (new_fil st)) = (res2, w2) ->
        (res2 = FR_OK ->
         open pathname flags st = Some (k, open_succeeded st k flags w2)) /\
        (res2 <> FR_OK ->
         open pathname flags st =
         Some (-1, mkState (__iob st) (fatfs_to_errno res2) (heap st)
                     (snd (f_close w2 (new_fil st))))))).
Proof.
  assert (Hstages :
            (forall j : Z, 3 <= j < MAX_FILES st -> occupied st j) \/
            two_blocks_available st = false \/
            exists k : Z, first_free st k /\ two_blocks_available st = true).
  { destruct (new_file_descriptor_cases st)
      as [[_ Hocc] | (k & Hk & Hkf & Hsm & _)]; [left; exact Hocc |].
    right. destruct (two_blocks_available st); [right | left; reflexivity].
    exists k. split; [| reflexivity].
    split; [exact Hk |]. split; [exact Hkf | exact Hsm]. }
  assert (Hwith : forall (k res : Z) (w1 : W),
            first_free st k -> two_blocks_available st = true ->
            f_open (world st) (new_fil st) pathname
                   (Z.land (open_fatfs_modes flags) 0xff) = (res, w1) ->
            (res <> FR_OK ->
             open pathname flags st =
             Some (-1, mkState (__iob st) (fatfs_to_errno res) (heap st) w1)) /\
            (res = FR_OK -> Z.land flags O_APPEND = 0 ->
             open pathname flags st = Some (k, open_succeeded st k flags w1)) /\
            (forall (res2 : Z) (w2 : W),
               res = FR_OK -> Z.land flags O_APPEND <> 0 ->
               f_lseek w1 (new_fil st) (f_size w1 (new_fil st)) = (res2, w2) ->
               (res2 = FR_OK ->
                open pathname flags st =
                Some (k, open_succeeded st k flags w2)) /\
               (res2 <> FR_OK ->
                open pathname flags st =
                Some (-1, mkState (__iob st) (fatfs_to_errno res2) (heap st)
                            (snd (f_close w2 (new_fil st))))))).
  { intros k res w1 Hfirst Hmem Hopen.
    pose proof (open_eq pathname flags st k Hfirst Hmem) as E.
    cbv zeta in E. rewrite Hopen in E.
    split; [| split].
    - intros Hne. rewrite E.
      destruct (Z.eqb_spec res FR_OK) as [-> | _];
        [contradiction | reflexivity].
    - intros -> Ha. rewrite E. change (FR_OK =? FR_OK) with true.
      rewrite Ha. reflexivity.
    - intros res2 w2 -> Ha Hseek. rewrite E.
      change (FR_OK =? FR_OK) with true. cbn [negb].
      destruct (Z.eqb_spec (Z.land flags O_APPEND) 0) as [E0 | _];
        [contradiction |]. cbn [negb]. rewrite Hseek.
      split.
      + intros ->. reflexivity.
      + intros Hne. destruct (Z.eqb_spec res2 FR_OK) as [-> | _];
          [contradiction |]. cbn [negb].
        destruct (f_close w2 (new_fil st)) as [rc w3]. reflexivity. }
  split; [| split; [exact Hstages | split;
                    [apply open_without_descriptor | exact Hwith]]].
  assert (Hfail : forall st' : state W,
            __iob st' = __iob st -> heap st' = heap st ->
            open pathname flags st = Some (-1, st') ->
            exists (r : Z) (st'' : state W),
              open pathname flags st = Some (r, st'') /\
              (r = -1 -> __iob st'' = __iob st /\ heap st'' = heap st) /\
              (r <> -1 -> 3 <= r < MAX_FILES st /\
                          __iob st !! Z.to_nat r = Some None /\
                          slot st'' r = Some (new_stream st))).
  { intros st' Ei Eh Ho. exists (-1), st'. split; [exact Ho |].
    split; [auto | congruence]. }
  assert (Hgood : forall (k : Z) (w : W),
            first_free st k ->
            open pathname flags st = Some (k, open_succeeded st k flags w) ->
            exists (r : Z) (st'' : state W),
              open pathname flags st = Some (r, st'') /\
              (r = -1 -> __iob st'' = __iob st /\ heap st'' = heap st) /\
              (r <> -1 -> 3 <= r < MAX_FILES st /\
                          __iob st !! Z.to_nat r = Some None /\
                          slot st'' r = Some (new_stream st))).
  { intros k w (Hk & Hkf & _) Ho. exists k, (open_succeeded st k flags w).
    split; [exact Ho |]. split; [lia |]. intros _.
    split; [exact Hk |]. split; [exact Hkf |].
    apply slot_lookup. split; [lia |]. cbn [open_succeeded __iob].
    apply list_lookup_insert_eq. unfold MAX_FILES in Hk. lia. }
  destruct Hstages as [Hall | [Hmem | (k & Hfirst & Hmem)]].
  - apply (Hfail (with_errno EBADF st)); [reflexivity .. |].
    apply open_without_descriptor. left. exact Hall.
  - apply (Hfail (with_errno EBADF st)); [reflexivity .. |].
    apply open_without_descriptor. right. exact Hmem.
  - pose (p := f_open (world st) (new_fil st) pathname
                 (Z.land (open_fatfs_modes flags) 0xff)).
    destruct (Hwith k (fst p) (snd p) Hfirst Hmem (surjective_pairing p))
      as (Hbad & Hplain & Happ).
    destruct (Z.eq_dec (fst p) FR_OK) as [Hres | Hres].
    2:{ eapply Hfail; [| | apply Hbad; exact Hres]; reflexivity. }
    destruct (Z.eq_dec (Z.land flags O_APPEND) 0) as [Ha | Ha].
    { apply (Hgood k (snd p) Hfirst). apply Hplain; assumption. }
    pose (q := f_lseek (snd p) (new_fil st) (f_size (snd p) (new_fil st))).
    destruct (Happ (fst q) (snd q) Hres Ha (surjective_pairing q))
      as [Hok Hko].
    destruct (Z.eq_dec (fst q) FR_OK) as [Hr2 | Hr2].
    + apply (Hgood k (snd q) Hfirst). apply Hok. exact Hr2.
    + eapply Hfail; [| | apply Hko; exact Hr2]; reflexivity.
Qed.


(** *** Integer and bit facts *)

Lemma u32_s32 (z : Z) : 0 <= z < 2 ^ 32 -> u32 (s32 z) = z.
Proof.
  intros Hz. unfold u32, s32.
  rewrite Zminus_mod_idemp_l.
  replace (z + 2 ^ 31 - 2 ^ 31) with z by lia.
  apply Z.mod_small. exact Hz.
Qed.

Lemma s32_small (z : Z) : - 2 ^ 31 <= z < 2 ^ 31 -> s32 z = z.
Proof.
  intros Hz. unfold s32. rewrite Z.mod_small by lia. lia.
Qed.

Lemma u8_land_mask (x m : Z) : 0 <= m < 2 ^ 8 -> Z.land (u8 x) m = Z.land x m.
Proof.
  intros Hm. unfold u8. rewrite <- Z.land_ones by lia.
  rewrite <- Z.land_assoc. f_equal.
  rewrite Z.land_comm, Z.land_ones by lia. apply Z.mod_small. exact Hm.
Qed.

Lemma byte_to_Z_range (b : byte) : 0 <= byte_to_Z b < 256.
Proof.
  unfold byte_to_Z. pose proof (Byte.to_N_bounded b) as H.
  lia.
Qed.


Lemma land_byte_ff (b : byte) : Z.land (byte_to_Z b) 255 = byte_to_Z b.
Proof.
  change 255 with (Z.ones 8). rewrite Z.land_ones by lia.
  apply Z.mod_small. pose proof (byte_to_Z_range b). lia.
Qed.


Lemma flags_set_keeps (x m k : Z) :
  0 <= k < 2 ^ 8 -> Z.land m k = 0 ->
  Z.land (u8 (Z.lor x m)) k = Z.land x k.
Proof.
  intros Hk Hm. rewrite u8_land_mask by exact Hk.
  rewrite Z.land_lor_distr_l, Hm. apply Z.lor_0_r.
Qed.

Lemma flags_set_sets (x m : Z) :
  0 < m < 2 ^ 8 -> Z.land (u8 (Z.lor x m)) m <> 0.
Proof.
  intros Hm. rewrite u8_land_mask by lia.
  rewrite Z.land_lor_distr_l, Z.land_diag.
  intros E. apply Z.lor_eq_0_iff in E. lia.
Qed.

Lemma flags_clear_keeps (x m k : Z) :
  0 <= k < 2 ^ 8 -> Z.land m k = 0 ->
  Z.land (u8 (Z.land x (Z.lnot m))) k = Z.land x k.
Proof.
  intros Hk Hm. rewrite u8_land_mask by exact Hk.
  rewrite <- Z.land_assoc. f_equal.
  apply Z.bits_inj'. intros n Hn.
  rewrite Z.land_spec, Z.lnot_spec by exact Hn.
  assert (Hb : Z.testbit (Z.land m k) n = false) by (rewrite Hm; apply Z.bits_0).
  rewrite Z.land_spec in Hb.
  destruct (Z.testbit m n), (Z.testbit k n); simpl in *; congruence.
Qed.

Lemma flags_clear_clears (x m : Z) :
  0 <= m < 2 ^ 8 -> Z.land (u8 (Z.land x (Z.lnot m))) m = 0.
Proof.
  intros Hm. rewrite u8_land_mask by exact Hm.
  rewrite <- Z.land_assoc.
  replace (Z.land (Z.lnot m) m) with 0; [apply Z.land_0_r |].
  symmetry. apply Z.bits_inj'. intros n Hn.
  rewrite Z.land_spec, Z.lnot_spec, Z.bits_0 by exact Hn.
  destruct (Z.testbit m n); reflexivity.
Qed.


Lemma byte_eqb_false (a b : byte) : a <> b -> Byte.eqb a b = false.
Proof.
  intros Hne. destruct (Byte.eqb a b) eqn:E; [| reflexivity].
  apply Byte.byte_dec_bl in E. contradiction.
Qed.

Lemma byte_eqb_refl (a : byte) : Byte.eqb a a = true.
Proof. apply Byte.byte_dec_lb. reflexivity. Qed.

(** C4: on a stream bound to an engine handle, [fatfs_getc] returns a byte
    other than CR unchanged.  After a CR it returns LF: having consumed the
    next byte when that is LF, having hit the end of the file (or an engine
    error) when no next byte can be read, and having sought the engine back
    to the position remembered after the CR when the next byte is anything
    else.  It only ever touches the engine and the end-of-file flag: the
    pushback slot, the pending flag and the read count of the stream are
    left as they were. *)
Theorem fatfs_getc_line_endings (st : state W) (s h : ptr) (f : FILE)
    (res1 : Z) (d1 : list byte) (w1 : W) :
  heap st !! s = Some (B_FILE f) -> udata f = Some h ->
  f_read (world st) h 1 = (res1, d1, w1) ->
  (forall c : byte,
     res1 = FR_OK -> d1 = [c] -> c <> CR ->
     fatfs_getc (Some s) st =
     Some (byte_to_Z c, mkState (__iob st) 0 (heap st) w1)) /\
  (forall (res2 : Z) (d2 : list byte) (w2 : W),
     res1 = FR_OK -> d1 = [CR] -> f_read w1 h 1 = (res2, d2, w2) ->
     (res2 = FR_OK -> d2 = [LF] ->
      fatfs_getc (Some s) st =
      Some (byte_to_Z LF, mkState (__iob st) 0 (heap st) w2)) /\
     (res2 <> FR_OK \/ length d2 <> 1%nat ->
      fatfs_getc (Some s) st =
      Some (byte_to_Z LF, mkState (__iob st) 0 (heap st) w2)) /\
     (forall c2 : byte,
        res2 = FR_OK -> d2 = [c2] -> c2 <> LF ->
        fatfs_getc (Some s) st =
        Some (byte_to_Z LF,
              mkState (__iob st) 0 (heap st)
                      (snd (f_lseek w2 h (f_tell w1 h)))))) /\
  (exists (r : Z) (st' : state W) (f' : FILE),
     fatfs_getc (Some s) st = Some (r, st') /\
     heap st' !! s = Some (B_FILE f') /\
     unget f' = unget f /\
     Z.land (flags f') __SUNGET = Z.land (flags f) __SUNGET /\
     len f' = len f).
Proof.
  intros Hf Hu Hr1.
  assert (Hmod : forall (e : Z) (w : W),
            modify_FILE s (flags_set __SEOF)
              (mkState (__iob st) e (heap st) w) =
            Some (tt, mkState (__iob st) e
                        (<[s := B_FILE (flags_set __SEOF f)]> (heap st)) w)).
  { intros e w. apply (modify_FILE_eq s f). exact Hf. }
  split; [| split].
  - intros c -> -> Hc. unfold fatfs_getc.
    unfold bind at 1. unfold set_errno at 1. mred.
    unfold bind at 1. unfold fdev_get_udata, bind at 1.
    rewrite (load_FILE_eq s f) by exact Hf. unfold ret at 1. mred.
    rewrite Hu. unfold bind at 1. unfold engine at 1. cbn [world].
    rewrite Hr1. mred. change (FR_OK =? FR_OK) with true. mred.
    rewrite (byte_eqb_false c CR Hc). unfold ret.
    rewrite land_byte_ff. reflexivity.
  - intros res2 d2 w2 -> -> Hr2.
    assert (Hcr : fatfs_getc (Some s) st =
                  match d2 with
                  | [c2] =>
                      if res2 =? FR_OK then
                        if Byte.eqb c2 LF then
                          Some (byte_to_Z LF, mkState (__iob st) 0 (heap st) w2)
                        else
                          Some (byte_to_Z LF,
                                mkState (__iob st) 0 (heap st)
                                  (snd (f_lseek w2 h (f_tell w1 h))))
                      else Some (byte_to_Z LF, mkState (__iob st) 0 (heap st) w2)
                  | _ => Some (byte_to_Z LF, mkState (__iob st) 0 (heap st) w2)
                  end).
    { unfold fatfs_getc.
      unfold bind at 1. unfold set_errno at 1. mred.
      unfold bind at 1. unfold fdev_get_udata, bind at 1.
      rewrite (load_FILE_eq s f) by exact Hf. unfold ret at 1. mred.
      rewrite Hu. unfold bind at 1. unfold engine at 1. cbn [world].
      rewrite Hr1. mred. change (FR_OK =? FR_OK) with true. mred.
      rewrite byte_eqb_refl.
      unfold bind at 1. unfold get_state at 1. mred.
      unfold bind at 1. unfold engine at 1. cbn [world].
      rewrite Hr2. mred.
      destruct d2 as [| c2 [| c2' d2']]; try reflexivity.
      destruct (res2 =? FR_OK); [| reflexivity].
      destruct (Byte.eqb c2 LF); [reflexivity |].
      unfold bind, engine, ret. cbn [world].
      rewrite (u32_s32 _ (f_tell_range w1 h)).
      destruct (f_lseek w2 h (f_tell w1 h)); reflexivity. }
    split; [| split].
    + intros -> ->. rewrite Hcr. reflexivity.
    + intros Hbad. rewrite Hcr.
      destruct d2 as [| c2 [| c2' d2']]; try reflexivity.
      destruct Hbad as [Hbad | Hbad]; [| simpl in Hbad; congruence].
      destruct (Z.eqb_spec res2 FR_OK); [contradiction | reflexivity].
    + intros c2 -> -> Hc2. rewrite Hcr.
      change (FR_OK =? FR_OK) with true. mred.
      rewrite (byte_eqb_false c2 LF Hc2). reflexivity.
  - assert (Hsame : forall (r : Z) (e : Z) (w : W),
              exists (r' : Z) (st' : state W) (f' : FILE),
                Some (r, mkState (__iob st) e (heap st) w) = Some (r', st') /\
                heap st' !! s = Some (B_FILE f') /\
                unget f' = unget f /\
                Z.land (flags f') __SUNGET = Z.land (flags f) __SUNGET /\
                len f' = len f).
    { intros r e w. exists r, (mkState (__iob st) e (heap st) w), f.
      repeat split; try reflexivity. exact Hf. }
    assert (Heof : forall (e : Z) (w : W),
              exists (r' : Z) (st' : state W) (f' : FILE),
                Some (EOF, mkState (__iob st) e
                        (<[s := B_FILE (flags_set __SEOF f)]> (heap st)) w) =
                Some (r', st') /\
                heap st' !! s = Some (B_FILE f') /\
                unget f' = unget f /\
                Z.land (flags f') __SUNGET = Z.land (flags f) __SUNGET /\
                len f' = len f).
    { intros e w. eexists _, _, _. split; [reflexivity |].
      split; [apply lookup_insert_eq |].
      split; [reflexivity |]. split; [| reflexivity].
      apply flags_set_keeps; [vm_compute; split; [discriminate | reflexivity] | reflexivity]. }
    unfold fatfs_getc.
    unfold bind at 1. unfold set_errno at 1. mred.
    unfold bind at 1. unfold fdev_get_udata, bind at 1.
    rewrite (load_FILE_eq s f) by exact Hf. unfold ret at 1. mred.
    rewrite Hu. unfold bind at 1. unfold engine at 1. cbn [world].
    rewrite Hr1. mred.
    destruct d1 as [| c [| c' d1']];
      try (unfold bind, set_errno; mred; rewrite Hmod; apply Heof).
    destruct (res1 =? FR_OK);
      [| unfold bind, set_errno; mred; rewrite Hmod; apply Heof].
    destruct (Byte.eqb c CR); [| apply Hsame].
    unfold bind at 1. unfold get_state at 1. mred.
    unfold bind at 1. unfold engine at 1. cbn [world].
    destruct (f_read w1 h 1) as [[res2 d2] w2]. mred.
    destruct d2 as [| c2 [| c2' d2']]; try apply Hsame.
    destruct (res2 =? FR_OK); [| apply Hsame].
    destruct (Byte.eqb c2 LF); [apply Hsame |].
    unfold bind, engine, ret. cbn [world].
    destruct (f_lseek w2 h _). apply Hsame.
Qed.

(** *** [new_file_descriptor] *)

(** C3 (amended): [new_file_descriptor] skips the console slots 0..2.  When
    [k] is the smallest non-console handle whose slot is free, it returns [k]
    with a zeroed stream and engine handle bound in that slot, provided the
    allocator can supply the two blocks; when it cannot, it returns -1 with
    [ENOMEM] and leaves the table and the heap as they were.  It reports the
    table-exhaustion error [ENFILE] exactly when every non-console slot is
    occupied. *)
Theorem new_file_descriptor_first_free (st : state W) :
  (forall k : Z,
     3 <= k -> __iob st !! Z.to_nat k = Some None ->
     (forall j : Z, 3 <= j < k -> occupied st j) ->
     new_file_descriptor st =
     if two_blocks_available st then Some (k, slot_allocated st k)
     else Some (-1, with_errno ENOMEM st)) /\
  ((forall j : Z, 3 <= j < MAX_FILES st -> occupied st j) <->
   (exists st' : state W,
      new_file_descriptor st = Some (-1, st') /\ errno st' = ENFILE)) /\
  ((forall j : Z, 3 <= j < MAX_FILES st -> occupied st j) ->
   new_file_descriptor st = Some (-1, with_errno ENFILE st)).
Proof.
  destruct (new_file_descriptor_cases st)
    as [[Hs Hocc] | (k' & Hk' & Hkf' & Hsm' & Hs)].
  - split; [| split].
    + intros k Hk Hfree _. exfalso.
      pose proof (lookup_lt_Some _ _ _ Hfree) as Hlt.
      apply (occupied_not_free st k); [lia | | exact Hfree].
      apply Hocc. unfold MAX_FILES. lia.
    + split; [intros _; eexists; split; [exact Hs | reflexivity] |].
      intros _. exact Hocc.
    + intros _. exact Hs.
  - assert (Hnot : ~ (forall j : Z, 3 <= j < MAX_FILES st -> occupied st j)).
    { intros Hall. apply (occupied_not_free st k'); [lia | | exact Hkf'].
      apply Hall. exact Hk'. }
    split; [| split].
    + intros k Hk Hfree Hsm.
      pose proof (lookup_lt_Some _ _ _ Hfree) as Hlt.
      assert (k = k') as ->; [| exact Hs].
      destruct (Z.lt_trichotomy k k') as [Hlt' | [E | Hgt]]; [| exact E |].
      * exfalso. apply (occupied_not_free st k); [lia | | exact Hfree].
        apply Hsm'. lia.
      * exfalso. apply (occupied_not_free st k'); [lia | | exact Hkf'].
        apply Hsm. lia.
    + split; [intros Hall; contradiction |].
      intros (st' & Hr & He). exfalso. rewrite Hs in Hr.
      destruct (two_blocks_available st).
      * injection Hr as Hk _. lia.
      * injection Hr as <-. cbn in He. discriminate.
    + intros Hall. contradiction.
Qed.

(** *** [close] *)

Lemma release_owned_lookup (f : FILE) (h : gmap ptr block) (s : ptr) :
  (forall fh : ptr, udata f = Some fh ->
     delete s (release_owned f h) !! fh = None) /\
  (forall (b : ptr) (o : nat),
     buf f = Some (b, o) -> Z.land (flags f) __SMALLOC <> 0 ->
     delete s (release_owned f h) !! b = None) /\
  delete s (release_owned f h) !! s = None /\
  (forall p : ptr,
     p <> s -> udata f <> Some p ->
     (forall o : nat, buf f = Some (p, o) -> Z.land (flags f) __SMALLOC = 0) ->
     delete s (release_owned f h) !! p = h !! p).
Proof.
  unfold release_owned.
  split; [| split; [| split]].
  - intros fh ->.
    destruct (decide (fh = s)) as [-> | Hne]; [apply lookup_delete_eq |].
    rewrite lookup_delete_ne by congruence.
    destruct (buf f) as [[b o] |]; [| apply lookup_delete_eq].
    destruct (Z.land (flags f) __SMALLOC =? 0); [apply lookup_delete_eq |].
    destruct (decide (b = fh)) as [-> | Hb]; [apply lookup_delete_eq |].
    rewrite lookup_delete_ne by exact Hb. apply lookup_delete_eq.
  - intros b o -> Hm.
    destruct (decide (b = s)) as [-> | Hne]; [apply lookup_delete_eq |].
    rewrite lookup_delete_ne by congruence.
    destruct (Z.eqb_spec (Z.land (flags f) __SMALLOC) 0); [contradiction |].
    apply lookup_delete_eq.
  - apply lookup_delete_eq.
  - intros p Hps Hu Hb. rewrite lookup_delete_ne by congruence.
    assert (Hud : match udata f with
                  | Some fh => delete fh h
                  | None => h
                  end !! p = h !! p).
    { destruct (udata f) as [fh |]; [| reflexivity].
      apply lookup_delete_ne. congruence. }
    destruct (buf f) as [[b o] |]; [| exact Hud].
    destruct (Z.eqb_spec (Z.land (flags f) __SMALLOC) 0) as [E | Hm];
      [exact Hud |].
    rewrite lookup_delete_ne; [exact Hud |].
    intros ->. apply Hm. apply (Hb o). reflexivity.
Qed.

(** C2: on a valid non-console handle whose stream is bound to an engine
    handle, [close] asks the engine to close it and then frees the
    descriptor whatever the engine answered: the slot is NULL again, the
    stream, its engine handle and a buffer it owns are no longer allocated,
    every other block is kept.  It returns 0 when the engine close
    succeeded, and -1 with [errno] the translated engine code when it did
    not. *)
Theorem close_frees_descriptor (fileno : Z) (st : state W) (s h : ptr)
    (f : FILE) (res : Z) (w' : W) :
  isatty fileno = false -> slot st fileno = Some s ->
  heap st !! s = Some (B_FILE f) -> udata f = Some h ->
  f_close (world st) h = (res, w') ->
  exists st' : state W,
    close fileno st = Some ((if res =? FR_OK then 0 else -1), st') /\
    __iob st' = <[Z.to_nat fileno := None]> (__iob st) /\
    slot st' fileno = None /\
    __iob st' !! Z.to_nat fileno = Some None /\
    heap st' !! s = None /\
    heap st' !! h = None /\
    (forall (b : ptr) (o : nat),
       buf f = Some (b, o) -> Z.land (flags f) __SMALLOC <> 0 ->
       heap st' !! b = None) /\
    (forall p : ptr,
       p <> s -> p <> h ->
       (forall o : nat, buf f = Some (p, o) -> Z.land (flags f) __SMALLOC = 0) ->
       heap st' !! p = heap st !! p) /\
    world st' = w' /\
    errno st' = (if res =? FR_OK then 0 else fatfs_to_errno res).
Proof.
  intros Ht Hs Hf Hu Hc.
  pose proof (slot_range st fileno s Hs) as Hr.
  assert (Hlt : (Z.to_nat fileno < length (__iob st))%nat)
    by (unfold MAX_FILES in Hr; lia).
  destruct (release_owned_lookup f (heap st) s) as (Hfh & Hbuf & Hss & Hoth).
  assert (Hclose :
    close fileno st =
    Some ((if res =? FR_OK then 0 else -1),
          mkState (<[Z.to_nat fileno := None]> (__iob st))
                  (if res =? FR_OK then 0 else fatfs_to_errno res)
                  (delete s (release_owned f (heap st))) w')).
  { unfold close. unfold bind at 1. unfold set_errno at 1. mred.
    set (st0 := mkState (__iob st) 0 (heap st) (world st)).
    unfold bind at 1. rewrite fileno_to_stream_eq.
    change (slot st0 fileno) with (slot st fileno).
    rewrite Hs. mred.
    unfold bind at 1.
    rewrite (fileno_to_fatfs_valid fileno st0 s h f Ht Hs Hf Hu). mred.
    unfold bind at 1. unfold engine at 1. subst st0. cbn [world].
    rewrite Hc. mred. unfold bind at 1.
    rewrite (free_file_descriptor_valid fileno
               (mkState (__iob st) 0 (heap st) w') s f Ht Hs Hf).
    mred. destruct (res =? FR_OK); reflexivity. }
  eexists. split; [exact Hclose |]. cbn [__iob heap world errno].
  split; [reflexivity |].
  assert (Hnone : <[Z.to_nat fileno := None]> (__iob st) !! Z.to_nat fileno
                  = Some None)
    by (apply list_lookup_insert_eq; exact Hlt).
  split.
  { unfold slot, MAX_FILES. cbn [__iob]. rewrite Hnone.
    destruct ((0 <=? fileno) &&
              (fileno <? Z.of_nat (length (<[Z.to_nat fileno := None]> (__iob st)))));
      reflexivity. }
  split; [exact Hnone |].
  split; [exact Hss |].
  split; [apply Hfh; exact Hu |].
  split; [exact Hbuf |].
  split; [| split; reflexivity].
  intros p Hps Hph Hb. apply Hoth; [exact Hps | congruence | exact Hb].
Qed.

(** *** [lseek] *)


(** What [lseek] computes on a valid file handle, for the absolute position
    [target] its [whence] resolves to. *)
Lemma lseek_eq (fileno position whence : Z) (st : state W) (s h : ptr)
    (f : FILE) (target res : Z) (w' : W) :
  isatty fileno = false -> slot st fileno = Some s ->
  heap st !! s = Some (B_FILE f) -> udata f = Some h ->
  target = (if whence =? SEEK_END then s32 (position + f_size (world st) h)
            else if whence =? SEEK_CUR then s32 (position + f_tell (world st) h)
            else position) ->
  f_lseek (world st) h (u32 target) = (res, w') ->
  lseek fileno position whence st =
  Some ((if res =? 0 then
           if u32 target =? f_tell w' h then s32 (f_tell w' h) else -1
         else -1),
        mkState (__iob st) (if res =? 0 then 0 else fatfs_to_errno res)
                (<[s := B_FILE (flags_set __SUNGET f)]> (heap st)) w').
Proof.
  intros Ht Hs Hf Hu Htg Hseek.
  unfold lseek. unfold bind at 1. unfold set_errno at 1. mred.
  set (st0 := mkState (__iob st) 0 (heap st) (world st)).
  unfold bind at 1.
  rewrite (fileno_to_fatfs_valid fileno st0 s h f Ht Hs Hf Hu). mred.
  rewrite Ht. unfold bind at 1. rewrite fileno_to_stream_eq.
  change (slot st0 fileno) with (slot st fileno). rewrite Hs. mred.
  unfold bind at 1. rewrite (modify_FILE_eq s f _ st0 Hf). mred.
  unfold bind at 1. unfold get_state at 1. mred.
  unfold bind at 1. unfold engine at 1. subst st0. cbn [world].
  rewrite <- Htg, Hseek. mred.
  destruct (res =? 0); mred.
  - unfold bind, get_state, ret. mred.
    destruct (u32 target =? f_tell w' h); reflexivity.
  - reflexivity.
Qed.


(** After [lseek] has run on a valid file handle, whatever it returns, the
    stream is marked as holding a pushed-back byte, and a readable stream's
    next [fgetc] hands out the pushback slot without asking the engine. *)
Lemma lseek_marks_pushback_pending (fileno position whence : Z)
    (st : state W) (s h : ptr) (f : FILE) :
  isatty fileno = false -> slot st fileno = Some s ->
  heap st !! s = Some (B_FILE f) -> udata f = Some h ->
  exists (r : Z) (st' : state W) (f' : FILE),
    lseek fileno position whence st = Some (r, st') /\
    heap st' !! s = Some (B_FILE f') /\
    Z.land (flags f') __SUNGET <> 0 /\
    unget f' = unget f /\
    (Z.land (flags f) __SRD <> 0 ->
     exists st'' : state W,
       fgetc (Some s) st' = Some (byte_to_Z (unget f), st'') /\
       world st'' = world st').
Proof.
  intros Ht Hs Hf Hu.
  set (target := if whence =? SEEK_END then s32 (position + f_size (world st) h)
                 else if whence =? SEEK_CUR
                      then s32 (position + f_tell (world st) h)
                      else position).
  destruct (f_lseek (world st) h (u32 target)) as [res w'] eqn:Hseek.
  rewrite (lseek_eq fileno position whence st s h f target res w'
             Ht Hs Hf Hu eq_refl Hseek).
  eexists _, _, _. split; [reflexivity |]. cbn [heap world].
  split; [apply lookup_insert_eq |].
  assert (Hset : Z.land (flags (flags_set __SUNGET f)) __SUNGET <> 0).
  { apply flags_set_sets. vm_compute. split; reflexivity. }
  split; [exact Hset |]. split; [reflexivity |].
  intros Hrd. unfold fgetc. unfold bind at 1.
  erewrite load_FILE_eq by (cbn [heap]; apply lookup_insert_eq).
  assert (Hrd' : (Z.land (flags (flags_set __SUNGET f)) __SRD =? 0) = false).
  { apply Z.eqb_neq. unfold flags_set, with_flags. cbn [flags].
    rewrite flags_set_keeps; [exact Hrd | vm_compute; split; [discriminate | reflexivity] | reflexivity]. }
  rewrite Hrd'.
  apply Z.eqb_neq in Hset. rewrite Hset. cbn [negb].
  unfold bind. erewrite store_FILE_eq by (cbn [heap]; apply lookup_insert_eq).
  unfold ret. eexists. split; reflexivity.
Qed.

(** *** [fileno], [ungetc] and [fgetc] *)



Lemma mask_facts :
  (0 < __SUNGET < 2 ^ 8) /\ (0 <= __SEOF < 2 ^ 8) /\ (0 <= __SRD < 2 ^ 8) /\
  Z.land __SUNGET __SEOF = 0 /\ Z.land __SEOF __SUNGET = 0 /\
  Z.land __SUNGET __SRD = 0 /\ Z.land __SEOF __SRD = 0.
Proof. vm_compute. repeat split; congruence. Qed.



(** *** [read] *)

Lemma iob_at_state (i : Z) (st st' : state W) (x : option ptr) :
  iob_at i st = Some (x, st') -> st' = st.
Proof.
  unfold iob_at.
  destruct ((0 <=? i) && (i <? MAX_FILES st)); [| discriminate].
  destruct (__iob st !! Z.to_nat i); [| discriminate].
  intros [= _ ->]. reflexivity.
Qed.

Lemma fileno_to_fatfs_world (i : Z) (st st' : state W) (r : option ptr) :
  fileno_to_fatfs i st = Some (r, st') -> world st' = world st.
Proof.
  unfold fileno_to_fatfs. destruct (isatty i).
  { intros [= _ <-]. reflexivity. }
  unfold bind at 1. rewrite fileno_to_stream_eq.
  destruct (slot st i) as [s |]; mred.
  - unfold fdev_get_udata, bind, load_FILE.
    destruct (heap st !! s) as [[f | | l] |]; try discriminate.
    unfold ret. destruct (udata f); intros [= _ <-]; reflexivity.
  - intros [= _ <-]. reflexivity.
Qed.

Lemma read_tty_count (n : nat) (stream : ptr) (buffer : list byte)
    (off : nat) (sz : Z) (st st' : state W) (r : Z) (buffer' : list byte) :
  read_tty n stream buffer off sz st = Some ((r, buffer'), st') -> sz <= r.
Proof.
  revert buffer off sz st.
  induction n as [| n IH]; intros buffer off sz st.
  - intros [= <- _ _]. lia.
  - cbn [read_tty]. unfold bind.
    destruct (fgetc (Some stream) st) as [[c st1] |]; [| discriminate].
    destruct (c <? 0).
    + intros [= <- _ _]. lia.
    + intros H. apply IH in H. lia.
Qed.

(** C10: [read] stores a zero byte at the start of the caller's buffer
    before it looks at the handle.  Its outcome does not depend on the byte
    that was there, and whenever it returns -1 the buffer handed back is the
    original one with its first byte zeroed, over which the engine has
    stored whatever it transferred before reporting its error (nothing, for
    an invalid or a console-output handle). *)
Theorem read_zeroes_first_byte (fd : Z) (b : byte) (rest : list byte)
    (count : Z) (st : state W) :
  read fd (b :: rest) count st = read fd (x00 :: rest) count st /\
  (forall (r : Z) (buffer' : list byte) (st' : state W),
     read fd (b :: rest) count st = Some ((r, buffer'), st') -> r = -1 ->
     buffer' = x00 :: rest \/
     exists (h : ptr) (res : Z) (data : list byte) (w' : W),
       f_read (world st) h (u32 count) = (res, data, w') /\
       res <> FR_OK /\
       buffer' = store_bytes data (x00 :: rest)).
Proof.
  split; [reflexivity |].
  intros r buffer' st' Hread Hr. subst r.
  unfold read in Hread. cbn [insert list_insert] in Hread.
  unfold bind at 1 in Hread. unfold set_errno at 1 in Hread.
  cbv beta iota in Hread.
  set (st0 := mkState (__iob st) 0 (heap st) (world st)) in Hread.
  unfold bind at 1 in Hread. rewrite fileno_to_stream_eq in Hread.
  cbv beta iota in Hread.
  set (st1 := match slot st0 fd with
              | Some _ => st0
              | None => with_errno EBADF st0
              end) in Hread.
  assert (Hw1 : world st1 = world st) by (subst st1; destruct (slot st0 fd); reflexivity).
  unfold bind at 1 in Hread. unfold stdin in Hread.
  destruct (iob_at 0 st1) as [[in_ st2] |] eqn:Hin; [| discriminate].
  apply iob_at_state in Hin. subst st2.
  destruct (decide (slot st0 fd = in_)) as [Ein | Nin].
  { destruct (slot st0 fd) as [s |]; [| discriminate].
    unfold bind at 1 in Hread.
    destruct (modify_FILE s (flags_set __SUNGET) st1) as [[u st3] |];
      [| discriminate].
    apply read_tty_count in Hread. lia. }
  unfold bind at 1 in Hread. unfold stdout in Hread.
  destruct (iob_at 1 st1) as [[out st2] |] eqn:Hout; [| discriminate].
  apply iob_at_state in Hout. subst st2.
  destruct (decide (slot st0 fd = out)) as [Eout | Nout].
  { injection Hread as <- _. left. reflexivity. }
  unfold bind at 1 in Hread. unfold stderr in Hread.
  destruct (iob_at 2 st1) as [[err st2] |] eqn:Herr; [| discriminate].
  apply iob_at_state in Herr. subst st2.
  destruct (decide (slot st0 fd = err)) as [Eerr | Nerr].
  { injection Hread as <- _. left. reflexivity. }
  unfold bind at 1 in Hread.
  destruct (fileno_to_fatfs fd st1) as [[fh st4] |] eqn:Hfh; [| discriminate].
  apply fileno_to_fatfs_world in Hfh. rewrite Hw1 in Hfh.
  destruct fh as [h |].
  - unfold bind at 1 in Hread. unfold engine at 1 in Hread.
    rewrite Hfh in Hread.
    destruct (f_read (world st) h (u32 count)) as [[res data] w'] eqn:Hrd.
    cbv beta iota zeta in Hread.
    destruct (Z.eqb_spec res FR_OK) as [-> | Hne]; cbn [negb] in Hread.
    + injection Hread as Hlen _. lia.
    + unfold bind, set_errno, ret in Hread. injection Hread as <- _.
      right. exists h, res, data, w'. auto.
  - unfold bind, set_errno, ret in Hread. injection Hread as <- _.
    left. reflexivity.
Qed.

End Facts.

(** ** Runs on the in-memory platform *)

Import MemFS.

Example open_returns_first_free_handle :
  value (open "/a.txt" O_RDONLY st0) = Some 3 /\
  heap st_a !! stream3 = Some (B_FILE file3) /\
  value (open "/m.txt" O_RDONLY st_a) = Some 4.
Proof. vm_compute. repeat split. Qed.

Example open_rolls_back_failed_append_seek :
  value (open "/a.txt" (Z.lor (Z.lor O_WRONLY O_CREAT) O_APPEND) st_badseek)
  = Some (-1) /\
  errno (after (open "/a.txt" (Z.lor (Z.lor O_WRONLY O_CREAT) O_APPEND)
                  st_badseek)) = EIO /\
  __iob (after (open "/a.txt" (Z.lor (Z.lor O_WRONLY O_CREAT) O_APPEND)
                  st_badseek)) = __iob st_badseek /\
  heap (after (open "/a.txt" (Z.lor (Z.lor O_WRONLY O_CREAT) O_APPEND)
                 st_badseek)) = heap st_badseek.
Proof. vm_compute. repeat split. Qed.

(** [open] overwrites the [errno] of the failed allocation with the [EBADF]
    of the lookup that follows it. *)
Example open_rolls_back_failed_allocation :
  open "/a.txt" O_RDONLY st_oom = Some (-1, with_errno EBADF st_oom).
Proof. vm_compute. reflexivity. Qed.

(** The exhaustion error comes once the five non-console slots are taken,
    not earlier, and closing one handle makes it available again. *)
Example table_exhaustion :
  __iob st_full =
  [Some 1%positive; Some 2%positive; Some 2%positive; Some 3%positive;
   Some 5%positive; Some 7%positive; Some 9%positive; Some 11%positive] /\
  new_file_descriptor st_full = Some (-1, with_errno ENFILE st_full) /\
  open "/a.txt" O_RDONLY st_full = Some (-1, with_errno EBADF st_full) /\
  value (close 5 st_full) = Some 0 /\
  value (open "/m.txt" O_RDONLY (after (close 5 st_full))) = Some 5.
Proof. vm_compute. repeat split. Qed.

Example close_then_open_reuses_slot :
  value (close 3 st_a) = Some 0 /\
  __iob (after (close 3 st_a)) = __iob st0 /\
  heap (after (close 3 st_a)) = heap st0 /\
  value (open "/m.txt" O_RDONLY (after (close 3 st_a))) = Some 3.
Proof. vm_compute. repeat split. Qed.

(** Every line ending of "a CR LF b CR c LF d CR" is read as one LF. *)
Example fgetc_normalizes_mixed_line_endings :
  fgetc_n 9 st_m =
  [Some 97; Some 10; Some 98; Some 10; Some 99; Some 10; Some 100; Some 10;
   Some EOF].
Proof. vm_compute. reflexivity. Qed.

(** [fopen] with "a+" passes -1 to [open]. *)
Example fopen_append_plus_passes_failure_code :
  fopen "/a.txt" "a+" st0 =
  (do fileno <- open "/a.txt" (-1); fileno_to_stream fileno) st0.
Proof. reflexivity. Qed.

(** *** The theorems at concrete inputs *)

(** [open] of a missing file: the engine open fails and slot 3 is given
    back.  [open] for appending on a disk whose seeks fail: the engine handle
    is closed and slot 3 is given back.  [open] with the allocator exhausted:
    nothing was taken. *)
Lemma open_failure_rolls_back_witness :
  open "/missing.txt" O_RDONLY st0 = Some (-1, with_errno ENOENT st0) /\
  (exists st' : state mem_world,
     open "/a.txt" (Z.lor O_WRONLY O_APPEND) st_badseek = Some (-1, st') /\
     errno st' = EIO /\
     __iob st' = __iob st_badseek /\ heap st' = heap st_badseek /\
     opened (world st') !! new_fil st_badseek = None) /\
  open "/a.txt" O_RDONLY st_oom = Some (-1, with_errno EBADF st_oom).
Proof.
  assert (Hfree : forall st : state mem_world,
            __iob st = __iob st0 -> first_free st 3).
  { intros st E. split; [unfold MAX_FILES; rewrite E; cbn; lia |].
    split; [rewrite E; reflexivity |]. intros j Hj. lia. }
  split; [| split].
  - destruct (open_failure_rolls_back "/missing.txt" O_RDONLY st0)
      as (_ & _ & _ & Hwith).
    destruct (Hwith 3 FR_NO_FILE world0 (Hfree st0 eq_refl))
      as (Hbad & _); [vm_compute; reflexivity .. |].
    apply Hbad. discriminate.
  - destruct (open_failure_rolls_back "/a.txt" (Z.lor O_WRONLY O_APPEND)
                st_badseek) as (_ & _ & _ & Hwith).
    destruct (Hwith 3 FR_OK
                (snd (f_open (world st_badseek) (new_fil st_badseek) "/a.txt"
                        FA_WRITE))
                (Hfree st_badseek eq_refl))
      as (_ & _ & Happ); [vm_compute; reflexivity .. |].
    destruct (Happ FR_DISK_ERR
                (snd (f_open (world st_badseek) (new_fil st_badseek) "/a.txt"
                        FA_WRITE)))
      as (_ & Hko);
      [reflexivity | vm_compute; discriminate | vm_compute; reflexivity |].
    eexists. split; [apply Hko; discriminate |].
    cbn [errno __iob heap world].
    split; [reflexivity |]. split; [reflexivity |].
    split; [reflexivity |]. vm_compute. reflexivity.
  - destruct (open_failure_rolls_back "/a.txt" O_RDONLY st_oom)
      as (_ & _ & Hno & _).
    apply Hno. right. vm_compute. reflexivity.
Defined.

(** [close] of handle 3 when the engine close fails: -1 with [EINVAL], and
    the descriptor is released all the same. *)
Lemma close_frees_descriptor_witness :
  exists st' : state mem_world,
    close 3 st_stale = Some (-1, st') /\
    errno st' = EINVAL /\
    __iob st' !! 3%nat = Some None /\
    heap st' !! stream3 = None /\ heap st' !! fil3 = None.
Proof.
  destruct (close_frees_descriptor 3 st_stale stream3 fil3 file3
              FR_INVALID_OBJECT world0)
    as (st' & Hc & _ & _ & Hslot & Hs & Hh & _ & _ & _ & He).
  - reflexivity.
  - vm_compute. reflexivity.
  - vm_compute. reflexivity.
  - reflexivity.
  - vm_compute. reflexivity.
  - exists st'. split; [exact Hc |]. split; [exact He |].
    split; [exact Hslot |]. split; [exact Hs | exact Hh].
Defined.

(** On the otherwise-empty table the first allocation returns handle 3. *)
Lemma new_file_descriptor_first_free_witness :
  new_file_descriptor st0 = Some (3, slot_allocated st0 3).
Proof.
  destruct (new_file_descriptor_first_free st0) as (Hfirst & _ & _).
  rewrite (Hfirst 3).
  - reflexivity.
  - lia.
  - reflexivity.
  - intros j Hj. lia.
Defined.

(** C3 as stated fails: slot 3 is free and is the smallest free handle, yet
    [new_file_descriptor] returns -1, because the allocator is exhausted. *)
Lemma new_file_descriptor_oom_counterexample :
  __iob st_oom !! 3%nat = Some None /\
  new_file_descriptor st_oom = Some (-1, with_errno ENOMEM st_oom) /\
  new_file_descriptor st_oom <> Some (3, slot_allocated st_oom 3).
Proof.
  split; [reflexivity |]. split; [vm_compute; reflexivity |].
  vm_compute. discriminate.
Qed.

(** A bare CR followed by "c": [fatfs_getc] returns LF and seeks the engine
    back, so that its position is 5, just after the CR. *)
Lemma fatfs_getc_line_endings_witness :
  let w1 := snd (f_read (world st_m4) fil3 1) in
  let w2 := snd (f_read w1 fil3 1) in
  let w3 := snd (f_lseek w2 fil3 (f_tell w1 fil3)) in
  fatfs_getc (Some stream3) st_m4 =
  Some (byte_to_Z LF, mkState (__iob st_m4) 0 (heap st_m4) w3) /\
  f_tell w2 fil3 = 6 /\ f_tell w3 fil3 = 5.
Proof.
  intros w1 w2 w3.
  destruct (fatfs_getc_line_endings st_m4 stream3 fil3 (with_len 3 file3)
              FR_OK [CR] w1)
    as (_ & Hcr & _).
  - vm_compute. reflexivity.
  - reflexivity.
  - vm_compute. reflexivity.
  - destruct (Hcr FR_OK [x63] w2) as (_ & _ & Hbare).
    + reflexivity.
    + reflexivity.
    + vm_compute. reflexivity.
    + split; [| split; vm_compute; reflexivity].
      apply (Hbare x63); [reflexivity | reflexivity | discriminate].
Defined.


(** A seek past the end of the three-byte file is clamped by the engine,
    which reports success; [lseek] returns -1. *)
Example lseek_detects_clamping :
  value (lseek 3 10 SEEK_SET st_a) = Some (-1) /\
  f_tell (world (after (lseek 3 10 SEEK_SET st_a))) fil3 = 3 /\
  errno (after (lseek 3 10 SEEK_SET st_a)) = 0.
Proof. vm_compute. repeat split. Qed.

Section SeekBeyond.
Import MemGrow.


End SeekBeyond.

(** C5: the code does not do what the claim says.  After the successful
    [lseek(3, 1, SEEK_SET)] on "abc" the stream is marked as holding a
    pushed-back byte, so the next [fgetc] returns the zeroed pushback slot
    instead of "b"; only the [fgetc] after that reads from position 1. *)
Theorem lseek_then_fgetc_returns_pushback_slot :
  value (lseek 3 1 SEEK_SET st_a) = Some 1 /\
  (exists f' : FILE,
     heap (after (lseek 3 1 SEEK_SET st_a)) !! stream3 = Some (B_FILE f') /\
     Z.land (flags f') __SUNGET <> 0) /\
  fgetc_n 2 (after (lseek 3 1 SEEK_SET st_a)) = [Some 0; Some 98] /\
  fgetc_n 2 (after (fgetc (Some stream3) st_a)) = [Some 98; Some 99].
Proof.
  split; [vm_compute; reflexivity |].
  split; [| split; vm_compute; reflexivity].
  eexists. split; [vm_compute; reflexivity |]. vm_compute. discriminate.
Qed.



(** The fallback at an engine code outside the table. *)
Lemma fatfs_to_errno_table_witness :
  fatfs_to_errno 42 = EBADMSG /\ strerror (fatfs_to_errno 42) = Some "Bad Message".
Proof.
  destruct fatfs_to_errno_table
    as (_ & _ & _ & _ & _ & _ & _ & _ & _ & _ & _ & _ & _ & _ & _ & _ & _ & _
        & _ & _ & Hfall & Hmsg & _).
  rewrite (Hfall 42) by (right; vm_compute; reflexivity).
  split; [reflexivity | exact Hmsg].
Defined.

(** [read] on the unused handle 7: -1, and the buffer's first byte is
    zeroed. *)
Lemma read_zeroes_first_byte_witness :
  read 7 [x61; x62] 2 st0 = Some ((-1, [x00; x62]), with_errno EBADF st0) /\
  ([x00; x62] = [x00; x62] \/
   exists (h : ptr) (res : Z) (data : list byte) (w' : mem_world),
     f_read (world st0) h (u32 2) = (res, data, w') /\
     res <> FR_OK /\ [x00; x62] = store_bytes data [x00; x62]).
Proof.
  destruct (read_zeroes_first_byte 7 x61 [x62] 2 st0) as [_ Hfail].
  assert (Hrun : read 7 [x61; x62] 2 st0 =
                 Some ((-1, [x00; x62]), with_errno EBADF st0))
    by (vm_compute; reflexivity).
  split; [exact Hrun |].
  apply (Hfail (-1) [x00; x62] (with_errno EBADF st0) Hrun). reflexivity.
Defined.

(** [read] on the console output handle, and on a file after the engine has
    lost its object: both fail, both have zeroed the first byte. *)
Example read_failures_zero_first_byte :
  value (read 1 [x61; x62] 2 st0) = Some (-1, [x00; x62]) /\
  value (read 3 [x61; x62] 2 st_stale) = Some (-1, [x00; x62]) /\
  errno (after (read 3 [x61; x62] 2 st_stale)) = EINVAL.
Proof. vm_compute. repeat split. Qed.

(** * Further Properties *)

(** ** Path names *)

Lemma string_app_cons (x : ascii) (a b : string) :
  (String x a ++ b = String x (a ++ b))%string.
Proof. reflexivity. Qed.

Lemma string_app_assoc (a b c : string) : ((a ++ b) ++ c = a ++ (b ++ c))%string.
Proof.
  induction a as [| x a IH]; [reflexivity |].
  rewrite !string_app_cons, IH. reflexivity.
Qed.

Lemma string_app_nil_r (a : string) : (a ++ "" = a)%string.
Proof.
  induction a as [| x a IH]; [reflexivity |].
  rewrite string_app_cons, IH. reflexivity.
Qed.

Lemma string_length_app (a b : string) :
  String.length (a ++ b) = (String.length a + String.length b)%nat.
Proof.
  induction a as [| x a IH]; [reflexivity |].
  rewrite string_app_cons. cbn [String.length]. rewrite IH. reflexivity.
Qed.

Lemma has_char_app (c : ascii) (a b : string) :
  has_char c (a ++ b) = has_char c a || has_char c b.
Proof.
  induction a as [| x a IH]; [reflexivity |].
  rewrite string_app_cons. cbn [has_char]. rewrite IH.
  apply orb_assoc.
Qed.

(** The two loops in lockstep: [a] is the text already scanned. *)
Lemma basename_dirname_loops (str a base : string) (end_ : Z) :
  (has_char "/" a = false /\ base = (a ++ str)%string /\ end_ = 0) \/
  (exists pre p : string,
     a = (pre ++ "/" ++ p)%string /\ has_char "/" p = false /\
     base = (p ++ str)%string /\ end_ = Z.of_nat (String.length pre)) ->
  let s := (a ++ str)%string in
  let b := basename_loop str base in
  let d := dirname_loop str end_ (Z.of_nat (String.length a)) in
  (has_char "/" s = false /\ b = s /\ d = 0) \/
  (exists pre : string,
     s = (pre ++ "/" ++ b)%string /\ has_char "/" b = false /\
     d = Z.of_nat (String.length pre)).
Proof.
  revert a base end_. induction str as [| c rest IH]; intros a base end_ Hinv.
  - cbn [basename_loop dirname_loop]. cbv zeta. rewrite string_app_nil_r.
    destruct Hinv as [(Hn & -> & ->) | (pre & p & -> & Hp & -> & ->)].
    + left. rewrite string_app_nil_r. auto.
    + right. exists pre. rewrite string_app_nil_r. auto.
  - cbn [basename_loop dirname_loop]. cbv zeta.
    assert (Hs : (a ++ String c rest = (a ++ String c "") ++ rest)%string).
    { rewrite string_app_assoc. reflexivity. }
    assert (Hl : Z.of_nat (String.length a) + 1 =
                 Z.of_nat (String.length (a ++ String c ""))).
    { rewrite string_length_app. simpl. lia. }
    rewrite Hs, Hl.
    destruct (Ascii.eqb_spec c "/") as [-> | Hc].
    + apply IH. right. exists a, ""%string.
      repeat split; try reflexivity.
    + apply IH.
      destruct Hinv as [(Hn & -> & ->) | (pre & p & -> & Hp & -> & ->)].
      * left. split; [| split; [rewrite string_app_assoc; reflexivity | reflexivity]].
        rewrite has_char_app, Hn. simpl.
        destruct (Ascii.eqb_spec c "/"); [contradiction | reflexivity].
      * right. exists pre, (p ++ String c "")%string.
        split; [rewrite !string_app_assoc; reflexivity |].
        split; [| split; [rewrite string_app_assoc; reflexivity | reflexivity]].
        rewrite has_char_app, Hp. simpl.
        destruct (Ascii.eqb_spec c "/"); [contradiction | reflexivity].
Qed.

(** X1: [basename] and [dirname] split a path at its last slash.  A path
    without a slash is its own basename and has [dirname] 0; otherwise the
    path is a prefix, a slash and the basename, the basename holds no slash,
    and [dirname] is the length of the prefix, that is the index of that
    slash. *)
Theorem basename_dirname_split (s : string) :
  (has_char "/" s = false /\ basename (Some s) = s /\ dirname (Some s) = 0) \/
  (exists pre : string,
     s = (pre ++ "/" ++ basename (Some s))%string /\
     has_char "/" (basename (Some s)) = false /\
     dirname (Some s) = Z.of_nat (String.length pre)).
Proof.
  apply (basename_dirname_loops s "" s 0). left. auto.
Qed.

Lemma baseext_loop_split (str a ext : string) :
  (has_char "." a = false /\ ext = ""%string) \/
  (exists pre p : string,
     a = (pre ++ "." ++ p)%string /\ has_char "." p = false /\
     ext = (p ++ str)%string) ->
  let s := (a ++ str)%string in
  let e := baseext_loop str ext in
  (has_char "." s = false /\ e = ""%string) \/
  (exists pre : string,
     s = (pre ++ "." ++ e)%string /\ has_char "." e = false).
Proof.
  revert a ext. induction str as [| c rest IH]; intros a ext Hinv.
  - cbn [baseext_loop]. cbv zeta. rewrite string_app_nil_r.
    destruct Hinv as [(Hn & ->) | (pre & p & -> & Hp & ->)].
    + left. auto.
    + right. exists pre. rewrite string_app_nil_r. auto.
  - cbn [baseext_loop]. cbv zeta.
    assert (Hs : (a ++ String c rest = (a ++ String c "") ++ rest)%string).
    { rewrite string_app_assoc. reflexivity. }
    rewrite Hs.
    destruct (Ascii.eqb_spec c ".") as [-> | Hc].
    + apply IH. right. exists a, ""%string. repeat split; reflexivity.
    + apply IH.
      destruct Hinv as [(Hn & ->) | (pre & p & -> & Hp & ->)].
      * left. split; [| reflexivity].
        rewrite has_char_app, Hn. simpl.
        destruct (Ascii.eqb_spec c "."); [contradiction | reflexivity].
      * right. exists pre, (p ++ String c "")%string.
        split; [rewrite !string_app_assoc; reflexivity |].
        split; [| rewrite string_app_assoc; reflexivity].
        rewrite has_char_app, Hp. simpl.
        destruct (Ascii.eqb_spec c "."); [contradiction | reflexivity].
Qed.

(** X2: [baseext] returns the text after the last dot of the whole string:
    empty when the string has no dot, otherwise the string is a prefix, a
    dot and the result, which holds no dot.  The dot is looked for in the
    directory part as well, so the result can hold a slash. *)
Theorem baseext_split (s : string) :
  ((has_char "." s = false /\ baseext s = ""%string) \/
   (exists pre : string,
      s = (pre ++ "." ++ baseext s)%string /\
      has_char "." (baseext s) = false)) /\
  baseext "dir.d/file" = "d/file"%string.
Proof.
  split; [| reflexivity].
  apply (baseext_loop_split s "" ""). left. auto.
Qed.

(** ** FAT timestamps *)

Lemma all_upto_spec (n : nat) (z : Z) (P : Z -> bool) :
  all_upto n z P = true ->
  forall x : Z, z <= x < z + Z.of_nat n -> P x = true.
Proof.
  revert z. induction n as [| k IH]; intros z Hall x Hx; [lia |].
  cbn [all_upto] in Hall. apply andb_true_iff in Hall as [Hz Hrest].
  destruct (decide (x = z)) as [-> | Hne]; [exact Hz |].
  apply (IH (z + 1)); [exact Hrest | lia].
Qed.

Lemma fat_date_round_trip_all :
  all_upto (Z.to_nat 65536) 0 fat_date_round_trip = true.
Proof. vm_compute. reflexivity. Qed.

Lemma fat_time_round_trip_all :
  all_upto (Z.to_nat 65536) 0 fat_time_round_trip = true.
Proof. vm_compute. reflexivity. Qed.

(** X3: packing the [struct tm] that [fat_time_to_unix] unpacks gives the
    FAT date and time back, for every 16-bit date and time (a month field
    of 0 included, although it unpacks to month -1). *)
Theorem fat_time_unpack_pack (date time : Z) :
  0 <= date < 2 ^ 16 -> 0 <= time < 2 ^ 16 ->
  tm_to_fat_time (fat_time_to_tm date time) = (date, time).
Proof.
  intros Hd Ht.
  pose proof (all_upto_spec _ _ _ fat_date_round_trip_all date ltac:(lia)) as Ed.
  pose proof (all_upto_spec _ _ _ fat_time_round_trip_all time ltac:(lia)) as Et.
  apply Z.eqb_eq in Ed. apply Z.eqb_eq in Et.
  unfold tm_to_fat_time, fat_time_to_tm in *.
  cbn [tm_sec tm_min tm_hour tm_mday tm_mon tm_year fst snd] in *.
  f_equal; assumption.
Qed.

Lemma fat_time_unpack_pack_witness :
  tm_to_fat_time (fat_time_to_tm 0x5B5E 0x8C2F) = (0x5B5E, 0x8C2F) /\
  fat_time_to_tm 0x5B5E 0x8C2F = mkTm 30 33 17 30 9 125.
Proof.
  split; [| reflexivity].
  apply fat_time_unpack_pack; vm_compute; split; congruence.
Defined.

Lemma tm_date_round_trip_all : all_upto 128 0 tm_date_round_trip = true.
Proof. vm_compute. reflexivity. Qed.

Lemma tm_time_round_trip_all : all_upto 32 0 tm_time_round_trip = true.
Proof. vm_compute. reflexivity. Qed.

(** X4: unpacking what [unix_time_to_fat] packs gives the calendar fields
    back for every date from 1980 to 2107, except that the seconds are
    rounded down to an even number. *)
Theorem fat_time_pack_unpack (t : tm) :
  80 <= tm_year t < 208 -> 0 <= tm_mon t < 12 -> 1 <= tm_mday t <= 31 ->
  0 <= tm_hour t < 24 -> 0 <= tm_min t < 60 -> 0 <= tm_sec t < 62 ->
  fat_time_to_tm (fst (tm_to_fat_time t)) (snd (tm_to_fat_time t)) =
  mkTm (2 * (tm_sec t / 2)) (tm_min t) (tm_hour t)
       (tm_mday t) (tm_mon t) (tm_year t).
Proof.
  destruct t as [s mi h d m y]. cbn [tm_sec tm_min tm_hour tm_mday tm_mon tm_year].
  intros Hy Hm Hd Hh Hmi Hs.
  pose proof (all_upto_spec _ _ _ tm_date_round_trip_all (y - 80) ltac:(lia)) as E1.
  unfold tm_date_round_trip in E1.
  pose proof (all_upto_spec _ _ _ E1 m ltac:(lia)) as E2. cbv beta in E2.
  pose proof (all_upto_spec _ _ _ E2 d ltac:(lia)) as E3. cbv beta zeta in E3.
  pose proof (all_upto_spec _ _ _ tm_time_round_trip_all h ltac:(lia)) as F1.
  unfold tm_time_round_trip in F1.
  pose proof (all_upto_spec _ _ _ F1 mi ltac:(lia)) as F2. cbv beta in F2.
  pose proof (all_upto_spec _ _ _ F2 s ltac:(lia)) as F3. cbv beta zeta in F3.
  clear E1 E2 F1 F2.
  replace (y - 80 + 80) with y in E3 by lia.
  apply andb_true_iff in E3 as [E3 Ey]. apply andb_true_iff in E3 as [Ed Em].
  apply andb_true_iff in F3 as [F3 Fh]. apply andb_true_iff in F3 as [Fs Fm].
  apply Z.eqb_eq in Ey, Ed, Em, Fh, Fs, Fm.
  unfold fat_time_to_tm, tm_to_fat_time in *.
  cbn [tm_sec tm_min tm_hour tm_mday tm_mon tm_year fst snd] in *.
  f_equal; assumption.
Qed.

Lemma fat_time_pack_unpack_witness :
  tm_to_fat_time (mkTm 31 33 17 30 9 125) = (0x5B5E, 0x8C2F) /\
  fat_time_to_tm 0x5B5E 0x8C2F = mkTm 30 33 17 30 9 125.
Proof.
  pose proof (fat_time_pack_unpack (mkTm 31 33 17 30 9 125)) as H.
  cbn [tm_sec tm_min tm_hour tm_mday tm_mon tm_year] in H.
  split; [reflexivity |].
  apply H; lia.
Defined.

Section MoreFacts.
Context {W : Type} `{PF : Platform W}.

Ltac mred := cbv beta iota; cbn [fst snd __iob errno heap world negb].

(** *** [close] on handles it does not accept *)

Lemma close_console (fileno : Z) (st : state W) :
  isatty fileno = true ->
  close fileno st = Some (-1, with_errno EBADF st).
Proof.
  intros Ht. unfold close. unfold bind at 1. unfold set_errno at 1. mred.
  set (st0 := mkState (__iob st) 0 (heap st) (world st)).
  unfold bind at 1. rewrite fileno_to_stream_eq.
  change (slot st0 fileno) with (slot st fileno).
  destruct (slot st fileno) as [s |] eqn:Hs; mred; [| reflexivity].
  unfold bind at 1. unfold fileno_to_fatfs. rewrite Ht.
  reflexivity.
Qed.

Lemma close_free_slot (fileno : Z) (st : state W) :
  slot st fileno = None ->
  close fileno st = Some (-1, with_errno EBADF st).
Proof.
  intros Hs. unfold close. unfold bind at 1. unfold set_errno at 1. mred.
  set (st0 := mkState (__iob st) 0 (heap st) (world st)).
  unfold bind at 1. rewrite fileno_to_stream_eq.
  change (slot st0 fileno) with (slot st fileno).
  rewrite Hs. reflexivity.
Qed.

(** X5: [close] on a console handle, on a handle outside the table or on a
    handle whose slot is free returns -1 with [EBADF] and changes nothing
    else: neither the table, nor the heap, nor the engine is touched. *)
Theorem close_rejects_invalid (fileno : Z) (st : state W) :
  isatty fileno = true \/ slot st fileno = None ->
  close fileno st = Some (-1, with_errno EBADF st).
Proof.
  intros [Ht | Hs].
  - apply close_console. exact Ht.
  - apply close_free_slot. exact Hs.
Qed.

(** What [close] computes on a valid file handle. *)
Lemma close_eq (fileno : Z) (st : state W) (s h : ptr) (f : FILE)
    (res : Z) (w' : W) :
  isatty fileno = false -> slot st fileno = Some s ->
  heap st !! s = Some (B_FILE f) -> udata f = Some h ->
  f_close (world st) h = (res, w') ->
  close fileno st =
  Some ((if res =? FR_OK then 0 else -1),
        mkState (<[Z.to_nat fileno := None]> (__iob st))
                (if res =? FR_OK then 0 else fatfs_to_errno res)
                (delete s (release_owned f (heap st))) w').
Proof.
  intros Ht Hs Hf Hu Hc.
  unfold close. unfold bind at 1. unfold set_errno at 1. mred.
  set (st0 := mkState (__iob st) 0 (heap st) (world st)).
  unfold bind at 1. rewrite fileno_to_stream_eq.
  change (slot st0 fileno) with (slot st fileno).
  rewrite Hs. mred.
  unfold bind at 1.
  rewrite (fileno_to_fatfs_valid fileno st0 s h f Ht Hs Hf Hu). mred.
  unfold bind at 1. unfold engine at 1. subst st0. cbn [world].
  rewrite Hc. mred. unfold bind at 1.
  rewrite (free_file_descriptor_valid fileno
             (mkState (__iob st) 0 (heap st) w') s f Ht Hs Hf).
  mred. destruct (res =? FR_OK); reflexivity.
Qed.

Lemma slot_after_clear (st st' : state W) (fileno : Z) :
  __iob st' = <[Z.to_nat fileno := None]> (__iob st) ->
  slot st' fileno = None.
Proof.
  intros E. unfold slot, MAX_FILES. rewrite E.
  destruct ((0 <=? fileno) &&
            (fileno <? Z.of_nat (length (<[Z.to_nat fileno := None]> (__iob st)))))
    eqn:Hr; [| reflexivity].
  apply andb_true_iff in Hr as [H0 Hr].
  apply Z.leb_le in H0. apply Z.ltb_lt in Hr.
  rewrite length_insert in Hr.
  rewrite list_lookup_insert_eq by lia. reflexivity.
Qed.

(** X6: a handle cannot be closed twice.  Once [close] has run on a valid
    file handle, whatever the engine answered, a second [close] of the same
    handle returns -1 with [EBADF] and changes nothing else. *)
Theorem close_twice_fails (fileno : Z) (st : state W) (s h : ptr) (f : FILE) :
  isatty fileno = false -> slot st fileno = Some s ->
  heap st !! s = Some (B_FILE f) -> udata f = Some h ->
  exists (r : Z) (st' : state W),
    close fileno st = Some (r, st') /\
    close fileno st' = Some (-1, with_errno EBADF st').
Proof.
  intros Ht Hs Hf Hu.
  destruct (f_close (world st) h) as [res w'] eqn:Hc.
  rewrite (close_eq fileno st s h f res w' Ht Hs Hf Hu Hc).
  eexists _, _. split; [reflexivity |].
  apply close_free_slot.
  apply (slot_after_clear st). reflexivity.
Qed.


(** *** [open] on success, and [open] followed by [close] *)

Ltac open_fail_path' :=
  rewrite fileno_to_stream_eq; rewrite slot_invalid_handle; mred;
  rewrite free_file_descriptor_invalid by apply slot_invalid_handle; mred;
  unfold ret; eexists _, _; split; [reflexivity |];
  left; split; [reflexivity | split; reflexivity].

(** The two outcomes of [open]. *)
Lemma open_cases (pathname : string) (flags : Z) (st : state W) :
  exists (r : Z) (st' : state W),
    open pathname flags st = Some (r, st') /\
    ((r = -1 /\ __iob st' = __iob st /\ heap st' = heap st) \/
     (3 <= r < MAX_FILES st /\
      __iob st !! Z.to_nat r = Some None /\
      (forall j : Z, 3 <= j < r -> occupied st j) /\
      __iob st' = <[Z.to_nat r := Some (new_stream st)]> (__iob st) /\
      heap st' = <[new_stream st := B_FILE (opened_file flags (new_fil st))]>
                   (heap (slot_allocated st r)) /\
      errno st' = 0)).
Proof.
  unfold open, bind. unfold set_errno at 1. mred.
  set (st_e := mkState (__iob st) 0 (heap st) (world st)).
  destruct (new_file_descriptor_cases st_e)
    as [[Hs Hocc] | (k & Hk & Hkf & Hsm & Hs)]; rewrite Hs.
  { mred. open_fail_path'. }
  destruct (two_blocks_available st_e); mred; [| open_fail_path'].
  set (st1 := slot_allocated st_e k).
  assert (Hr : 0 <= k < MAX_FILES st_e) by lia.
  rewrite fileno_to_stream_eq.
  rewrite (slot_allocated_slot st_e st1 k Hr eq_refl). mred.
  rewrite (fileno_to_fatfs_valid k st1 (new_stream st_e) (new_fil st_e)
             (with_udata (Some (new_fil st_e)) FILE_zero));
    [| apply isatty_false; lia
     | apply (slot_allocated_slot st_e st1 k Hr eq_refl)
     | apply (slot_allocated_file st_e st1 k eq_refl)
     | reflexivity ].
  mred. unfold engine at 1.
  destruct (f_open (world st1) (new_fil st_e) pathname
              (Z.land (open_fatfs_modes flags) 255)) as [res w2].
  mred. destruct (res =? FR_OK); mred.
  - unfold get_state at 1. mred.
    assert (Hseek : exists (res2 : Z) (w3 : W),
              (if negb (Z.land flags O_APPEND =? 0)
               then engine (fun w => f_lseek w (new_fil st_e)
                                       (f_size w2 (new_fil st_e)))
               else ret FR_OK)
                (mkState (__iob st1) (errno st1) (heap st1) w2) =
              Some (res2, mkState (__iob st1) (errno st1) (heap st1) w3)).
    { destruct (negb (Z.land flags O_APPEND =? 0)).
      - unfold engine. cbn [world].
        destruct (f_lseek w2 (new_fil st_e) (f_size w2 (new_fil st_e)))
          as [res2 w3].
        eexists _, _. reflexivity.
      - eexists _, _. reflexivity. }
    destruct Hseek as (res2 & w3 & ->). mred.
    destruct (res2 =? FR_OK); mred.
    + assert (Hmod : forall g : FILE -> FILE,
                modify_FILE (new_stream st_e) g
                  (mkState (__iob st1) (errno st1) (heap st1) w3) =
                Some (tt, mkState (__iob st1) (errno st1)
                            (<[new_stream st_e :=
                                 B_FILE (g (with_udata (Some (new_fil st_e))
                                              FILE_zero))]> (heap st1)) w3)).
      { intros g.
        apply (modify_FILE_eq (new_stream st_e)
                 (with_udata (Some (new_fil st_e)) FILE_zero) g
                 (mkState (__iob st1) (errno st1) (heap st1) w3)).
        apply (slot_allocated_file st_e _ k). reflexivity. }
      exists k.
      unfold opened_file.
      destruct (Z.land flags O_ACCMODE =? O_RDWR);
        [| destruct (Z.land flags O_ACCMODE =? O_RDONLY)];
        rewrite Hmod; mred; unfold ret; eexists; (split; [reflexivity |]);
        right; cbn [__iob heap errno];
        (split; [exact Hk |]); (split; [exact Hkf |]);
        (split; [exact Hsm |]); (split; [reflexivity |]);
        split; reflexivity.
    + unfold set_errno at 1. mred. unfold engine at 1. cbn [world].
      destruct (f_close w3 (new_fil st_e)) as [rc w4]. mred.
      rewrite (slot_allocated_rollback st_e _ k) by (reflexivity || lia || assumption).
      mred. unfold ret. eexists _, _. split; [reflexivity |].
      left. split; [reflexivity | split; reflexivity].
  - unfold set_errno at 1. mred.
    rewrite (slot_allocated_rollback st_e _ k) by (reflexivity || lia || assumption).
    mred. unfold ret. eexists _, _. split; [reflexivity |].
    left. split; [reflexivity | split; reflexivity].
Qed.


Lemma opened_file_fields (flags : Z) (h : ptr) :
  udata (opened_file flags h) = Some h /\ buf (opened_file flags h) = None.
Proof.
  unfold opened_file.
  destruct (Z.land flags O_ACCMODE =? O_RDWR);
    [| destruct (Z.land flags O_ACCMODE =? O_RDONLY)]; split; reflexivity.
Qed.

Lemma opened_file_released (st : state W) (k flags : Z) :
  delete (new_stream st)
    (release_owned (opened_file flags (new_fil st))
       (<[new_stream st := B_FILE (opened_file flags (new_fil st))]>
          (heap (slot_allocated st k)))) = heap st.
Proof.
  destruct (opened_file_fields flags (new_fil st)) as [Hu Hb].
  unfold release_owned. rewrite Hu, Hb.
  unfold slot_allocated. cbn [heap].
  rewrite insert_insert_eq.
  rewrite (delete_insert_ne _ (new_fil st) (new_stream st))
    by apply new_fil_ne.
  rewrite (delete_insert_id _ (new_fil st)) by apply fresh_lookup.
  rewrite delete_insert_eq. apply delete_insert_id, fresh_lookup.
Qed.

(** X7: [open] followed by [close] of the handle it returned gives the
    descriptor table and the heap of before the [open] back, whatever the
    flags and whatever the engine answers to the close. *)
Theorem open_then_close_restores (pathname : string) (flags : Z)
    (st st' : state W) (r : Z) :
  open pathname flags st = Some (r, st') -> r <> -1 ->
  exists (rc : Z) (st'' : state W),
    close r st' = Some (rc, st'') /\
    __iob st'' = __iob st /\ heap st'' = heap st.
Proof.
  intros Hopen Hr.
  destruct (open_cases pathname flags st) as (r0 & st0 & Ho & Hcase).
  rewrite Hopen in Ho. injection Ho as <- <-.
  destruct Hcase as [[Hm _] | (Hk & Hfree & _ & Hiob & Hheap & _)];
    [contradiction |].
  destruct (opened_file_fields flags (new_fil st)) as [Hu _].
  assert (Hslot : slot st' r = Some (new_stream st)).
  { apply slot_lookup. split; [lia |]. rewrite Hiob.
    apply list_lookup_insert_eq. unfold MAX_FILES in Hk. lia. }
  assert (Hfile : heap st' !! new_stream st =
                  Some (B_FILE (opened_file flags (new_fil st)))).
  { rewrite Hheap. apply lookup_insert_eq. }
  destruct (f_close (world st') (new_fil st)) as [res w'] eqn:Hc.
  rewrite (close_eq r st' (new_stream st) (new_fil st)
             (opened_file flags (new_fil st)) res w'
             ltac:(apply isatty_false; lia) Hslot Hfile Hu Hc).
  eexists _, _. split; [reflexivity |]. cbn [__iob heap].
  split.
  - rewrite Hiob, list_insert_insert_eq. apply list_insert_id. exact Hfree.
  - rewrite Hheap. apply opened_file_released.
Qed.

(** X8: a successful [open] returns the smallest non-console handle whose
    slot was free, changes no other slot of the table, leaves [errno] 0 and
    binds a fresh stream to a fresh engine handle.  The stream has an empty
    pushback slot, a read count of 0 and no buffer; it is readable with
    [fatfs_getc] bound and no put function when the access mode is
    [O_RDONLY], readable and writable with both bound when it is [O_RDWR],
    and writable with only [fatfs_putc] bound for any other access mode. *)
Theorem open_binds_by_access_mode (pathname : string) (oflags : Z)
    (st st' : state W) (r : Z) :
  open pathname oflags st = Some (r, st') -> r <> -1 ->
  3 <= r < MAX_FILES st /\
  __iob st !! Z.to_nat r = Some None /\
  (forall j : Z, 3 <= j < r -> occupied st j) /\
  __iob st' = <[Z.to_nat r := Some (new_stream st)]> (__iob st) /\
  heap st !! new_stream st = None /\ heap st !! new_fil st = None /\
  heap st' !! new_fil st = Some B_FIL /\
  errno st' = 0 /\
  exists f : FILE,
    heap st' !! new_stream st = Some (B_FILE f) /\
    udata f = Some (new_fil st) /\ buf f = None /\ unget f = x00 /\
    len f = 0 /\
    (Z.land oflags O_ACCMODE = O_RDONLY ->
     flags f = __SRD /\ get f = Some Get_fatfs /\ put f = None) /\
    (Z.land oflags O_ACCMODE = O_RDWR ->
     flags f = Z.lor __SRD __SWR /\ get f = Some Get_fatfs /\
     put f = Some Put_fatfs) /\
    (Z.land oflags O_ACCMODE <> O_RDONLY -> Z.land oflags O_ACCMODE <> O_RDWR ->
     flags f = __SWR /\ get f = None /\ put f = Some Put_fatfs).
Proof.
  intros Hopen Hr.
  destruct (open_cases pathname oflags st) as (r0 & st0 & Ho & Hcase).
  rewrite Hopen in Ho. injection Ho as <- <-.
  destruct Hcase as [[Hm _] | (Hk & Hfree & Hsm & Hiob & Hheap & He)];
    [contradiction |].
  split; [exact Hk |]. split; [exact Hfree |]. split; [exact Hsm |].
  split; [exact Hiob |]. split; [apply fresh_lookup |].
  split.
  { pose proof (fresh_lookup (<[new_stream st := B_FILE FILE_zero]> (heap st)))
      as Hf. fold (new_fil st) in Hf.
    rewrite lookup_insert_ne in Hf; [exact Hf |].
    intros E. symmetry in E. revert E. apply new_fil_ne. }
  split.
  { rewrite Hheap. rewrite lookup_insert_ne by (intros E; symmetry in E; revert E; apply new_fil_ne).
    unfold slot_allocated. cbn [heap].
    rewrite lookup_insert_ne by (intros E; symmetry in E; revert E; apply new_fil_ne).
    apply lookup_insert_eq. }
  split; [exact He |].
  exists (opened_file oflags (new_fil st)).
  split; [rewrite Hheap; apply lookup_insert_eq |].
  unfold opened_file.
  destruct (Z.eqb_spec (Z.land oflags O_ACCMODE) O_RDWR) as [Erw | Nrw];
    [| destruct (Z.eqb_spec (Z.land oflags O_ACCMODE) O_RDONLY) as [Ero | Nro]];
    cbn [udata buf unget len flags get put];
    repeat (split; [reflexivity |]).
  - split; [rewrite Erw; discriminate |]. split; [auto | contradiction].
  - split; [auto |]. split; [contradiction | contradiction].
  - split; [contradiction |]. split; [contradiction | auto].
Qed.


(** *** The table outside the handle at hand *)

Lemma fileno_to_fatfs_eq (i : Z) (st : state W) (s : ptr) :
  isatty i = false -> slot st i = Some s ->
  fileno_to_fatfs i st =
  match heap st !! s with
  | Some (B_FILE f) =>
      match udata f with
      | Some h => Some (Some h, st)
      | None => Some (None, with_errno EBADF st)
      end
  | _ => None
  end.
Proof.
  intros Ht Hs. unfold fileno_to_fatfs. rewrite Ht.
  unfold bind at 1. rewrite fileno_to_stream_eq, Hs. mred.
  unfold fdev_get_udata, bind, load_FILE.
  destruct (heap st !! s) as [[f | | l] |]; try reflexivity.
  unfold ret. destruct (udata f); reflexivity.
Qed.

Lemma close_table (fileno : Z) (st st' : state W) (r : Z) :
  close fileno st = Some (r, st') ->
  __iob st' = __iob st \/
  (isatty fileno = false /\ 0 <= fileno /\
   __iob st' = <[Z.to_nat fileno := None]> (__iob st)).
Proof.
  destruct (isatty fileno) eqn:Ht.
  { rewrite close_console by exact Ht. intros [= _ <-]. left. reflexivity. }
  destruct (slot st fileno) as [s |] eqn:Hs.
  2: { rewrite close_free_slot by exact Hs. intros [= _ <-]. left.
       reflexivity. }
  pose proof (slot_range st fileno s Hs) as Hr.
  destruct (heap st !! s) as [[f | | l] |] eqn:Hf.
  1: destruct (udata f) as [h |] eqn:Hu.
  - destruct (f_close (world st) h) as [res w'] eqn:Hc.
    rewrite (close_eq fileno st s h f res w' Ht Hs Hf Hu Hc).
    intros [= _ <-]. right. split; [reflexivity |]. split; [lia | reflexivity].
  - unfold close. unfold bind at 1. unfold set_errno at 1. mred.
    set (st0 := mkState (__iob st) 0 (heap st) (world st)).
    unfold bind at 1. rewrite fileno_to_stream_eq.
    change (slot st0 fileno) with (slot st fileno). rewrite Hs. mred.
    unfold bind at 1. rewrite (fileno_to_fatfs_eq fileno st0 s Ht Hs).
    change (heap st0) with (heap st). rewrite Hf, Hu. mred.
    intros [= _ <-]. left. reflexivity.
  - unfold close. unfold bind at 1. unfold set_errno at 1. mred.
    set (st0 := mkState (__iob st) 0 (heap st) (world st)).
    unfold bind at 1. rewrite fileno_to_stream_eq.
    change (slot st0 fileno) with (slot st fileno). rewrite Hs. mred.
    unfold bind at 1. rewrite (fileno_to_fatfs_eq fileno st0 s Ht Hs).
    change (heap st0) with (heap st). rewrite Hf. discriminate.
  - unfold close. unfold bind at 1. unfold set_errno at 1. mred.
    set (st0 := mkState (__iob st) 0 (heap st) (world st)).
    unfold bind at 1. rewrite fileno_to_stream_eq.
    change (slot st0 fileno) with (slot st fileno). rewrite Hs. mred.
    unfold bind at 1. rewrite (fileno_to_fatfs_eq fileno st0 s Ht Hs).
    change (heap st0) with (heap st). rewrite Hf. discriminate.
  - unfold close. unfold bind at 1. unfold set_errno at 1. mred.
    set (st0 := mkState (__iob st) 0 (heap st) (world st)).
    unfold bind at 1. rewrite fileno_to_stream_eq.
    change (slot st0 fileno) with (slot st fileno). rewrite Hs. mred.
    unfold bind at 1. rewrite (fileno_to_fatfs_eq fileno st0 s Ht Hs).
    change (heap st0) with (heap st). rewrite Hf. discriminate.
Qed.

(** X9: [open] and [close] keep the length of the descriptor table and
    change no slot other than the one of the handle they return or are
    given; the three console slots are never changed by either. *)
Theorem open_close_preserve_other_slots :
  (forall (pathname : string) (oflags : Z) (st st' : state W) (r : Z),
     open pathname oflags st = Some (r, st') ->
     length (__iob st') = length (__iob st) /\
     (forall i : nat, Z.of_nat i <> r -> __iob st' !! i = __iob st !! i) /\
     (forall i : nat, (i < 3)%nat -> __iob st' !! i = __iob st !! i)) /\
  (forall (fileno : Z) (st st' : state W) (r : Z),
     close fileno st = Some (r, st') ->
     length (__iob st') = length (__iob st) /\
     (forall i : nat, Z.of_nat i <> fileno -> __iob st' !! i = __iob st !! i) /\
     (forall i : nat, (i < 3)%nat -> __iob st' !! i = __iob st !! i)).
Proof.
  split.
  - intros pathname oflags st st' r Hopen.
    destruct (open_cases pathname oflags st) as (r0 & st0 & Ho & Hcase).
    rewrite Hopen in Ho. injection Ho as <- <-.
    destruct Hcase as [(_ & -> & _) | (Hk & _ & _ & -> & _)].
    + repeat split; reflexivity.
    + split; [apply length_insert |].
      split; intros i Hi; apply list_lookup_insert_ne; lia.
  - intros fileno st st' r Hclose.
    destruct (close_table fileno st st' r Hclose) as [-> | (Ht & H0 & ->)].
    + repeat split; reflexivity.
    + apply isatty_false in Ht.
      split; [apply length_insert |].
      split; intros i Hi; apply list_lookup_insert_ne; lia.
Qed.


(** *** [read] on a file and on the console input *)

Lemma iob_at_lookup (i : nat) (x : option ptr) (st : state W) :
  __iob st !! i = Some x -> iob_at (Z.of_nat i) st = Some (x, st).
Proof.
  intros Hx. pose proof (lookup_lt_Some _ _ _ Hx) as Hlt.
  destruct (iob_at_eq (Z.of_nat i) st) as (y & Hy & ->);
    [unfold MAX_FILES; lia |].
  rewrite Nat2Z.id in Hy. congruence.
Qed.

(** X10: [read] on a valid file handle whose stream is not one of the
    console streams hands the request to the engine: it returns the number
    of bytes the engine transferred, which may be fewer than asked for, and
    -1 with the translated [errno] only when the engine reports an error.
    The bytes are stored from the start of the caller's buffer, whose first
    byte has been zeroed before; the table and the heap are unchanged. *)
Theorem read_file_delegates (fd : Z) (buffer : list byte) (count : Z)
    (st : state W) (s h : ptr) (f : FILE) (c0 c1 c2 : option ptr)
    (res : Z) (data : list byte) (w' : W) :
  isatty fd = false -> slot st fd = Some s ->
  heap st !! s = Some (B_FILE f) -> udata f = Some h ->
  __iob st !! 0%nat = Some c0 -> __iob st !! 1%nat = Some c1 ->
  __iob st !! 2%nat = Some c2 ->
  c0 <> Some s -> c1 <> Some s -> c2 <> Some s ->
  f_read (world st) h (u32 count) = (res, data, w') ->
  read fd buffer count st =
  Some ((if res =? FR_OK then Z.of_nat (length data) else -1,
         store_bytes data (<[0%nat := x00]> buffer)),
        mkState (__iob st) (if res =? FR_OK then 0 else fatfs_to_errno res)
                (heap st) w').
Proof.
  intros Ht Hs Hf Hu H0 H1 H2 N0 N1 N2 Hrd.
  unfold read. unfold bind at 1. unfold set_errno at 1. mred.
  set (st0 := mkState (__iob st) 0 (heap st) (world st)).
  unfold bind at 1. rewrite fileno_to_stream_eq.
  change (slot st0 fd) with (slot st fd). rewrite Hs. mred.
  unfold bind at 1. unfold stdin.
  pose proof (iob_at_lookup 0 c0 st0 H0) as E0.
  change (Z.of_nat 0) with 0 in E0. rewrite E0. mred.
  destruct (decide (Some s = c0)) as [E | _]; [congruence |].
  unfold bind at 1. unfold stdout.
  pose proof (iob_at_lookup 1 c1 st0 H1) as E1.
  change (Z.of_nat 1) with 1 in E1. rewrite E1. mred.
  destruct (decide (Some s = c1)) as [E | _]; [congruence |].
  unfold bind at 1. unfold stderr.
  pose proof (iob_at_lookup 2 c2 st0 H2) as E2.
  change (Z.of_nat 2) with 2 in E2. rewrite E2. mred.
  destruct (decide (Some s = c2)) as [E | _]; [congruence |].
  unfold bind at 1.
  rewrite (fileno_to_fatfs_valid fd st0 s h f Ht Hs Hf Hu). mred.
  unfold bind at 1. unfold engine at 1. subst st0. cbn [world].
  rewrite Hrd. mred.
  destruct (res =? FR_OK); reflexivity.
Qed.

Lemma byte_of_Z_of_byte (b : byte) : Z_to_byte (byte_to_Z b) = b.
Proof.
  unfold Z_to_byte, byte_to_Z, u8.
  pose proof (Byte.to_N_bounded b) as Hb.
  rewrite Z.mod_small by lia. rewrite N2Z.id, Byte.of_to_N. reflexivity.
Qed.

Lemma read_tty_prefix (n : nat) (stream : ptr) (buffer : list byte)
    (off : nat) (sz : Z) (st st' : state W) (r : Z) (buffer' : list byte) :
  read_tty n stream buffer off sz st = Some ((r, buffer'), st') ->
  forall i : nat, (i < off)%nat -> buffer' !! i = buffer !! i.
Proof.
  revert buffer off sz st.
  induction n as [| n IH]; intros buffer off sz st.
  - intros [= _ <- _]. reflexivity.
  - cbn [read_tty]. unfold bind.
    destruct (fgetc (Some stream) st) as [[c st1] |]; [| discriminate].
    destruct (c <? 0).
    + intros [= _ <- _]. reflexivity.
    + intros H i Hi. rewrite (IH _ _ _ _ H i) by lia.
      apply list_lookup_insert_ne. lia.
Qed.

(** X11: [read] on the console input marks a pushback as pending before it
    reads, so the first byte it delivers is the content of the stream's
    pushback slot, whether or not anything had been pushed back; bytes from
    the transport come after it. *)
Theorem read_console_delivers_pushback_slot (fd : Z) (b : byte)
    (rest : list byte) (count : Z) (st st' : state W) (s : ptr) (f : FILE)
    (r : Z) (buffer' : list byte) :
  __iob st !! 0%nat = Some (Some s) -> slot st fd = Some s ->
  heap st !! s = Some (B_FILE f) -> Z.land (flags f) __SRD <> 0 ->
  1 <= count ->
  read fd (b :: rest) count st = Some ((r, buffer'), st') ->
  1 <= r /\ buffer' !! 0%nat = Some (unget f).
Proof.
  intros H0 Hs Hf Hrd Hc.
  unfold read. unfold bind at 1. unfold set_errno at 1. mred.
  set (st0 := mkState (__iob st) 0 (heap st) (world st)).
  unfold bind at 1. rewrite fileno_to_stream_eq.
  change (slot st0 fd) with (slot st fd). rewrite Hs. mred.
  unfold bind at 1. unfold stdin.
  pose proof (iob_at_lookup 0 (Some s) st0 H0) as E0.
  change (Z.of_nat 0) with 0 in E0. rewrite E0. mred.
  destruct (decide (Some s = Some s)) as [_ | N]; [| congruence].
  unfold bind at 1. rewrite (modify_FILE_eq s f _ st0 Hf). mred.
  destruct (Z.to_nat count) as [| n] eqn:Hn; [lia |].
  cbn [read_tty]. unfold bind at 1. unfold fgetc. unfold bind at 1.
  erewrite load_FILE_eq by (cbn [heap]; apply lookup_insert_eq).
  destruct mask_facts as (Hu & He & Hr & Hue & Heu & Hur & Her).
  assert (Hrd' : (Z.land (flags (flags_set __SUNGET f)) __SRD =? 0) = false).
  { apply Z.eqb_neq. unfold flags_set, with_flags. cbn [flags].
    rewrite flags_set_keeps; [exact Hrd | lia | exact Hur]. }
  rewrite Hrd'.
  assert (Hset : (Z.land (flags (flags_set __SUNGET f)) __SUNGET =? 0) = false).
  { apply Z.eqb_neq. apply flags_set_sets. exact Hu. }
  rewrite Hset. cbn [negb].
  unfold bind at 1.
  erewrite store_FILE_eq by (cbn [heap]; apply lookup_insert_eq).
  unfold ret at 1. mred.
  pose proof (byte_to_Z_range (unget (flags_set __SUNGET f))) as Hrange.
  destruct (Z.ltb_spec (byte_to_Z (unget (flags_set __SUNGET f))) 0); [lia |].
  rewrite byte_of_Z_of_byte.
  intros Htty. split.
  - apply read_tty_count in Htty. lia.
  - rewrite (read_tty_prefix _ _ _ _ _ _ _ _ _ Htty 0%nat) by lia.
    reflexivity.
Qed.

End MoreFacts.

(** *** The engine mode of [fopen] *)

(** The mode byte and the append bit of every mode string. *)
Lemma fopen_mode_table (mode : string) :
  (In mode ["r"; "rb"] ->
   fopen_fatfs_mode mode = FA_READ /\
   Z.land (posix_fopen_modes_to_open mode) O_APPEND = 0) /\
  (In mode ["r+"; "r+b"; "rb+"] ->
   fopen_fatfs_mode mode = Z.lor FA_READ FA_WRITE /\
   Z.land (posix_fopen_modes_to_open mode) O_APPEND = 0) /\
  (In mode ["w"; "wb"] ->
   fopen_fatfs_mode mode = Z.lor FA_WRITE FA_CREATE_ALWAYS /\
   Z.land (posix_fopen_modes_to_open mode) O_APPEND = 0) /\
  (In mode ["w+"; "w+b"; "wb+"] ->
   fopen_fatfs_mode mode = Z.lor (Z.lor FA_READ FA_WRITE) FA_CREATE_ALWAYS /\
   Z.land (posix_fopen_modes_to_open mode) O_APPEND = 0) /\
  (In mode ["a"; "ab"] ->
   fopen_fatfs_mode mode = Z.lor FA_WRITE FA_OPEN_ALWAYS /\
   Z.land (posix_fopen_modes_to_open mode) O_APPEND <> 0) /\
  (In mode ["a+"; "a+b"; "ab+"] \/ ~ In mode mode_grammar ->
   posix_fopen_modes_to_open mode = -1 /\
   fopen_fatfs_mode mode = Z.lor FA_WRITE FA_CREATE_ALWAYS /\
   Z.land (posix_fopen_modes_to_open mode) O_APPEND <> 0).
Proof.
  unfold fopen_fatfs_mode.
  split; [| split; [| split; [| split; [| split]]]];
    try (intros Hin; simpl in Hin;
         repeat destruct Hin as [<- | Hin]; try contradiction;
         vm_compute; split; congruence).
  intros [Hin | Hout].
  - simpl in Hin.
    repeat destruct Hin as [<- | Hin]; try contradiction;
      vm_compute; repeat split; congruence.
  - rewrite (modes_unrecognized mode Hout).
    vm_compute. repeat split; congruence.
Qed.

Section FopenMode.
Context {W : Type} `{PF : Platform W}.

Ltac mred := cbv beta iota; cbn [fst snd __iob errno heap world negb].

(** What [fopen] computes once a handle [k] and its two blocks are there,
    from what the engine answers. *)
Lemma fopen_eq (path mode : string) (st : state W) (k : Z) :
  first_free st k -> two_blocks_available st = true ->
  fopen path mode st =
  let h := new_fil st in
  let flags := posix_fopen_modes_to_open mode in
  let '(res, w1) := f_open (world st) h path (fopen_fatfs_mode mode) in
  if negb (res =? FR_OK) then
    Some (None, mkState (__iob st) EBADF (heap st) w1)
  else
    let '(res2, w2) :=
      if negb (Z.land flags O_APPEND =? 0)
      then f_lseek w1 h (f_size w1 h) else (FR_OK, w1) in
    if negb (res2 =? FR_OK) then
      let '(_, w3) := f_close w2 h in
      Some (None, mkState (__iob st) EBADF (heap st) w3)
    else Some (Some (new_stream st), open_succeeded st k flags w2).
Proof.
  intros Hfirst Hmem. cbv zeta. unfold fopen, fopen_fatfs_mode.
  unfold bind at 1.
  rewrite (open_eq path (posix_fopen_modes_to_open mode) st k Hfirst Hmem).
  cbv zeta.
  assert (Hbad : forall (e : Z) (w : W),
            fileno_to_stream (-1) (mkState (__iob st) e (heap st) w) =
            Some (None, mkState (__iob st) EBADF (heap st) w)).
  { intros e w. rewrite fileno_to_stream_eq, slot_invalid_handle.
    reflexivity. }
  assert (Hgood : forall w : W,
            fileno_to_stream k
              (open_succeeded st k (posix_fopen_modes_to_open mode) w) =
            Some (Some (new_stream st),
                  open_succeeded st k (posix_fopen_modes_to_open mode) w)).
  { intros w. rewrite fileno_to_stream_eq.
    destruct Hfirst as (Hk & _ & _).
    assert (Hslot : slot (open_succeeded st k
                            (posix_fopen_modes_to_open mode) w) k =
                    Some (new_stream st)).
    { apply slot_lookup. split; [lia |]. cbn [open_succeeded __iob].
      apply list_lookup_insert_eq. unfold MAX_FILES in Hk. lia. }
    rewrite Hslot. reflexivity. }
  destruct (f_open (world st) (new_fil st) path
              (Z.land (open_fatfs_modes (posix_fopen_modes_to_open mode))
                      255)) as [res w1].
  destruct (res =? FR_OK); cbn [negb]; mred; [| apply Hbad].
  destruct (negb (Z.land (posix_fopen_modes_to_open mode) O_APPEND =? 0)).
  - destruct (f_lseek w1 (new_fil st) (f_size w1 (new_fil st)))
      as [res2 w2].
    destruct (res2 =? FR_OK); cbn [negb]; mred; [apply Hgood |].
    destruct (f_close w2 (new_fil st)) as [rc w3]. mred. apply Hbad.
  - change (FR_OK =? FR_OK) with true. cbn [negb]. mred. apply Hgood.
Qed.

(** X12: the FatFS mode [fopen] opens the file with, per mode string.
    Once a handle and its two blocks are there, [fopen] asks the engine to
    open the file with the mode byte [fopen_fatfs_mode mode] and, for the
    modes that carry the append bit, to seek to the end; it returns NULL
    with [EBADF], the table and heap as before, when either fails (the
    engine handle having been closed after a failed seek), and the new
    stream otherwise.  The mode byte is read for "r"; read and write,
    without creation or truncation, for "r+"; write with create-always for
    "w", plus read for "w+"; write with open-always and append for "a".
    For "a+" and for every string outside the grammar the flags are -1:
    [fopen] does not reject such a mode, it asks the engine for write with
    create-always, then seeks to the end, and the stream it returns is
    write-only. *)
Theorem fopen_engine_mode (path mode : string) (st : state W) (k res : Z)
    (w1 : W) :
  first_free st k -> two_blocks_available st = true ->
  f_open (world st) (new_fil st) path (fopen_fatfs_mode mode) = (res, w1) ->
  (res <> FR_OK ->
   fopen path mode st = Some (None, mkState (__iob st) EBADF (heap st) w1)) /\
  (res = FR_OK -> Z.land (posix_fopen_modes_to_open mode) O_APPEND = 0 ->
   fopen path mode st =
   Some (Some (new_stream st),
         open_succeeded st k (posix_fopen_modes_to_open mode) w1)) /\
  (forall (res2 : Z) (w2 : W),
     res = FR_OK -> Z.land (posix_fopen_modes_to_open mode) O_APPEND <> 0 ->
     f_lseek w1 (new_fil st) (f_size w1 (new_fil st)) = (res2, w2) ->
     (res2 = FR_OK ->
      fopen path mode st =
      Some (Some (new_stream st),
            open_succeeded st k (posix_fopen_modes_to_open mode) w2)) /\
     (res2 <> FR_OK ->
      fopen path mode st =
      Some (None, mkState (__iob st) EBADF (heap st)
                    (snd (f_close w2 (new_fil st)))))) /\
  (In mode ["r"; "rb"] ->
   fopen_fatfs_mode mode = FA_READ /\
   Z.land (posix_fopen_modes_to_open mode) O_APPEND = 0) /\
  (In mode ["r+"; "r+b"; "rb+"] ->
   fopen_fatfs_mode mode = Z.lor FA_READ FA_WRITE /\
   Z.land (posix_fopen_modes_to_open mode) O_APPEND = 0) /\
  (In mode ["w"; "wb"] ->
   fopen_fatfs_mode mode = Z.lor FA_WRITE FA_CREATE_ALWAYS /\
   Z.land (posix_fopen_modes_to_open mode) O_APPEND = 0) /\
  (In mode ["w+"; "w+b"; "wb+"] ->
   fopen_fatfs_mode mode = Z.lor (Z.lor FA_READ FA_WRITE) FA_CREATE_ALWAYS /\
   Z.land (posix_fopen_modes_to_open mode) O_APPEND = 0) /\
  (In mode ["a"; "ab"] ->
   fopen_fatfs_mode mode = Z.lor FA_WRITE FA_OPEN_ALWAYS /\
   Z.land (posix_fopen_modes_to_open mode) O_APPEND <> 0) /\
  (In mode ["a+"; "a+b"; "ab+"] \/ ~ In mode mode_grammar ->
   posix_fopen_modes_to_open mode = -1 /\
   fopen_fatfs_mode mode = Z.lor FA_WRITE FA_CREATE_ALWAYS /\
   Z.land (posix_fopen_modes_to_open mode) O_APPEND <> 0 /\
   forall h : ptr,
     opened_file (posix_fopen_modes_to_open mode) h =
     mkFILE None x00 _FDEV_SETUP_WRITE 0 0 (Some Put_fatfs) None (Some h)).
Proof.
  intros Hfirst Hmem Hopen.
  pose proof (fopen_eq path mode st k Hfirst Hmem) as E.
  cbv zeta in E. rewrite Hopen in E.
  destruct (fopen_mode_table mode) as (T1 & T2 & T3 & T4 & T5 & T6).
  split; [| split; [| split; [| split; [| split; [| split; [| split;
    [| split]]]]]]]; try assumption.
  - intros Hne. rewrite E.
    destruct (Z.eqb_spec res FR_OK) as [-> | _];
      [contradiction | reflexivity].
  - intros -> Ha. rewrite E. change (FR_OK =? FR_OK) with true.
    rewrite Ha. reflexivity.
  - intros res2 w2 -> Ha Hseek. rewrite E.
    change (FR_OK =? FR_OK) with true. cbn [negb].
    destruct (Z.eqb_spec (Z.land (posix_fopen_modes_to_open mode) O_APPEND) 0)
      as [E0 | _]; [contradiction |]. cbn [negb]. rewrite Hseek.
    split.
    + intros ->. reflexivity.
    + intros Hne. destruct (Z.eqb_spec res2 FR_OK) as [-> | _];
        [contradiction |]. cbn [negb].
      destruct (f_close w2 (new_fil st)) as [rc w3]. reflexivity.
  - intros Hm. destruct (T6 Hm) as (Hf & Hb & Ha).
    split; [exact Hf |]. split; [exact Hb |]. split; [exact Ha |].
    intros h. rewrite Hf. reflexivity.
Qed.

End FopenMode.

Section MoreFacts3.
Context {W : Type} `{PF : Platform W}.

Ltac mred := cbv beta iota; cbn [fst snd __iob errno heap world negb].

(** *** [lseek] and [ftell] *)

Lemma fileno_scan_same_table (s : ptr) (st st' : state W) (n : nat) (i fd : Z) :
  __iob st' = __iob st ->
  fileno_scan s n i st = Some (fd, st) ->
  fileno_scan s n i st' = Some (fd, st').
Proof.
  intros E. revert i. induction n as [| n IH]; intros i.
  - cbn [fileno_scan]. unfold ret. intros [= <-]. reflexivity.
  - cbn [fileno_scan]. unfold bind.
    unfold iob_at, MAX_FILES. rewrite E.
    destruct ((0 <=? i) && (i <? Z.of_nat (length (__iob st))));
      [| discriminate].
    destruct (__iob st !! Z.to_nat i) as [x |]; [| discriminate].
    destruct (decide (x = Some s)).
    + unfold ret. intros [= <-]. reflexivity.
    + apply IH.
Qed.

Lemma fileno_same_table (s : ptr) (st st' : state W) (fd : Z) :
  __iob st' = __iob st ->
  fileno (Some s) st = Some (fd, st) ->
  fileno (Some s) st' = Some (fd, st').
Proof.
  intros E. unfold fileno, bind, get_state. rewrite E.
  apply fileno_scan_same_table. exact E.
Qed.

(** X13: after an [lseek] on a valid file handle that did not return -1,
    [ftell] on the stream of that handle returns the position [lseek]
    returned, and changes nothing. *)
Theorem lseek_then_ftell (fd position whence : Z) (st st' : state W)
    (s h : ptr) (f : FILE) (r : Z) :
  isatty fd = false -> slot st fd = Some s ->
  heap st !! s = Some (B_FILE f) -> udata f = Some h ->
  fileno (Some s) st = Some (fd, st) ->
  lseek fd position whence st = Some (r, st') -> r <> -1 ->
  ftell (Some s) st' = Some (r, st').
Proof.
  intros Ht Hs Hf Hu Hfd Hl Hr.
  set (target := if whence =? SEEK_END then s32 (position + f_size (world st) h)
                 else if whence =? SEEK_CUR
                      then s32 (position + f_tell (world st) h)
                      else position).
  destruct (f_lseek (world st) h (u32 target)) as [res w'] eqn:Hseek.
  rewrite (lseek_eq fd position whence st s h f target res w'
             Ht Hs Hf Hu eq_refl Hseek) in Hl.
  injection Hl as Hrv Hst.
  destruct (res =? 0); [| congruence].
  destruct (u32 target =? f_tell w' h); [| congruence].
  subst r st'.
  set (st' := mkState (__iob st) 0
                (<[s := B_FILE (flags_set __SUNGET f)]> (heap st)) w').
  unfold ftell. unfold bind at 1. unfold set_errno at 1. mred.
  change (mkState (__iob st') 0 (heap st') (world st')) with st'.
  unfold bind at 1.
  rewrite (fileno_same_table s st st' fd eq_refl Hfd). mred.
  rewrite Ht. unfold bind at 1.
  rewrite (fileno_to_fatfs_valid fd st' s h (flags_set __SUNGET f) Ht Hs);
    [| subst st'; cbn [heap]; apply lookup_insert_eq | exact Hu].
  mred. reflexivity.
Qed.


(** *** [fgets] *)

Lemma fgets_loop_bounds (n : nat) (stream : option ptr) (str : list byte)
    (ind : nat) (st st' : state W) (r : option nat) (str' : list byte) :
  fgets_loop n stream str ind st = Some ((r, str'), st') ->
  length str' = length str /\
  (forall i : nat, (ind + n <= i)%nat -> str' !! i = str !! i) /\
  (forall k : nat, r = Some k -> (k <= ind + n)%nat).
Proof.
  revert str ind st.
  induction n as [| n IH]; intros str ind st.
  - cbn [fgets_loop]. unfold ret. intros [= <- <- _].
    split; [reflexivity |]. split; [reflexivity |].
    intros k [= <-]. lia.
  - cbn [fgets_loop]. unfold bind.
    destruct (fgetc stream st) as [[c st1] |]; [| discriminate].
    destruct (c =? EOF).
    { destruct ind; unfold ret; intros [= <- <- _];
        (split; [reflexivity |]); (split; [reflexivity |]);
        intros k [= <-]; lia. }
    destruct (c =? 10).
    { unfold ret. intros [= <- <- _].
      split; [reflexivity |]. split; [reflexivity |].
      intros k [= <-]. lia. }
    destruct (c =? 8).
    + intros H. apply IH in H as (Hl & Hk & Hr).
      split; [exact Hl |]. split.
      * intros i Hi. apply Hk. lia.
      * intros k Hk'. specialize (Hr k Hk'). lia.
    + intros H. apply IH in H as (Hl & Hk & Hr).
      rewrite length_insert in Hl.
      split; [exact Hl |]. split.
      * intros i Hi. rewrite Hk by lia. apply list_lookup_insert_ne. lia.
      * intros k Hk'. specialize (Hr k Hk'). lia.
Qed.

(** X14: [fgets] with a size that is not negative keeps the length of the
    buffer and never writes beyond index [size]; when it returns the
    buffer, the terminating zero is at an index of at most [size].  The
    terminator can be at index [size] itself, so the buffer must hold
    [size + 1] bytes. *)
Theorem fgets_stays_within_size (str : list byte) (size : Z)
    (stream : option ptr) (st st' : state W) (ok : bool) (str' : list byte) :
  0 <= size ->
  fgets str size stream st = Some ((ok, str'), st') ->
  length str' = length str /\
  (forall i : nat, size < Z.of_nat i -> str' !! i = str !! i) /\
  (ok = true ->
   exists k : nat,
     Z.of_nat k <= size /\
     ((k < length str)%nat -> str' !! k = Some x00)).
Proof.
  intros Hsize. unfold fgets, bind.
  destruct (fgets_loop (Z.to_nat size) stream str 0 st)
    as [[[r str1] st1] |] eqn:Hloop; [| discriminate].
  apply fgets_loop_bounds in Hloop as (Hl & Hk & Hr).
  destruct r as [k |]; unfold ret; intros [= <- <- _].
  - specialize (Hr k eq_refl).
    split; [rewrite length_insert; exact Hl |].
    split.
    + intros i Hi. rewrite list_lookup_insert_ne by lia. apply Hk. lia.
    + intros _. exists k. split; [lia |].
      intros Hlt. apply list_lookup_insert_eq. lia.
  - split; [exact Hl |]. split; [| discriminate].
    intros i Hi. apply Hk. lia.
Qed.


(** *** [fatfs_to_fileno] *)

Lemma fatfs_to_fileno_scan_spec (h : ptr) (st : state W) (n : nat) (i : Z)
    (j : Z) (st' : state W) :
  0 <= i -> i + Z.of_nat n = MAX_FILES st ->
  fatfs_to_fileno_scan h n i st = Some (j, st') ->
  (j = -1 /\ st' = with_errno EBADF st /\
   forall k : Z, i <= k -> ~ bound_to st k h) \/
  (i <= j < MAX_FILES st /\ st' = st /\ bound_to st j h /\
   forall k : Z, i <= k < j -> ~ bound_to st k h).
Proof.
  revert i. induction n as [| n IH]; intros i Hi Hn.
  - cbn [fatfs_to_fileno_scan]. unfold bind, set_errno, ret.
    intros [= <- <-]. left. split; [reflexivity |]. split; [reflexivity |].
    intros k Hk (s & f & Hs & _). apply slot_range in Hs. lia.
  - cbn [fatfs_to_fileno_scan]. unfold bind at 1.
    destruct (iob_at_eq i st) as (x & Hx & ->); [lia |]. mred.
    assert (Hnext :
              ~ bound_to st i h ->
              fatfs_to_fileno_scan h n (i + 1) st = Some (j, st') ->
              (j = -1 /\ st' = with_errno EBADF st /\
               forall k : Z, i <= k -> ~ bound_to st k h) \/
              (i <= j < MAX_FILES st /\ st' = st /\ bound_to st j h /\
               forall k : Z, i <= k < j -> ~ bound_to st k h)).
    { intros Hni Hrest.
      destruct (IH (i + 1) ltac:(lia) ltac:(lia) Hrest)
        as [(-> & -> & Hno) | (Hj & -> & Hb & Hno)].
      - left. split; [reflexivity |]. split; [reflexivity |].
        intros k Hk. destruct (decide (k = i)) as [-> | Hne]; [exact Hni |].
        apply Hno. lia.
      - right. split; [lia |]. split; [reflexivity |]. split; [exact Hb |].
        intros k Hk. destruct (decide (k = i)) as [-> | Hne]; [exact Hni |].
        apply Hno. lia. }
    destruct x as [s |].
    + unfold bind at 1. unfold fdev_get_udata, bind at 1. unfold load_FILE.
      destruct (heap st !! s) as [[f | | l] |] eqn:Hf; try discriminate.
      unfold ret at 1. mred.
      destruct (decide (Some h = udata f)) as [E | N].
      * unfold ret. intros [= <- <-]. right.
        split; [lia |]. split; [reflexivity |]. split.
        -- exists s, f. split; [apply slot_lookup; auto |]. auto.
        -- intros k Hk. lia.
      * apply Hnext. intros (s' & f' & Hs' & Hf' & Hu').
        apply slot_lookup in Hs' as [_ Hs']. congruence.
    + apply Hnext. intros (s' & f' & Hs' & _).
      apply slot_lookup in Hs' as [_ Hs']. congruence.
Qed.

(** X15: [fatfs_to_fileno] inverts [fileno_to_fatfs].  For an engine handle
    it returns the first handle of the table whose stream is bound to it,
    leaving the state alone, or -1 with [EBADF] when no stream is bound to
    it; so for the engine handle that [fileno_to_fatfs] gives for a handle
    [i] it returns a handle of at most [i] bound to that same engine
    handle. *)
Theorem fatfs_to_fileno_inverts (st st' : state W) (h : ptr) (j : Z) :
  fatfs_to_fileno (Some h) st = Some (j, st') ->
  ((j = -1 /\ st' = with_errno EBADF st /\
    forall k : Z, ~ bound_to st k h) \/
   (0 <= j < MAX_FILES st /\ st' = st /\ bound_to st j h /\
    forall k : Z, k < j -> ~ bound_to st k h)) /\
  (forall i : Z,
     fileno_to_fatfs i st = Some (Some h, st) -> isatty i = false ->
     0 <= j <= i /\ bound_to st j h).
Proof.
  unfold fatfs_to_fileno, bind, get_state. intros Hscan.
  apply fatfs_to_fileno_scan_spec in Hscan; [| lia | unfold MAX_FILES; lia].
  assert (Hneg : forall k : Z, k < 0 -> ~ bound_to st k h).
  { intros k Hk (s & f & Hs & _). apply slot_range in Hs. lia. }
  assert (Hcases :
    (j = -1 /\ st' = with_errno EBADF st /\
     forall k : Z, ~ bound_to st k h) \/
    (0 <= j < MAX_FILES st /\ st' = st /\ bound_to st j h /\
     forall k : Z, k < j -> ~ bound_to st k h)).
  { destruct Hscan as [(-> & -> & Hno) | (Hj & -> & Hb & Hno)].
    - left. split; [reflexivity |]. split; [reflexivity |].
      intros k. destruct (Z.lt_ge_cases k 0); [apply Hneg; lia | apply Hno; lia].
    - right. split; [exact Hj |]. split; [reflexivity |]. split; [exact Hb |].
      intros k Hk. destruct (Z.lt_ge_cases k 0); [apply Hneg; lia | apply Hno; lia]. }
  split; [exact Hcases |].
  intros i Hfat Ht.
  assert (Hbi : bound_to st i h).
  { destruct (slot st i) as [s |] eqn:Hs.
    - rewrite (fileno_to_fatfs_eq i st s Ht Hs) in Hfat.
      destruct (heap st !! s) as [[f | | l] |] eqn:Hf; try discriminate.
      destruct (udata f) as [u |] eqn:Hu; [| discriminate].
      injection Hfat as <-. exists s, f. auto.
    - unfold fileno_to_fatfs in Hfat. rewrite Ht in Hfat.
      unfold bind in Hfat. rewrite fileno_to_stream_eq, Hs in Hfat.
      discriminate. }
  destruct Hcases as [(_ & _ & Hno) | (Hj & _ & Hb & Hno)].
  - exfalso. apply (Hno i). exact Hbi.
  - split; [| exact Hb]. split; [lia |].
    destruct (Z.le_gt_cases j i); [assumption |].
    exfalso. apply (Hno i); [lia | exact Hbi].
Qed.


(** *** [fdevopen] *)

Lemma register_if_free_lookup (b : bool) (k : nat) (p : ptr)
    (t : list (option ptr)) (j : nat) :
  register_if_free b k p t !! j =
  match t !! j with
  | Some None => if b && Nat.eqb j k then Some (Some p) else Some None
  | o => o
  end.
Proof.
  unfold register_if_free. destruct b; cbn [andb].
  2:{ destruct (t !! j) as [[s |] |]; reflexivity. }
  destruct (Nat.eqb_spec j k) as [-> | Hne].
  - destruct (t !! k) as [[s |] |] eqn:E; rewrite ?E; try reflexivity.
    apply list_lookup_insert_eq. exact (lookup_lt_Some _ _ _ E).
  - destruct (t !! k) as [[s |] |] eqn:E;
      rewrite ?list_lookup_insert_ne by congruence;
      destruct (t !! j) as [[s' |] |]; reflexivity.
Qed.

Lemma iob_at_literal (st : state W) :
  (forall x, __iob st !! 0%nat = Some x -> iob_at 0 st = Some (x, st)) /\
  (forall x, __iob st !! 1%nat = Some x -> iob_at 1 st = Some (x, st)) /\
  (forall x, __iob st !! 2%nat = Some x -> iob_at 2 st = Some (x, st)).
Proof.
  repeat split; intros x Hx.
  - apply (iob_at_lookup 0 x st Hx).
  - apply (iob_at_lookup 1 x st Hx).
  - apply (iob_at_lookup 2 x st Hx).
Qed.

Lemma bind_assoc_at {A B C : Type} (m : @M W A) (f : A -> @M W B)
    (g : B -> @M W C) (st : state W) :
  bind (bind m f) g st = bind m (fun x => bind (f x) g) st.
Proof.
  unfold bind. destruct (m st) as [[a st'] |]; reflexivity.
Qed.

Lemma bind_ret_at {A B : Type} (a : A) (k : A -> @M W B) (st : state W) :
  bind (ret a) k st = k a st.
Proof. reflexivity. Qed.

Lemma iob_store_literal (c0 c1 c2 v : option ptr) (rest : list (option ptr))
    (e : Z) (h : gmap ptr block) (w : W) :
  iob_store 0 v (mkState (c0 :: c1 :: c2 :: rest) e h w) =
    Some (tt, mkState (v :: c1 :: c2 :: rest) e h w) /\
  iob_store 1 v (mkState (c0 :: c1 :: c2 :: rest) e h w) =
    Some (tt, mkState (c0 :: v :: c2 :: rest) e h w) /\
  iob_store 2 v (mkState (c0 :: c1 :: c2 :: rest) e h w) =
    Some (tt, mkState (c0 :: c1 :: v :: rest) e h w).
Proof.
  repeat split;
    (rewrite iob_store_eq by (unfold MAX_FILES; cbn [__iob length]; lia));
    reflexivity.
Qed.

Ltac fdev_step :=
  first
    [ rewrite bind_assoc_at
    | rewrite bind_ret_at
    | unfold bind at 1;
      first
        [ erewrite modify_FILE_eq by (cbn [heap]; apply lookup_insert_eq)
        | unfold stdin;
          erewrite (proj1 (iob_at_literal _)) by reflexivity
        | unfold stdout;
          erewrite (proj1 (proj2 (iob_at_literal _))) by reflexivity
        | unfold stderr;
          erewrite (proj2 (proj2 (iob_at_literal _))) by reflexivity
        | rewrite (proj1 (iob_store_literal _ _ _ _ _ _ _ _))
        | rewrite (proj1 (proj2 (iob_store_literal _ _ _ _ _ _ _ _)))
        | rewrite (proj2 (proj2 (iob_store_literal _ _ _ _ _ _ _ _))) ] ];
  mred; try rewrite insert_insert_eq.

(** What [fdevopen] computes when it has a transport function and memory. *)
Lemma fdevopen_eq (put_ : option putfn) (get_ : option getfn) (st : state W) :
  3 <= MAX_FILES st -> given put_ || given get_ = true ->
  can_alloc (heap st) = true ->
  fdevopen put_ get_ st =
  Some (Some (new_stream st),
        mkState (register_if_free (given put_) 2 (new_stream st)
                   (register_if_free (given put_) 1 (new_stream st)
                      (register_if_free (given get_) 0 (new_stream st)
                         (__iob st))))
                (errno st)
                (<[new_stream st := B_FILE (console_file put_ get_)]> (heap st))
                (world st)).
Proof.
  intros Hlen Hsome Hmem. unfold MAX_FILES in Hlen.
  destruct st as [t e hp w]. cbn [__iob heap errno world] in *.
  destruct t as [| c0 [| c1 [| c2 rest]]]; try (cbn [length] in Hlen; lia).
  unfold new_stream. cbn [heap]. set (p := fresh (dom hp)).
  assert (Halloc : safecalloc (B_FILE FILE_zero)
                     (mkState (c0 :: c1 :: c2 :: rest) e hp w) =
                   Some (Some p, mkState (c0 :: c1 :: c2 :: rest) e
                                   (<[p := B_FILE FILE_zero]> hp) w)).
  { unfold safecalloc. cbn [heap]. rewrite Hmem. reflexivity. }
  destruct put_ as [q |], get_ as [g |]; try discriminate Hsome;
    unfold fdevopen; unfold bind at 1; rewrite Halloc; mred;
    destruct c0 as [s0 |], c1 as [s1 |], c2 as [s2 |];
    repeat fdev_step; reflexivity.
Qed.

(** X16: [fdevopen] returns NULL and changes nothing when it is given no
    transport function or when the allocator fails.  Otherwise it returns a
    new stream holding the functions with [__SMALLOC] and the matching
    [__SRD], [__SWR] flags, and offers it to the console slots: a slot that
    already has a stream keeps it, a free [stdin] takes the new stream only
    if a [get] function was given, free [stdout] and [stderr] only if a [put]
    function was given, and no other descriptor is touched. *)
Theorem fdevopen_fills_only_free_console_slots
    (put_ : option putfn) (get_ : option getfn) (st : state W) :
  3 <= MAX_FILES st ->
  if (given put_ || given get_) && can_alloc (heap st)
  then exists st',
         fdevopen put_ get_ st = Some (Some (new_stream st), st') /\
         heap st' =
           <[new_stream st := B_FILE (console_file put_ get_)]> (heap st) /\
         errno st' = errno st /\ world st' = world st /\
         forall k : nat,
           __iob st' !! k =
           match __iob st !! k with
           | Some None => if console_role put_ get_ k
                          then Some (Some (new_stream st)) else Some None
           | o => o
           end
  else fdevopen put_ get_ st = Some (None, st).
Proof.
  intros Hlen.
  destruct (given put_ || given get_) eqn:Hg; cbn [andb].
  2:{ destruct put_, get_; try discriminate Hg. reflexivity. }
  destruct (can_alloc (heap st)) eqn:Hmem.
  2:{ unfold fdevopen.
      assert (Hs : safecalloc (B_FILE FILE_zero) st = Some (None, st)).
      { unfold safecalloc. rewrite Hmem. reflexivity. }
      destruct put_, get_; try discriminate Hg;
        unfold bind at 1; rewrite Hs; reflexivity. }
  eexists. split; [apply (fdevopen_eq put_ get_ st Hlen Hg Hmem) |].
  cbn [heap errno world __iob]. repeat split.
  intros k. rewrite !register_if_free_lookup.
  destruct (__iob st !! k) as [[s |] |]; try reflexivity.
  destruct k as [| [| [| k]]]; cbn [Nat.eqb andb console_role];
    rewrite ?andb_false_r; destruct (given put_), (given get_);
    reflexivity.
Qed.

End MoreFacts3.

(** ** Runs of the further properties *)

Lemma close_rejects_invalid_witness :
  close 1 st0 = Some (-1, with_errno EBADF st0) /\
  close 7 st0 = Some (-1, with_errno EBADF st0) /\
  close 8 st0 = Some (-1, with_errno EBADF st0).
Proof.
  split; [| split].
  - apply close_rejects_invalid. left. reflexivity.
  - apply close_rejects_invalid. right. vm_compute. reflexivity.
  - apply close_rejects_invalid. right. vm_compute. reflexivity.
Defined.

Lemma close_twice_fails_witness :
  exists st' : state mem_world,
    close 3 st_a = Some (0, st') /\
    close 3 st' = Some (-1, with_errno EBADF st').
Proof.
  destruct (close_twice_fails 3 st_a stream3 fil3 file3)
    as (r & st' & H1 & H2).
  - reflexivity.
  - vm_compute. reflexivity.
  - vm_compute. reflexivity.
  - reflexivity.
  - exists st'. split; [| exact H2].
    pose proof H1 as Hc. vm_compute in Hc.
    injection Hc as Hr _. rewrite H1. rewrite <- Hr. reflexivity.
Defined.

Lemma open_then_close_restores_witness :
  exists (rc : Z) (st'' : state mem_world),
    close 3 st_a = Some (rc, st'') /\
    __iob st'' = __iob st0 /\ heap st'' = heap st0.
Proof.
  apply (open_then_close_restores "/a.txt" O_RDONLY st0 st_a 3).
  - vm_compute. reflexivity.
  - lia.
Defined.

Lemma open_binds_by_access_mode_witness :
  __iob st_a = <[3%nat := Some stream3]> (__iob st0) /\
  exists f : FILE,
    heap st_a !! stream3 = Some (B_FILE f) /\
    flags f = __SRD /\ get f = Some Get_fatfs /\ put f = None.
Proof.
  destruct (open_binds_by_access_mode "/a.txt" O_RDONLY st0 st_a 3)
    as (_ & _ & _ & Ht & _ & _ & _ & _ & f & Hf & _ & _ & _ & _ & Hr & _).
  - vm_compute. reflexivity.
  - lia.
  - split; [exact Ht |]. exists f. split; [exact Hf |].
    apply Hr. reflexivity.
Defined.

Lemma open_close_preserve_other_slots_witness :
  length (__iob st_a) = length (__iob st0) /\
  forall i : nat, (i < 3)%nat -> __iob st_a !! i = __iob st0 !! i.
Proof.
  destruct (proj1 open_close_preserve_other_slots
              "/a.txt" O_RDONLY st0 st_a 3) as (Hl & _ & Hc).
  - vm_compute. reflexivity.
  - split; [exact Hl | exact Hc].
Defined.

Lemma read_file_delegates_witness :
  exists st' : state mem_world,
    read 3 [x2a; x2a; x2a] 2 st_a = Some ((2, [x61; x62; x2a]), st') /\
    __iob st' = __iob st_a /\ heap st' = heap st_a.
Proof.
  eexists. split.
  - apply (read_file_delegates 3 [x2a; x2a; x2a] 2 st_a stream3 fil3 file3
             (Some 1%positive) (Some 2%positive) (Some 2%positive)
             FR_OK [x61; x62] (snd (f_read (world st_a) fil3 2)));
      try (vm_compute; reflexivity); try discriminate.
  - split; reflexivity.
Defined.

Lemma read_console_delivers_pushback_slot_witness :
  exists st' : state mem_world,
    read 0 [x2a; x2a; x2a] 3 st_typed = Some ((3, [x00; x68; x69]), st') /\
    [x00; x68; x69] !! 0%nat = Some (unget console_in).
Proof.
  assert (Hrun : exists st' : state mem_world,
            read 0 [x2a; x2a; x2a] 3 st_typed =
            Some ((3, [x00; x68; x69]), st'))
    by (eexists; vm_compute; reflexivity).
  destruct Hrun as (st' & Hrun). exists st'. split; [exact Hrun |].
  apply (read_console_delivers_pushback_slot 0 x2a [x2a; x2a] 3 st_typed st'
           1%positive console_in 3 [x00; x68; x69]).
  - reflexivity.
  - vm_compute. reflexivity.
  - vm_compute. reflexivity.
  - vm_compute. discriminate.
  - lia.
  - exact Hrun.
Defined.

(** [fopen] of the three-byte "/a.txt" with "a+": the file is opened with
    write and create-always, which empties it, and the stream is
    returned. *)
Lemma fopen_engine_mode_witness :
  fopen_fatfs_mode "a+" = Z.lor FA_WRITE FA_CREATE_ALWAYS /\
  (exists st' : state mem_world,
     fopen "/a.txt" "a+" st0 = Some (Some stream3, st') /\
     disk (world st') !! "/a.txt" = Some [] /\
     errno st' = 0) /\
  fopen "/missing.txt" "r" st0 =
    Some (None, mkState (__iob st0) EBADF (heap st0) world0).
Proof.
  assert (Hfree : first_free st0 3).
  { split; [unfold MAX_FILES; cbn; lia |].
    split; [reflexivity |]. intros j Hj. lia. }
  split; [| split].
  - destruct (fopen_engine_mode "/a.txt" "a+" st0 3 FR_OK
                (snd (f_open (world st0) (new_fil st0) "/a.txt"
                        (fopen_fatfs_mode "a+"))) Hfree)
      as (_ & _ & _ & _ & _ & _ & _ & _ & Hplus);
      [vm_compute; reflexivity | vm_compute; reflexivity |].
    apply Hplus. left. left. reflexivity.
  - destruct (fopen_engine_mode "/a.txt" "a+" st0 3 FR_OK
                (snd (f_open (world st0) (new_fil st0) "/a.txt"
                        (fopen_fatfs_mode "a+"))) Hfree)
      as (_ & _ & Happ & _);
      [vm_compute; reflexivity | vm_compute; reflexivity |].
    destruct (Happ FR_OK
                (snd (f_lseek
                        (snd (f_open (world st0) (new_fil st0) "/a.txt"
                                (fopen_fatfs_mode "a+")))
                        (new_fil st0) 0)))
      as (Hok & _);
      [reflexivity | vm_compute; discriminate | vm_compute; reflexivity |].
    eexists. split; [apply Hok; reflexivity |].
    split; [vm_compute; reflexivity | reflexivity].
  - destruct (fopen_engine_mode "/missing.txt" "r" st0 3 FR_NO_FILE world0
                Hfree)
      as (Hbad & _);
      [vm_compute; reflexivity | vm_compute; reflexivity |].
    apply Hbad. discriminate.
Defined.

Lemma lseek_then_ftell_witness :
  exists st' : state mem_world,
    lseek 3 1 SEEK_SET st_a = Some (1, st') /\
    ftell (Some stream3) st' = Some (1, st').
Proof.
  assert (Hrun : exists st' : state mem_world,
            lseek 3 1 SEEK_SET st_a = Some (1, st'))
    by (eexists; vm_compute; reflexivity).
  destruct Hrun as (st' & Hrun). exists st'. split; [exact Hrun |].
  apply (lseek_then_ftell 3 1 SEEK_SET st_a st' stream3 fil3 file3 1).
  - reflexivity.
  - vm_compute. reflexivity.
  - vm_compute. reflexivity.
  - reflexivity.
  - vm_compute. reflexivity.
  - exact Hrun.
  - lia.
Defined.

Lemma fgets_stays_within_size_witness :
  exists st' : state mem_world,
    fgets [x2a; x2a; x2a] 2 (Some 1%positive) st_typed =
      Some ((true, [x68; x69; x00]), st') /\
    length [x68; x69; x00] = length [x2a; x2a; x2a] /\
    exists k : nat,
      Z.of_nat k <= 2 /\
      ((k < 3)%nat -> [x68; x69; x00] !! k = Some x00).
Proof.
  assert (Hrun : exists st' : state mem_world,
            fgets [x2a; x2a; x2a] 2 (Some 1%positive) st_typed =
            Some ((true, [x68; x69; x00]), st'))
    by (eexists; vm_compute; reflexivity).
  destruct Hrun as (st' & Hrun). exists st'. split; [exact Hrun |].
  destruct (fgets_stays_within_size [x2a; x2a; x2a] 2 (Some 1%positive)
              st_typed st' true [x68; x69; x00]) as (Hl & _ & Hk).
  - lia.
  - exact Hrun.
  - split; [exact Hl |]. exact (Hk eq_refl).
Defined.

Lemma fatfs_to_fileno_inverts_witness :
  fatfs_to_fileno (Some fil3) st_a = Some (3, st_a) /\
  0 <= 3 <= 3 /\ bound_to st_a 3 fil3.
Proof.
  assert (Hrun : fatfs_to_fileno (Some fil3) st_a = Some (3, st_a))
    by (vm_compute; reflexivity).
  split; [exact Hrun |].
  destruct (fatfs_to_fileno_inverts st_a st_a fil3 3 Hrun) as [_ Hinv].
  apply (Hinv 3); [vm_compute |]; reflexivity.
Defined.

Lemma fdevopen_fills_only_free_console_slots_witness :
  exists st' : state mem_world,
    fdevopen (Some (Put_dev 0)) None st_boot = Some (Some 1%positive, st') /\
    __iob st' !! 0%nat = Some None /\
    __iob st' !! 1%nat = Some (Some 1%positive) /\
    __iob st' !! 2%nat = Some (Some 1%positive) /\
    __iob st' !! 3%nat = Some None.
Proof.
  pose proof (fdevopen_fills_only_free_console_slots
                (Some (Put_dev 0)) None st_boot) as H.
  assert (E : (given (Some (Put_dev 0)) || given (@None getfn)) &&
              can_alloc (heap st_boot) = true) by (vm_compute; reflexivity).
  rewrite E in H.
  destruct H as (st' & Hrun & _ & _ & _ & Hk); [vm_compute; congruence |].
  exists st'. split; [exact Hrun |].
  split; [exact (Hk 0%nat) |]. split; [exact (Hk 1%nat) |].
  split; [exact (Hk 2%nat) | exact (Hk 3%nat)].
Defined.

Section IOFacts.
Context {W : Type} `{PF : Platform W} `{PIO : PlatformIO W}.

Ltac mred := cbv beta iota; cbn [fst snd __iob errno heap world negb].

(** *** Metadata *)

Lemma fatfs_to_errno_zero (r : Z) :
  0 <= fatfs_to_errno r /\ (fatfs_to_errno r = 0 <-> r = FR_OK).
Proof.
  unfold fatfs_to_errno.
  destruct (Z.eqb_spec r FR_OK) as [E | E]; [split; [lia | tauto] |].
  assert (Hpos : forall e : Z, 0 < e -> 0 <= e /\ (e = 0 <-> r = FR_OK))
    by (intros e He; split; [lia |]; split; [lia | contradiction]).
  repeat match goal with
         | |- context [?a =? ?b] => destruct (a =? b); [apply Hpos; reflexivity |]
         end.
  apply Hpos. reflexivity.
Qed.

(** What [chmod] computes. *)
Lemma chmod_eq (pathname : string) (mode : Z) (st : state W) :
  chmod pathname mode st =
  if Z.land mode (Z.lor (Z.lor S_IWUSR S_IWGRP) S_IWOTH) =? 0 then
    let '(rc, w') := f_chmod (world st) pathname AM_RDO AM_RDO in
    Some (if rc =? FR_OK then 0 else -1,
          mkState (__iob st) (fatfs_to_errno rc) (heap st) w')
  else Some (0, with_errno 0 st).
Proof.
  unfold chmod. unfold bind at 1. unfold set_errno at 1. mred.
  destruct (Z.land mode (Z.lor (Z.lor S_IWUSR S_IWGRP) S_IWOTH) =? 0);
    [| reflexivity].
  unfold bind at 1. unfold engine at 1. cbn [world].
  destruct (f_chmod (world st) pathname AM_RDO AM_RDO) as [rc w']. mred.
  destruct (Z.eqb_spec rc FR_OK) as [-> | Hne]; reflexivity.
Qed.

(** X17: [chmod] can only make a file read-only.  When the mode has any
    write bit it returns 0 with [errno] 0 without asking the engine, whether
    or not the file exists; otherwise it sets the read-only attribute and
    returns 0, or -1 with the translated [errno] when the engine refuses. *)
Theorem chmod_only_sets_read_only (pathname : string) (mode : Z)
    (st : state W) :
  (Z.land mode (Z.lor (Z.lor S_IWUSR S_IWGRP) S_IWOTH) <> 0 ->
   chmod pathname mode st = Some (0, with_errno 0 st)) /\
  (forall (rc : Z) (w' : W),
     Z.land mode (Z.lor (Z.lor S_IWUSR S_IWGRP) S_IWOTH) = 0 ->
     f_chmod (world st) pathname AM_RDO AM_RDO = (rc, w') ->
     chmod pathname mode st =
     Some (if rc =? FR_OK then 0 else -1,
           mkState (__iob st) (fatfs_to_errno rc) (heap st) w')).
Proof.
  split.
  - intros Hw. rewrite chmod_eq.
    destruct (Z.eqb_spec (Z.land mode (Z.lor (Z.lor S_IWUSR S_IWGRP) S_IWOTH)) 0)
      as [E | _]; [contradiction | reflexivity].
  - intros rc w' Hw Hc. rewrite chmod_eq, Hw, Hc. reflexivity.
Qed.

(** X18: [mkdir] applies a non-zero mode before it creates the directory.
    With a non-zero mode that has no write bit it first asks the engine to
    set the read-only attribute on the path; if the engine refuses, [mkdir]
    returns -1 with that error and never asks for the directory to be
    created.  With mode 0 or a mode that has a write bit its result is the
    one of the engine's [f_mkdir] alone. *)
Theorem mkdir_applies_mode_before_creating (pathname : string) (mode : Z)
    (st : state W) :
  (forall (rc : Z) (w' : W),
     mode <> 0 ->
     Z.land mode (Z.lor (Z.lor S_IWUSR S_IWGRP) S_IWOTH) = 0 ->
     f_chmod (world st) pathname AM_RDO AM_RDO = (rc, w') ->
     mkdir pathname mode st =
     if rc =? FR_OK then
       let '(res, w'') := f_mkdir w' pathname in
       Some (if res =? FR_OK then 0 else -1,
             mkState (__iob st) (fatfs_to_errno res) (heap st) w'')
     else
       Some (-1, mkState (__iob st) (fatfs_to_errno rc) (heap st) w')) /\
  (forall (res : Z) (w' : W),
     mode = 0 \/
     Z.land mode (Z.lor (Z.lor S_IWUSR S_IWGRP) S_IWOTH) <> 0 ->
     f_mkdir (world st) pathname = (res, w') ->
     mkdir pathname mode st =
     Some (if res =? FR_OK then 0 else -1,
           mkState (__iob st) (fatfs_to_errno res) (heap st) w')).
Proof.
  split.
  - intros rc w' Hm Hw Hc. unfold mkdir. unfold bind at 1.
    unfold set_errno at 1. mred.
    destruct (Z.eqb_spec mode 0) as [E | _]; [contradiction |]. mred.
    unfold bind at 1. rewrite chmod_eq. cbn [world]. rewrite Hw, Hc.
    cbn [Z.eqb]. mred.
    destruct (Z.eqb_spec rc FR_OK) as [-> | Hne]; cbn [Z.eqb negb].
    + unfold bind at 1. unfold engine at 1. cbn [world].
      destruct (f_mkdir w' pathname) as [res w'']. mred.
      destruct (Z.eqb_spec res FR_OK) as [-> | Hr]; reflexivity.
    + reflexivity.
  - intros res w' Hm Hk. unfold mkdir. unfold bind at 1.
    unfold set_errno at 1. mred.
    assert (Hpre : (if negb (mode =? 0) then chmod pathname mode else ret 0)
                     (mkState (__iob st) 0 (heap st) (world st)) =
                   Some (0, mkState (__iob st) 0 (heap st) (world st))).
    { destruct (Z.eqb_spec mode 0) as [E | E]; [reflexivity |]. cbn [negb].
      destruct Hm as [Hm | Hm]; [contradiction |]. rewrite chmod_eq.
      destruct (Z.eqb_spec
                  (Z.land mode (Z.lor (Z.lor S_IWUSR S_IWGRP) S_IWOTH)) 0)
        as [E0 | _]; [contradiction | reflexivity]. }
    unfold bind at 1. rewrite Hpre. mred. cbn [Z.eqb negb].
    unfold bind at 1. unfold engine at 1. cbn [world]. rewrite Hk. mred.
    destruct (Z.eqb_spec res FR_OK) as [-> | Hr]; reflexivity.
Qed.

(** X19: [utime] reports a failure through its return value, not through
    [errno]: it returns the translated code of the engine's answer, which is
    0 exactly when the engine succeeded and a positive error number
    otherwise, never -1, and it leaves [errno] alone.  The time it hands to
    the engine is the modification time of [times], or the current time when
    [times] is NULL. *)
Theorem utime_returns_error_number (filename : string) (times : option Z)
    (st : state W) (res : Z) (w' : W) :
  let ut := match times with
            | Some modtime => modtime
            | None => time (world st)
            end in
  f_utime (world st) filename (fst (unix_time_to_fat gmtime ut))
          (snd (unix_time_to_fat gmtime ut)) = (res, w') ->
  utime filename times st =
    Some (fatfs_to_errno res, mkState (__iob st) (errno st) (heap st) w') /\
  0 <= fatfs_to_errno res /\
  (fatfs_to_errno res = 0 <-> res = FR_OK).
Proof.
  intros ut Hu. split; [| apply fatfs_to_errno_zero].
  unfold utime. unfold bind at 1. unfold get_state at 1. mred.
  fold ut. destruct (unix_time_to_fat gmtime ut) as [date tim] eqn:Hd.
  cbn [fst snd] in Hu. unfold bind at 1. unfold engine at 1.
  rewrite Hu. reflexivity.
Qed.

(** X20: what [stat] reports.  For "/" and "." it returns 0 with a zeroed
    record of mode [S_IFDIR] without asking the engine.  For any other name
    it returns -1 with the translated [errno] and the record untouched when
    the engine fails; on success the three timestamps are the same value,
    the entry's FAT date and time converted by [timegm], the owner and group
    are 1000 whatever the attributes (the system attribute included), the
    directory bit of the mode follows the directory attribute and the write
    bits follow the absence of the read-only attribute. *)
Theorem stat_reports (name : string) (buf : stat_t) (st : state W) :
  (name = "/" \/ name = "." ->
   stat name buf st =
   Some ((0, mkStat 0 0 0 0 0 0 S_IFDIR), with_errno 0 st)) /\
  (forall (res : Z) (info : FILINFO) (w' : W),
     name <> "/" -> name <> "." ->
     f_stat (world st) name = (res, info, w') ->
     (res <> FR_OK ->
      stat name buf st =
      Some ((-1, buf),
            mkState (__iob st) (fatfs_to_errno res) (heap st) w')) /\
     (res = FR_OK ->
      exists b : stat_t,
        stat name buf st =
          Some ((0, b), mkState (__iob st) 0 (heap st) w') /\
        st_uid b = 1000 /\ st_gid b = 1000 /\
        st_atime b = timegm (fat_time_to_tm (fdate info) (ftime info)) /\
        st_mtime b = st_atime b /\ st_ctime b = st_atime b /\
        (Z.land (st_mode b) S_IFDIR <> 0 <->
         Z.land (fattrib info) AM_DIR <> 0) /\
        (Z.land (st_mode b) S_IFREG <> 0 <->
         Z.land (fattrib info) AM_DIR = 0) /\
        (Z.land (st_mode b) FATFS_W <> 0 <->
         Z.land (fattrib info) AM_RDO = 0))).
Proof.
  split.
  - intros Hn. unfold stat. unfold bind at 1. unfold set_errno at 1. mred.
    assert (E : String.eqb name "/" || String.eqb name "." = true)
      by (destruct Hn as [-> | ->]; reflexivity).
    rewrite E. reflexivity.
  - intros res info w' H1 H2 Hs.
    assert (E : String.eqb name "/" || String.eqb name "." = false).
    { apply orb_false_iff. split; apply String.eqb_neq; assumption. }
    assert (Hrun : stat name buf st =
              (do r <- engine (fun w => f_stat w name);
               let '(res, info) := r in
               if negb (res =? FR_OK) then
                 run set_errno (fatfs_to_errno res); ret (-1, buf)
               else
                 let buf := with_st_size (fsize info) buf in
                 let epoch :=
                   fat_time_to_unix timegm (fdate info) (ftime info) in
                 let buf := with_st_ctime epoch
                              (with_st_mtime epoch
                                 (with_st_atime epoch buf)) in
                 let mode := Z.lor FATFS_R FATFS_X in
                 let mode := if Z.land (fattrib info) AM_RDO =? 0
                             then u16 (Z.lor mode FATFS_W) else mode in
                 let buf := if negb (Z.land (fattrib info) AM_SYS =? 0)
                            then with_st_gid 0 (with_st_uid 0 buf)
                            else buf in
                 let buf := with_st_gid 1000 (with_st_uid 1000 buf) in
                 let mode := if negb (Z.land (fattrib info) AM_DIR =? 0)
                             then u16 (Z.lor mode S_IFDIR)
                             else u16 (Z.lor mode S_IFREG) in
                 ret (0, with_st_mode mode buf))
                (mkState (__iob st) 0 (heap st) (world st))).
    { unfold stat. unfold bind at 1. unfold set_errno at 1. mred.
      rewrite E. reflexivity. }
    rewrite Hrun. clear Hrun. split.
    + intros Hne. unfold bind at 1. unfold engine at 1. cbn [world].
      rewrite Hs. mred.
      destruct (Z.eqb_spec res FR_OK) as [-> | _];
        [contradiction | reflexivity].
    + intros ->. unfold bind at 1. unfold engine at 1. cbn [world].
      rewrite Hs. mred. cbn [Z.eqb negb FR_OK]. cbv zeta. unfold ret.
      eexists. split; [reflexivity |].
      destruct (Z.land (fattrib info) AM_SYS =? 0); cbn [negb];
        cbn [st_uid st_gid st_atime st_mtime st_ctime st_size st_mode
             with_st_uid with_st_gid with_st_atime with_st_mtime
             with_st_ctime with_st_size with_st_mode];
        (split; [reflexivity |]); (split; [reflexivity |]);
        (split; [reflexivity |]); (split; [reflexivity |]);
        (split; [reflexivity |]);
        destruct (Z.eqb_spec (Z.land (fattrib info) AM_RDO) 0) as [Er | Er];
        destruct (Z.eqb_spec (Z.land (fattrib info) AM_DIR) 0) as [Ed | Ed];
        cbn [negb]; vm_compute; intuition congruence.
Qed.

(** *** [ftruncate] *)

(** X21: [ftruncate] returns -1 on a console handle with [errno] 0, and -1
    with [EBADF] on a handle that has no stream.  On a valid file handle it
    seeks the engine to the length and then truncates there; if the seek
    fails it returns -1 with that error and does not truncate, if the
    truncation fails it returns -1 with that error, else 0. *)
Theorem ftruncate_seeks_then_truncates (fd length : Z) (st : state W) :
  (isatty fd = true -> ftruncate fd length st = Some (-1, with_errno 0 st)) /\
  (isatty fd = false -> slot st fd = None ->
   ftruncate fd length st = Some (-1, with_errno EBADF st)) /\
  (forall (s h : ptr) (f : FILE) (rc1 rc2 : Z) (w1 w2 : W),
     isatty fd = false -> slot st fd = Some s ->
     heap st !! s = Some (B_FILE f) -> udata f = Some h ->
     f_lseek (world st) h (u32 length) = (rc1, w1) ->
     f_truncate w1 h = (rc2, w2) ->
     ftruncate fd length st =
     if rc1 =? FR_OK then
       Some (if rc2 =? FR_OK then 0 else -1,
             mkState (__iob st) (fatfs_to_errno rc2) (heap st) w2)
     else
       Some (-1, mkState (__iob st) (fatfs_to_errno rc1) (heap st) w1)).
Proof.
  split; [| split].
  - intros Ht. unfold ftruncate. unfold bind at 1. unfold set_errno at 1.
    mred. rewrite Ht. reflexivity.
  - intros Ht Hs. unfold ftruncate. unfold bind at 1. unfold set_errno at 1.
    mred. rewrite Ht. unfold bind at 1. unfold fileno_to_fatfs. rewrite Ht.
    unfold bind at 1. rewrite fileno_to_stream_eq.
    change (slot (mkState (__iob st) 0 (heap st) (world st)) fd)
      with (slot st fd).
    rewrite Hs. reflexivity.
  - intros s h f rc1 rc2 w1 w2 Ht Hs Hf Hu H1 H2.
    unfold ftruncate. unfold bind at 1. unfold set_errno at 1. mred.
    rewrite Ht. unfold bind at 1.
    rewrite (fileno_to_fatfs_valid fd (mkState (__iob st) 0 (heap st) (world st))
               s h f Ht Hs Hf Hu). mred.
    unfold bind at 1. unfold engine at 1. cbn [world]. rewrite H1. mred.
    destruct (Z.eqb_spec rc1 FR_OK) as [-> | Hne]; cbn [negb];
      [| reflexivity].
    unfold bind at 1. unfold engine at 1. cbn [world]. rewrite H2. mred.
    destruct (Z.eqb_spec rc2 FR_OK) as [-> | Hne]; reflexivity.
Qed.

(** *** [write] and [fputc] *)

Lemma not_console_out_file (s : ptr) (c1 c2 : option ptr) (st : state W) :
  __iob st !! 1%nat = Some c1 -> __iob st !! 2%nat = Some c2 ->
  c1 <> Some s -> c2 <> Some s ->
  not_console_out s st = Some (true, st).
Proof.
  intros H1 H2 N1 N2. unfold not_console_out. unfold bind at 1.
  unfold stdout. rewrite (proj1 (proj2 (iob_at_literal st)) c1 H1). mred.
  destruct (decide (Some s = c1)) as [E | _]; [congruence |].
  unfold bind at 1. unfold stderr.
  rewrite (proj2 (proj2 (iob_at_literal st)) c2 H2). mred.
  unfold ret. rewrite bool_decide_eq_false_2 by congruence. reflexivity.
Qed.

Lemma is_console_out_file (s : ptr) (c1 c2 : option ptr) (st : state W) :
  __iob st !! 1%nat = Some c1 -> __iob st !! 2%nat = Some c2 ->
  c1 <> Some s -> c2 <> Some s ->
  is_console_out (Some s) st = Some (false, st).
Proof.
  intros H1 H2 N1 N2. unfold is_console_out. unfold bind at 1.
  unfold stdout. rewrite (proj1 (proj2 (iob_at_literal st)) c1 H1). mred.
  destruct (decide (Some s = c1)) as [E | _]; [congruence |].
  unfold bind at 1. unfold stderr.
  rewrite (proj2 (proj2 (iob_at_literal st)) c2 H2). mred.
  unfold ret. rewrite bool_decide_eq_false_2 by congruence. reflexivity.
Qed.

(** X22: [fputc] on a stream that is neither [stdout] nor [stderr] hands
    the byte to the engine whatever the stream's flags and put function are,
    a stream that was opened read-only included, and does not count it in
    [len].  It returns the character when the engine wrote one byte;
    otherwise it returns EOF with the translated [errno] (0 for a short
    write) and sets the end-of-file flag. *)
Theorem fputc_file_stream_unchecked (c : Z) (st : state W) (s h : ptr)
    (f : FILE) (c1 c2 : option ptr) (res sz : Z) (w' : W) :
  __iob st !! 1%nat = Some c1 -> __iob st !! 2%nat = Some c2 ->
  c1 <> Some s -> c2 <> Some s ->
  heap st !! s = Some (B_FILE f) -> udata f = Some h ->
  f_write (world st) h [Z_to_byte c] = (res, sz, w') ->
  fputc c (Some s) st =
  if (res =? FR_OK) && (sz =? 1) then
    Some (char_to_int (Z_to_byte c), mkState (__iob st) 0 (heap st) w')
  else
    Some (EOF, mkState (__iob st) (fatfs_to_errno res)
                 (<[s := B_FILE (flags_set __SEOF f)]> (heap st)) w').
Proof.
  intros H1 H2 N1 N2 Hf Hu Hw.
  unfold fputc. unfold bind at 1. unfold set_errno at 1. mred.
  set (st0 := mkState (__iob st) 0 (heap st) (world st)).
  unfold bind at 1.
  rewrite (not_console_out_file s c1 c2 st0 H1 H2 N1 N2). mred.
  unfold fatfs_putc. unfold bind at 1. unfold set_errno at 1. mred.
  change (mkState (__iob st0) 0 (heap st0) (world st0)) with st0.
  unfold bind at 1. unfold fdev_get_udata. unfold bind at 1.
  rewrite (load_FILE_eq s f st0 Hf). mred. unfold ret at 1. mred.
  rewrite Hu. unfold bind at 1. unfold engine at 1. subst st0. cbn [world].
  rewrite Hw. mred.
  destruct (res =? FR_OK); cbn [negb andb orb].
  - destruct (sz =? 1); cbn [negb]; [reflexivity |].
    unfold bind at 1. unfold set_errno at 1. mred.
    unfold bind at 1.
    erewrite modify_FILE_eq by (cbn [heap]; exact Hf). reflexivity.
  - unfold bind at 1. unfold set_errno at 1. mred.
    unfold bind at 1.
    erewrite modify_FILE_eq by (cbn [heap]; exact Hf). reflexivity.
Qed.

(** X23: [write] on a handle whose stream is the console input returns -1
    and leaves [errno] 0.  On a valid file handle whose stream is not a
    console stream it hands the first [count] bytes of the buffer to the
    engine in one request and returns the number of bytes the engine wrote,
    which may be fewer than asked for, or -1 with the translated [errno]
    when the engine reports an error; table and heap are unchanged. *)
Theorem write_file_delegates (fd : Z) (buffer : list byte) (count : Z)
    (st : state W) (s : ptr) (c0 c1 c2 : option ptr) :
  slot st fd = Some s ->
  __iob st !! 0%nat = Some c0 -> __iob st !! 1%nat = Some c1 ->
  __iob st !! 2%nat = Some c2 ->
  c1 <> Some s -> c2 <> Some s ->
  (c0 = Some s -> write fd buffer count st = Some (-1, with_errno 0 st)) /\
  (forall (h : ptr) (f : FILE) (res sz : Z) (w' : W),
     c0 <> Some s -> isatty fd = false ->
     heap st !! s = Some (B_FILE f) -> udata f = Some h ->
     f_write (world st) h (take (Z.to_nat (u32 count)) buffer) =
       (res, sz, w') ->
     write fd buffer count st =
     Some (if res =? FR_OK then s32 sz else -1,
           mkState (__iob st) (fatfs_to_errno res) (heap st) w')).
Proof.
  intros Hs H0 H1 H2 N1 N2.
  set (st0 := mkState (__iob st) 0 (heap st) (world st)).
  assert (Hrun : write fd buffer count st =
            (if decide (Some s = c0) then ret (-1)
             else
               do fh <- fileno_to_fatfs fd;
               match fh with
               | None => run set_errno EBADF; ret (-1)
               | Some h =>
                   do r <- engine (fun w =>
                             f_write w h
                               (take (Z.to_nat (u32 count)) buffer));
                   let '(res, sz) := r in
                   if negb (res =? FR_OK) then
                     run set_errno (fatfs_to_errno res); ret (-1)
                   else ret (s32 sz)
               end) st0).
  { unfold write. unfold bind at 1. unfold set_errno at 1. mred. fold st0.
    unfold bind at 1. rewrite fileno_to_stream_eq.
    change (slot st0 fd) with (slot st fd). rewrite Hs. mred.
    unfold bind at 1.
    rewrite (is_console_out_file s c1 c2 st0 H1 H2 N1 N2). mred.
    unfold bind at 1. unfold stdin.
    rewrite (proj1 (iob_at_literal st0) c0 H0). reflexivity. }
  rewrite Hrun. clear Hrun. split.
  - intros E0. destruct (decide (Some s = c0)) as [_ | N]; [| congruence].
    reflexivity.
  - intros h f res sz w' N0 Ht Hf Hu Hw.
    destruct (decide (Some s = c0)) as [E | _]; [congruence |].
    unfold bind at 1.
    rewrite (fileno_to_fatfs_valid fd st0 s h f Ht Hs Hf Hu). mred.
    unfold bind at 1. unfold engine at 1. subst st0. cbn [world].
    rewrite Hw. mred.
    destruct (Z.eqb_spec res FR_OK) as [-> | Hne]; reflexivity.
Qed.

(** *** [syncfs] *)

(** [fgetc] on a readable stream with a pushback pending. *)
Lemma fgetc_pushback_pending (s : ptr) (f : FILE) (st : state W) :
  heap st !! s = Some (B_FILE f) ->
  Z.land (flags f) __SRD <> 0 -> Z.land (flags f) __SUNGET <> 0 ->
  fgetc (Some s) st =
  Some (byte_to_Z (unget f),
        mkState (__iob st) (errno st)
                (<[s := B_FILE (with_len (len f + 1)
                                  (flags_clear __SUNGET f))]> (heap st))
                (world st)).
Proof.
  intros Hf Hrd Hun. unfold fgetc. unfold bind at 1.
  rewrite (load_FILE_eq s f st Hf). mred.
  apply Z.eqb_neq in Hrd, Hun. rewrite Hrd, Hun. cbn [negb].
  unfold bind. rewrite (store_FILE_eq s f _ st Hf). reflexivity.
Qed.

(** What [syncfs] computes on a valid file handle. *)
Lemma syncfs_eq (fd : Z) (st : state W) (s h : ptr) (f : FILE) (res : Z)
    (w' : W) :
  isatty fd = false -> slot st fd = Some s ->
  heap st !! s = Some (B_FILE f) -> udata f = Some h ->
  f_sync (world st) h = (res, w') ->
  syncfs fd st =
  Some (if res =? FR_OK then 0 else -1,
        mkState (__iob st) (fatfs_to_errno res)
                (<[s := B_FILE (flags_set __SUNGET f)]> (heap st)) w').
Proof.
  intros Ht Hs Hf Hu Hy.
  unfold syncfs. unfold bind at 1. unfold set_errno at 1. mred.
  set (st0 := mkState (__iob st) 0 (heap st) (world st)).
  rewrite Ht. unfold bind at 1. rewrite fileno_to_stream_eq.
  change (slot st0 fd) with (slot st fd). rewrite Hs. mred.
  unfold bind at 1. rewrite (modify_FILE_eq s f _ st0 Hf). mred.
  unfold bind at 1.
  erewrite (fileno_to_fatfs_valid fd _ s h (flags_set __SUNGET f) Ht);
    [| exact Hs | cbn [heap]; apply lookup_insert_eq | exact Hu].
  mred. unfold bind at 1. unfold engine at 1. subst st0. cbn [world].
  rewrite Hy. mred.
  destruct (Z.eqb_spec res FR_OK) as [-> | Hne]; reflexivity.
Qed.

Lemma flags_set_unget (f : FILE) :
  Z.land (flags (flags_set __SUNGET f)) __SUNGET <> 0 /\
  Z.land (flags (flags_set __SUNGET f)) __SRD = Z.land (flags f) __SRD.
Proof.
  unfold flags_set, with_flags. cbn [flags]. split.
  - apply flags_set_sets. vm_compute. split; reflexivity.
  - apply flags_set_keeps; [vm_compute; split; [discriminate | reflexivity]
                           | reflexivity].
Qed.

(** X24: [syncfs] returns -1 with [EBADF] on a console handle, and
    dereferences a NULL stream on any other handle that has no stream.  On
    a valid file handle it sets the pushback-pending flag of the stream
    before it asks the engine to synchronise, and returns 0, or -1 with the
    translated [errno] when the engine fails; either way the next [fgetc] on
    a readable stream then returns the content of the pushback slot instead
    of a byte of the file. *)
Theorem syncfs_marks_pushback_pending (fd : Z) (st : state W) :
  (isatty fd = true -> syncfs fd st = Some (-1, with_errno EBADF st)) /\
  (isatty fd = false -> slot st fd = None -> syncfs fd st = None) /\
  (forall (s h : ptr) (f : FILE) (res : Z) (w' : W),
     isatty fd = false -> slot st fd = Some s ->
     heap st !! s = Some (B_FILE f) -> udata f = Some h ->
     f_sync (world st) h = (res, w') ->
     exists st' : state W,
       syncfs fd st = Some (if res =? FR_OK then 0 else -1, st') /\
       st' = mkState (__iob st) (fatfs_to_errno res)
               (<[s := B_FILE (flags_set __SUNGET f)]> (heap st)) w' /\
       (Z.land (flags f) __SRD <> 0 ->
        exists st'' : state W,
          fgetc (Some s) st' = Some (byte_to_Z (unget f), st'') /\
          world st'' = w')).
Proof.
  split; [| split].
  - intros Ht. unfold syncfs. unfold bind at 1. unfold set_errno at 1. mred.
    rewrite Ht. reflexivity.
  - intros Ht Hs. unfold syncfs. unfold bind at 1. unfold set_errno at 1.
    mred. rewrite Ht. unfold bind at 1. rewrite fileno_to_stream_eq.
    change (slot (mkState (__iob st) 0 (heap st) (world st)) fd)
      with (slot st fd).
    rewrite Hs. reflexivity.
  - intros s h f res w' Ht Hs Hf Hu Hy.
    eexists. split; [exact (syncfs_eq fd st s h f res w' Ht Hs Hf Hu Hy) |].
    split; [reflexivity |].
    intros Hrd. destruct (flags_set_unget f) as [Hun Hkeep].
    rewrite (fgetc_pushback_pending s (flags_set __SUNGET f));
      [eexists; split; reflexivity
      | cbn [heap]; apply lookup_insert_eq
      | rewrite Hkeep; exact Hrd
      | exact Hun].
Qed.

(** *** [sync] *)

Lemma streams_kept_refl (st : state W) : streams_kept st st.
Proof.
  split; [reflexivity |]. intros s f Hf. exists f. auto.
Qed.

Lemma streams_kept_trans (st1 st2 st3 : state W) :
  streams_kept st1 st2 -> streams_kept st2 st3 -> streams_kept st1 st3.
Proof.
  intros [T1 K1] [T2 K2]. split; [congruence |].
  intros s f Hf. destruct (K1 s f Hf) as (f2 & H2 & U2 & G2).
  destruct (K2 s f2 H2) as (f3 & H3 & U3 & G3).
  exists f3. split; [exact H3 |]. split; [congruence | auto].
Qed.

Lemma streams_kept_errno (st : state W) (e : Z) :
  streams_kept st (with_errno e st).
Proof.
  split; [reflexivity |]. intros s f Hf. exists f. auto.
Qed.

Lemma streams_kept_live (st st' : state W) :
  streams_kept st st' -> streams_live st -> streams_live st'.
Proof.
  intros [T K] L k s Hk. rewrite T in Hk.
  destruct (L k s Hk) as (f & Hf). destruct (K s f Hf) as (f' & Hf' & _).
  exists f'. exact Hf'.
Qed.

Lemma streams_kept_slot (st st' : state W) (k : Z) :
  streams_kept st st' -> slot st' k = slot st k.
Proof.
  intros [T _]. unfold slot, MAX_FILES. rewrite T. reflexivity.
Qed.

(** One round of [sync]'s loop. *)
Lemma sync_visit_spec (i : Z) (st : state W) :
  streams_live st ->
  exists st' : state W,
    sync_visit i st = Some (tt, st') /\ streams_kept st st' /\
    forall (s h : ptr) (f : FILE),
      isatty i = false -> slot st i = Some s ->
      heap st !! s = Some (B_FILE f) -> udata f = Some h ->
      exists f' : FILE,
        heap st' !! s = Some (B_FILE f') /\
        Z.land (flags f') __SUNGET <> 0.
Proof.
  intros L. unfold sync_visit.
  destruct (isatty i) eqn:Ht.
  { exists st. split; [reflexivity |].
    split; [apply streams_kept_refl | discriminate]. }
  destruct (slot st i) as [s |] eqn:Hs.
  2:{ exists (with_errno EBADF st). split.
      - unfold bind at 1. unfold fileno_to_fatfs. rewrite Ht.
        unfold bind at 1. rewrite fileno_to_stream_eq, Hs. reflexivity.
      - split; [apply streams_kept_errno | discriminate]. }
  destruct (proj1 (slot_lookup st i s) Hs) as [Hi Hk].
  destruct (L _ _ Hk) as (f & Hf).
  unfold bind at 1. rewrite (fileno_to_fatfs_eq i st s Ht Hs), Hf.
  destruct (udata f) as [h |] eqn:Hu.
  2:{ exists (with_errno EBADF st). split; [reflexivity |].
      split; [apply streams_kept_errno |].
      intros s' h' f' _ Hs' Hf' Hu'. congruence. }
  mred. destruct (f_sync (world st) h) as [res w'] eqn:Hy.
  unfold bind at 1. rewrite (syncfs_eq i st s h f res w' Ht Hs Hf Hu Hy).
  mred. eexists. split; [reflexivity |].
  destruct (flags_set_unget f) as [Hun _]. split.
  - split; [reflexivity |]. intros s0 f0 Hf0. cbn [heap].
    destruct (decide (s0 = s)) as [-> | Hne].
    + rewrite lookup_insert_eq. eexists. split; [reflexivity |].
      assert (f0 = f) by congruence. subst f0.
      split; [reflexivity | intros _; exact Hun].
    + rewrite lookup_insert_ne by congruence. exists f0. auto.
  - intros s' h' f' _ Hs' Hf' Hu'.
    assert (s' = s) by congruence. subst s'. cbn [heap].
    rewrite lookup_insert_eq. eexists. split; [reflexivity | exact Hun].
Qed.

Lemma sync_loop_spec (n : nat) (i : Z) (st : state W) :
  streams_live st ->
  exists st' : state W,
    sync_loop n i st = Some (tt, st') /\ streams_kept st st' /\
    forall (k : Z) (s h : ptr) (f : FILE),
      i <= k < i + Z.of_nat n ->
      isatty k = false -> slot st k = Some s ->
      heap st !! s = Some (B_FILE f) -> udata f = Some h ->
      exists f' : FILE,
        heap st' !! s = Some (B_FILE f') /\
        Z.land (flags f') __SUNGET <> 0.
Proof.
  revert i st. induction n as [| n IH]; intros i st L.
  { exists st. split; [reflexivity |].
    split; [apply streams_kept_refl |]. intros k s h f Hk. lia. }
  destruct (sync_visit_spec i st L) as (st1 & Hv & K1 & P1).
  destruct (IH (i + 1) st1 (streams_kept_live st st1 K1 L))
    as (st' & Hl & K2 & P2).
  exists st'. split.
  - cbn [sync_loop]. unfold bind at 1. rewrite Hv. exact Hl.
  - split; [exact (streams_kept_trans st st1 st' K1 K2) |].
    intros k s h f Hk Ht Hs Hf Hu.
    destruct (decide (k = i)) as [-> | Hne].
    + destruct (P1 s h f Ht Hs Hf Hu) as (f1 & Hf1 & Hun1).
      destruct (proj2 K2 s f1 Hf1) as (f' & Hf' & _ & Hkeep).
      exists f'. split; [exact Hf' | exact (Hkeep Hun1)].
    + destruct (proj2 K1 s f Hf) as (f1 & Hf1 & Hu1 & _).
      apply (P2 k s h f1); [lia | exact Ht | | exact Hf1 | congruence].
      rewrite (streams_kept_slot st st1 k K1). exact Hs.
Qed.

(** X28: [sync] always returns when every stream of the table is a live
    [FILE]: unlike [syncfs] called directly, it never reaches a handle
    without a stream.  It leaves the table as it was, keeps every stream
    bound to its engine handle, and leaves the pushback-pending flag set on
    the stream of every open file handle. *)
Theorem sync_returns_and_marks_open_files (st : state W) :
  streams_live st ->
  exists st' : state W,
    sync st = Some (tt, st') /\ streams_kept st st' /\
    forall (k : Z) (s h : ptr) (f : FILE),
      isatty k = false -> slot st k = Some s ->
      heap st !! s = Some (B_FILE f) -> udata f = Some h ->
      exists f' : FILE,
        heap st' !! s = Some (B_FILE f') /\
        Z.land (flags f') __SUNGET <> 0.
Proof.
  intros L.
  destruct (sync_loop_spec (length (__iob st)) 0 st L) as (st' & Hl & K & P).
  exists st'. split; [exact Hl |]. split; [exact K |].
  intros k s h f Ht Hs Hf Hu.
  apply (P k s h f); try assumption.
  apply slot_range in Hs. unfold MAX_FILES in Hs. lia.
Qed.

(** *** Handles without a stream while a console slot is empty *)

(** X27: while no console input is registered, [read] on a handle that has
    no stream takes the NULL stream for [stdin] and dereferences it.  While
    no console output is registered, [write] on such a handle takes the NULL
    stream for [stdout]: it returns 0, not -1, with [EBADF] (for an empty
    request, or when the first byte is not the one that promotes to -1). *)
Theorem invalid_handle_taken_for_missing_console (fd : Z)
    (buffer : list byte) (count : Z) (st : state W) :
  slot st fd = None ->
  (__iob st !! 0%nat = Some None -> read fd buffer count st = None) /\
  (__iob st !! 1%nat = Some None ->
   count = 0 \/
   (0 < count /\
    exists b : byte, buffer !! 0%nat = Some b /\ char_to_int b <> -1) ->
   write fd buffer count st = Some (0, with_errno EBADF st)).
Proof.
  intros Hs. split.
  - intros H0. unfold read. unfold bind at 1. unfold set_errno at 1. mred.
    set (st0 := mkState (__iob st) 0 (heap st) (world st)).
    unfold bind at 1. rewrite fileno_to_stream_eq.
    change (slot st0 fd) with (slot st fd). rewrite Hs. mred.
    unfold bind at 1. unfold stdin.
    rewrite (proj1 (iob_at_literal (with_errno EBADF st0)) None H0). mred.
    destruct (decide (@None ptr = None)) as [_ | N]; [| congruence].
    reflexivity.
  - intros H1 Hc. unfold write. unfold bind at 1. unfold set_errno at 1.
    mred. set (st0 := mkState (__iob st) 0 (heap st) (world st)).
    unfold bind at 1. rewrite fileno_to_stream_eq.
    change (slot st0 fd) with (slot st fd). rewrite Hs. mred.
    unfold bind at 1. unfold is_console_out. unfold bind at 1.
    unfold stdout.
    rewrite (proj1 (proj2 (iob_at_literal (with_errno EBADF st0))) None H1).
    mred. destruct (decide (@None ptr = None)) as [_ | N]; [| congruence].
    unfold ret at 1. mred.
    destruct Hc as [-> | (Hpos & b & Hb & Hne)]; [reflexivity |].
    destruct (Z.to_nat count) as [| n] eqn:En; [lia |].
    cbn [write_tty]. rewrite Hb. unfold bind at 1.
    unfold fputc. unfold bind at 1. unfold set_errno at 1. mred.
    unfold bind at 1. unfold set_errno at 1. mred. unfold ret at 1. mred.
    destruct (Z.eqb_spec (char_to_int b) EOF) as [E | _];
      [contradiction | reflexivity].
Qed.

End IOFacts.

Section StreamFacts.
Context {W : Type} `{PF : Platform W}.

Ltac mred := cbv beta iota; cbn [fst snd __iob errno heap world negb].

(** *** End of file *)

(** [fatfs_getc] on a stream bound to an engine handle either returns a
    byte value and leaves the heap alone, or returns EOF having set the
    end-of-file flag of the stream. *)
Lemma fatfs_getc_outcome (s h : ptr) (f : FILE) (st : state W) :
  heap st !! s = Some (B_FILE f) -> udata f = Some h ->
  exists (c : Z) (st' : state W),
    fatfs_getc (Some s) st = Some (c, st') /\
    __iob st' = __iob st /\
    ((0 <= c <= 255 /\ heap st' = heap st) \/
     (c = EOF /\
      heap st' = <[s := B_FILE (flags_set __SEOF f)]> (heap st))).
Proof.
  intros Hf Hu.
  pose proof (byte_to_Z_range LF) as HLF.
  assert (Hbyte : forall b : byte, 0 <= Z.land (byte_to_Z b) 255 <= 255).
  { intros b. rewrite land_byte_ff. pose proof (byte_to_Z_range b). lia. }
  unfold fatfs_getc. unfold bind at 1. unfold set_errno at 1. mred.
  set (st0 := mkState (__iob st) 0 (heap st) (world st)).
  unfold bind at 1. unfold fdev_get_udata. unfold bind at 1.
  rewrite (load_FILE_eq s f st0 Hf). mred. unfold ret at 1. mred.
  rewrite Hu. unfold bind at 1. unfold engine at 1. subst st0. cbn [world].
  destruct (f_read (world st) h 1) as [[res data] w1]. mred.
  assert (Hfail : forall (e : Z) (w : W),
            exists (c : Z) (st' : state W),
              (run set_errno e; run modify_FILE s (flags_set __SEOF); ret EOF)
                (mkState (__iob st) 0 (heap st) w) = Some (c, st') /\
              __iob st' = __iob st /\
              ((0 <= c <= 255 /\ heap st' = heap st) \/
               (c = EOF /\
                heap st' = <[s := B_FILE (flags_set __SEOF f)]> (heap st)))).
  { intros e w. unfold bind at 1. unfold set_errno at 1. mred.
    unfold bind at 1. erewrite modify_FILE_eq by (cbn [heap]; exact Hf).
    mred. eexists _, _. split; [reflexivity |].
    split; [reflexivity |]. right. split; reflexivity. }
  assert (Hok : forall (c : Z) (st1 : state W),
            0 <= c <= 255 -> __iob st1 = __iob st -> heap st1 = heap st ->
            exists (c' : Z) (st' : state W),
              ret c st1 = Some (c', st') /\
              __iob st' = __iob st /\
              ((0 <= c' <= 255 /\ heap st' = heap st) \/
               (c' = EOF /\
                heap st' = <[s := B_FILE (flags_set __SEOF f)]> (heap st)))).
  { intros c st1 Hc Ht Hh. eexists _, _. split; [reflexivity |].
    split; [exact Ht |]. left. split; assumption. }
  destruct data as [| c [| c' data']]; [apply Hfail | | apply Hfail].
  destruct (res =? FR_OK); [| apply Hfail].
  destruct (Byte.eqb c CR); [| apply Hok; [apply Hbyte | reflexivity ..]].
  unfold bind at 1. unfold get_state at 1. mred.
  unfold bind at 1. unfold engine at 1. cbn [world].
  destruct (f_read w1 h 1) as [[res2 data2] w2]. mred.
  destruct data2 as [| c2 [| c2' data2']];
    try (apply Hok; [lia | reflexivity ..]).
  destruct (res2 =? FR_OK); [| apply Hok; [lia | reflexivity ..]].
  destruct (Byte.eqb c2 LF); [apply Hok; [apply Hbyte | reflexivity ..] |].
  unfold bind at 1. unfold engine at 1. cbn [world].
  destruct (f_lseek w2 h _) as [r3 w3]. mred.
  apply Hok; [lia | reflexivity ..].
Qed.

(** X25: on a readable file stream with no pushback pending, [fgetc]
    either returns a byte value, counts it in [len] and leaves the flags
    alone, or returns EOF with the end-of-file flag set, so that [feof] then
    returns 1; [clrerror] resets it, after which [feof] and [ferror] both
    return 0. *)
Theorem fgetc_end_of_file_sets_feof (st : state W) (s h : ptr) (f : FILE) :
  heap st !! s = Some (B_FILE f) -> udata f = Some h ->
  get f = Some Get_fatfs ->
  Z.land (flags f) __SRD <> 0 -> Z.land (flags f) __SUNGET = 0 ->
  Z.land (flags f) __SSTR = 0 ->
  exists (c : Z) (st' : state W),
    fgetc (Some s) st = Some (c, st') /\
    ((0 <= c <= 255 /\
      heap st' = <[s := B_FILE (with_len (len f + 1) f)]> (heap st)) \/
     (c = EOF /\
      feof (Some s) st' = Some (1, st') /\
      exists st'' : state W,
        clrerror (Some s) st' = Some (tt, st'') /\
        feof (Some s) st'' = Some (0, st'') /\
        ferror (Some s) st'' = Some (0, st''))).
Proof.
  intros Hf Hu Hg Hrd Hun Hstr.
  destruct (fatfs_getc_outcome s h f st Hf Hu)
    as (c & st1 & Hget & Ht & Hcase).
  unfold fgetc. unfold bind at 1. rewrite (load_FILE_eq s f st Hf). mred.
  apply Z.eqb_neq in Hrd. rewrite Hrd, Hun, Hstr. cbn [Z.eqb negb].
  rewrite Hg. unfold bind at 1. rewrite Hget. mred.
  destruct Hcase as [[Hc Hh] | [-> Hh]].
  - destruct (Z.ltb_spec c 0) as [Hneg | _]; [lia |].
    unfold bind at 1.
    erewrite modify_FILE_eq by (rewrite Hh; exact Hf). mred.
    eexists _, _. split; [reflexivity |]. left.
    split; [exact Hc |]. cbn [heap]. rewrite Hh. reflexivity.
  - change (EOF <? 0) with true. cbv iota.
    set (m := if EOF =? _FDEV_ERR then __SERR else __SEOF).
    unfold bind at 1.
    erewrite modify_FILE_eq by (rewrite Hh; apply lookup_insert_eq). mred.
    eexists _, _. split; [reflexivity |]. right. split; [reflexivity |].
    rewrite Hh, insert_insert_eq.
    set (f1 := flags_set m (flags_set __SEOF f)).
    assert (Heof : Z.land (flags f1) __SEOF <> 0).
    { subst f1 m. unfold flags_set, with_flags. cbn [flags].
      destruct (EOF =? _FDEV_ERR).
      - rewrite flags_set_keeps by (vm_compute; intuition congruence).
        apply flags_set_sets. vm_compute. split; reflexivity.
      - apply flags_set_sets. vm_compute. split; reflexivity. }
    split.
    + unfold feof. unfold bind at 1.
      erewrite load_FILE_eq by (cbn [heap]; apply lookup_insert_eq).
      mred. apply Z.eqb_neq in Heof. rewrite Heof. reflexivity.
    + eexists. split.
      * unfold clrerror. unfold bind at 1.
        erewrite modify_FILE_eq by (cbn [heap]; apply lookup_insert_eq).
        mred. erewrite modify_FILE_eq by (cbn [heap]; apply lookup_insert_eq).
        cbn [__iob errno heap world]. rewrite !insert_insert_eq.
        reflexivity.
      * set (f2 := flags_clear __SERR (flags_clear __SEOF f1)).
        assert (H2 : Z.land (flags f2) __SEOF = 0 /\
                     Z.land (flags f2) __SERR = 0).
        { subst f2. unfold flags_clear, with_flags. cbn [flags]. split.
          - rewrite flags_clear_keeps by (vm_compute; intuition congruence).
            apply flags_clear_clears. vm_compute. intuition congruence.
          - apply flags_clear_clears. vm_compute. intuition congruence. }
        destruct H2 as [E1 E2]. split.
        -- unfold feof. unfold bind at 1.
           erewrite load_FILE_eq by (cbn [heap]; apply lookup_insert_eq).
           mred. fold f2. rewrite E1. reflexivity.
        -- unfold ferror. unfold bind at 1.
           erewrite load_FILE_eq by (cbn [heap]; apply lookup_insert_eq).
           mred. fold f2. rewrite E2. reflexivity.
Qed.

(** *** Stream positions *)

(** X26: [fsetpos] on a valid file stream returns 0 or -1.  When it returns
    0 for a position below 2^31, the engine is at that position and a
    following [fgetpos] returns 0 and stores the same position, changing
    nothing. *)
Theorem fsetpos_then_fgetpos (fd pos : Z) (st : state W) (s h : ptr)
    (f : FILE) :
  isatty fd = false -> slot st fd = Some s ->
  heap st !! s = Some (B_FILE f) -> udata f = Some h ->
  fileno (Some s) st = Some (fd, st) ->
  0 <= pos < 2 ^ 31 ->
  exists (r : Z) (st' : state W),
    fsetpos (Some s) pos st = Some (r, st') /\
    (r = -1 \/
     (r = 0 /\ f_tell (world st') h = pos /\
      fgetpos (Some s) st' = Some ((0, pos), st'))).
Proof.
  intros Ht Hs Hf Hu Hfd Hpos.
  assert (Hfd0 : (fd <? 0) = false).
  { apply Z.ltb_ge. apply slot_range in Hs. lia. }
  destruct (f_lseek (world st) h (u32 pos)) as [res w'] eqn:Hseek.
  unfold fsetpos, fseek. rewrite (s32_small pos) by lia.
  unfold bind at 1. rewrite Hfd. mred. rewrite Hfd0.
  unfold bind at 1.
  rewrite (lseek_eq fd pos SEEK_SET st s h f pos res w'
             Ht Hs Hf Hu eq_refl Hseek). mred.
  destruct (Z.eqb_spec res 0) as [-> | Hres];
    [| eexists _, _; split; [reflexivity | left; reflexivity]].
  destruct (Z.eqb_spec (u32 pos) (f_tell w' h)) as [Htell | Hne];
    [| eexists _, _; split; [reflexivity | left; reflexivity]].
  assert (Hw : f_tell w' h = pos).
  { rewrite <- Htell. unfold u32. apply Z.mod_small. lia. }
  rewrite Hw, (s32_small pos) by lia.
  destruct (Z.eqb_spec pos (-1)) as [E | _]; [lia |].
  set (st' := mkState (__iob st) 0
                (<[s := B_FILE (flags_set __SUNGET f)]> (heap st)) w').
  exists 0, st'. split; [reflexivity |]. right.
  split; [reflexivity |]. split; [exact Hw |].
  unfold fgetpos, ftell. unfold bind at 1. unfold bind at 1.
  unfold set_errno at 1. mred.
  change (mkState (__iob st') 0 (heap st') (world st')) with st'.
  unfold bind at 1.
  rewrite (fileno_same_table s st st' fd eq_refl Hfd). mred.
  rewrite Ht. unfold bind at 1.
  rewrite (fileno_to_fatfs_valid fd st' s h (flags_set __SUNGET f) Ht Hs);
    [| subst st'; cbn [heap]; apply lookup_insert_eq | exact Hu].
  mred. unfold bind at 1. unfold get_state at 1. mred.
  unfold ret at 1. mred. subst st'. cbn [world]. rewrite Hw.
  rewrite (s32_small pos) by lia.
  destruct (Z.eqb_spec pos (-1)) as [E | _]; [lia |].
  unfold ret. unfold u32. rewrite Z.mod_small by lia. reflexivity.
Qed.

(** *** [fopen] and [fclose] *)

Lemma fileno_scan_finds (s : ptr) (st : state W) (r : Z) (n : nat) (i : Z) :
  0 <= i <= r -> r < i + Z.of_nat n -> i + Z.of_nat n <= MAX_FILES st ->
  (forall j : nat, i <= Z.of_nat j < r -> __iob st !! j <> Some (Some s)) ->
  __iob st !! Z.to_nat r = Some (Some s) ->
  fileno_scan s n i st = Some (r, st).
Proof.
  revert i. induction n as [| n IH]; intros i Hi Hr Hn Hbefore Hat; [lia |].
  cbn [fileno_scan]. unfold bind at 1.
  destruct (iob_at_eq i st ltac:(lia)) as (x & Hx & ->). mred.
  destruct (decide (i = r)) as [-> | Hne].
  - rewrite Hat in Hx. injection Hx as <-.
    destruct (decide (Some s = Some s)) as [_ | N]; [reflexivity | congruence].
  - destruct (decide (x = Some s)) as [-> | _].
    + exfalso. apply (Hbefore (Z.to_nat i)); [lia | exact Hx].
    + apply IH; try lia; [| exact Hat].
      intros j Hj. apply Hbefore. lia.
Qed.

(** What [fopen] returns, from what its [open] did. *)
Lemma fopen_cases (path mode : string) (st : state W) :
  exists (rs : option ptr) (st' : state W),
    fopen path mode st = Some (rs, st') /\
    ((rs = None /\ errno st' = EBADF /\
      __iob st' = __iob st /\ heap st' = heap st) \/
     (rs = Some (new_stream st) /\ errno st' = 0 /\
      exists r : Z,
        open path (posix_fopen_modes_to_open mode) st = Some (r, st') /\
        3 <= r < MAX_FILES st /\
        __iob st !! Z.to_nat r = Some None /\
        __iob st' = <[Z.to_nat r := Some (new_stream st)]> (__iob st))).
Proof.
  destruct (open_cases path (posix_fopen_modes_to_open mode) st)
    as (r & st' & Ho & Hcase).
  unfold fopen. unfold bind at 1. rewrite Ho. mred.
  rewrite fileno_to_stream_eq.
  destruct Hcase as [(-> & Ht & Hh) | (Hk & Hfree & _ & Hiob & _ & He)].
  - rewrite slot_invalid_handle. eexists _, _. split; [reflexivity |].
    left. split; [reflexivity |]. split; [reflexivity |].
    split; assumption.
  - assert (Hslot : slot st' r = Some (new_stream st)).
    { apply slot_lookup. split; [lia |]. rewrite Hiob.
      apply list_lookup_insert_eq. unfold MAX_FILES in Hk. lia. }
    rewrite Hslot. eexists _, _. split; [reflexivity |]. right.
    split; [reflexivity |]. split; [exact He |].
    exists r. auto.
Qed.

(** X29: [fopen] always returns.  When it fails it returns NULL with
    [errno] [EBADF] whatever the cause, a missing file, a full table and an
    exhausted allocator alike, because the -1 of the failed [open] is handed
    to [fileno_to_stream]; the table and the heap are then as before the
    call.  When it succeeds it returns a fresh stream, stored in a slot that
    was free, with [errno] 0. *)
Theorem fopen_failure_reports_EBADF (path mode : string) (st : state W) :
  exists (rs : option ptr) (st' : state W),
    fopen path mode st = Some (rs, st') /\
    ((rs = None /\ errno st' = EBADF /\
      __iob st' = __iob st /\ heap st' = heap st) \/
     (rs = Some (new_stream st) /\ errno st' = 0 /\
      heap st !! new_stream st = None /\
      exists r : Z,
        3 <= r < MAX_FILES st /\
        __iob st !! Z.to_nat r = Some None /\
        __iob st' = <[Z.to_nat r := Some (new_stream st)]> (__iob st))).
Proof.
  destruct (fopen_cases path mode st) as (rs & st' & Hf & Hcase).
  exists rs, st'. split; [exact Hf |].
  destruct Hcase as [Hfail | (Hrs & He & r & _ & Hk & Hfree & Hiob)];
    [left; exact Hfail | right].
  split; [exact Hrs |]. split; [exact He |].
  split; [apply fresh_lookup |]. exists r. auto.
Qed.

(** X30: [fopen] followed by [fclose] of the stream it returned gives the
    descriptor table and the heap of before the [fopen] back, when every
    stream of the table was a live [FILE]: [fclose] finds the handle of the
    new stream, because no earlier slot can hold it, and closes it. *)
Theorem fopen_then_fclose_restores (path mode : string) (st st' : state W)
    (s : ptr) :
  streams_live st ->
  fopen path mode st = Some (Some s, st') ->
  exists (rc : Z) (st'' : state W),
    fclose (Some s) st' = Some (rc, st'') /\
    __iob st'' = __iob st /\ heap st'' = heap st.
Proof.
  intros L Hfo.
  destruct (fopen_cases path mode st) as (rs & st0 & Hf & Hcase).
  rewrite Hfo in Hf. injection Hf as <- <-.
  destruct Hcase as [(Hn & _) | (Hrs & He & r & Ho & Hk & Hfree & Hiob)];
    [discriminate |].
  injection Hrs as ->.
  assert (Hlen : length (__iob st') = length (__iob st))
    by (rewrite Hiob; apply length_insert).
  assert (Hfd : fileno (Some (new_stream st)) st' = Some (r, st')).
  { unfold fileno. unfold bind at 1. unfold get_state at 1. mred.
    unfold MAX_FILES in Hk.
    apply fileno_scan_finds; unfold MAX_FILES; try lia.
    - intros j Hj Hc. rewrite Hiob in Hc.
      rewrite list_lookup_insert_ne in Hc by lia.
      destruct (L j _ Hc) as (f & Hf).
      pose proof (fresh_lookup (heap st)) as Hfr.
      unfold new_stream in Hf. congruence.
    - rewrite Hiob. apply list_lookup_insert_eq. lia. }
  unfold fclose. unfold bind at 1. rewrite Hfd. mred.
  destruct (Z.ltb_spec r 0) as [Hneg | _]; [lia |].
  destruct (open_cases path (posix_fopen_modes_to_open mode) st)
    as (r0 & st0 & Ho' & Hcase).
  rewrite Ho in Ho'. injection Ho' as <- <-.
  destruct Hcase as [(Hm & _) | (_ & _ & _ & _ & Hheap & _)]; [lia |].
  destruct (opened_file_fields (posix_fopen_modes_to_open mode) (new_fil st))
    as [Hu _].
  assert (Hslot : slot st' r = Some (new_stream st)).
  { apply slot_lookup. split; [lia |]. rewrite Hiob.
    apply list_lookup_insert_eq. unfold MAX_FILES in Hk. lia. }
  assert (Hfile : heap st' !! new_stream st =
                  Some (B_FILE (opened_file (posix_fopen_modes_to_open mode)
                                  (new_fil st)))).
  { rewrite Hheap. apply lookup_insert_eq. }
  destruct (f_close (world st') (new_fil st)) as [res w'] eqn:Hc.
  rewrite (close_eq r st' (new_stream st) (new_fil st)
             (opened_file (posix_fopen_modes_to_open mode) (new_fil st))
             res w' ltac:(apply isatty_false; lia) Hslot Hfile Hu Hc).
  eexists _, _. split; [reflexivity |]. cbn [__iob heap].
  split.
  - rewrite Hiob, list_insert_insert_eq. apply list_insert_id. exact Hfree.
  - rewrite Hheap. apply opened_file_released.
Qed.

End StreamFacts.

(** ** Runs of the writing and metadata properties *)

Import MemIO.

Lemma chmod_only_sets_read_only_witness :
  chmod "/nofile" 0x1A4 io0 = Some (0, with_errno 0 io0) /\
  chmod "/nofile" 0x124 io0 = Some (-1, with_errno ENOENT io0).
Proof.
  split.
  - apply (proj1 (chmod_only_sets_read_only "/nofile" 0x1A4 io0)).
    vm_compute. discriminate.
  - apply (proj2 (chmod_only_sets_read_only "/nofile" 0x124 io0)
             FR_NO_FILE (world io0)); reflexivity.
Defined.

Lemma mkdir_applies_mode_before_creating_witness :
  mkdir "/d" 0x16D io0 = Some (-1, with_errno ENOENT io0) /\
  mkdir "/d" 0x1ED io0 = Some (0, io_after (mkdir "/d" 0x1ED io0)) /\
  disk (fs (world (io_after (mkdir "/d" 0x1ED io0)))) !! "/d" = Some [].
Proof.
  split; [| split].
  - etransitivity.
    + apply (proj1 (mkdir_applies_mode_before_creating "/d" 0x16D io0)
               FR_NO_FILE (world io0)).
      * discriminate.
      * reflexivity.
      * reflexivity.
    + vm_compute. reflexivity.
  - etransitivity.
    + apply (proj2 (mkdir_applies_mode_before_creating "/d" 0x1ED io0)
               FR_OK (snd (f_mkdir (world io0) "/d"))).
      * right. vm_compute. discriminate.
      * reflexivity.
    + vm_compute. reflexivity.
  - vm_compute. reflexivity.
Defined.

Lemma utime_returns_error_number_witness :
  (exists st' : state io_world,
     utime "/nofile" None io0 = Some (ENOENT, st') /\ errno st' = 0) /\
  (exists st' : state io_world,
     utime "/a.txt" None io0 = Some (0, st') /\
     stamps (world st') !! "/a.txt" = Some (0x5B5E, 0x8C2F)).
Proof.
  split.
  - destruct (utime_returns_error_number "/nofile" None io0
                FR_NO_FILE (world io0)) as (Hrun & _).
    + vm_compute. reflexivity.
    + eexists. split; [exact Hrun | reflexivity].
  - destruct (utime_returns_error_number "/a.txt" None io0 FR_OK
                (snd (f_utime (world io0) "/a.txt" 0x5B5E 0x8C2F)))
      as (Hrun & _).
    + vm_compute. reflexivity.
    + eexists. split; [exact Hrun | vm_compute; reflexivity].
Defined.

Lemma stat_reports_witness :
  stat "/" (mkStat 7 7 7 7 7 7 7) io0 =
    Some ((0, mkStat 0 0 0 0 0 0 S_IFDIR), with_errno 0 io0) /\
  stat "/nofile" (mkStat 7 7 7 7 7 7 7) io0 =
    Some ((-1, mkStat 7 7 7 7 7 7 7), with_errno ENOENT io0) /\
  exists b : stat_t,
    stat "/a.txt" (mkStat 7 7 7 7 7 7 7) io0 = Some ((0, b), io0) /\
    st_uid b = 1000 /\ st_gid b = 1000 /\ st_atime b = 315532800.
Proof.
  split; [| split].
  - apply (proj1 (stat_reports "/" (mkStat 7 7 7 7 7 7 7) io0)).
    left. reflexivity.
  - apply (proj2 (stat_reports "/nofile" (mkStat 7 7 7 7 7 7 7) io0)
             FR_NO_FILE (mkFILINFO 0 0 0 0) (world io0));
      try discriminate; reflexivity.
  - destruct (proj2 (stat_reports "/a.txt" (mkStat 7 7 7 7 7 7 7) io0)
                FR_OK (mkFILINFO 3 0x21 0 0) (world io0))
      as [_ Hok]; try discriminate; [vm_compute; reflexivity |].
    destruct (Hok eq_refl) as (b & Hrun & Hu & Hg & Ha & _).
    exists b. split; [exact Hrun |]. split; [exact Hu |].
    split; [exact Hg |]. rewrite Ha. vm_compute. reflexivity.
Defined.

Lemma ftruncate_seeks_then_truncates_witness :
  ftruncate 1 0 io0 = Some (-1, with_errno 0 io0) /\
  ftruncate 5 0 io0 = Some (-1, with_errno EBADF io0) /\
  ftruncate 3 1 io_rw = Some (0, io_after (ftruncate 3 1 io_rw)) /\
  disk (fs (world (io_after (ftruncate 3 1 io_rw)))) !! "/a.txt" =
    Some [x61].
Proof.
  split; [| split; [| split]].
  - apply (proj1 (ftruncate_seeks_then_truncates 1 0 io0)). reflexivity.
  - apply (proj1 (proj2 (ftruncate_seeks_then_truncates 5 0 io0)));
      vm_compute; reflexivity.
  - etransitivity.
    + apply (proj2 (proj2 (ftruncate_seeks_then_truncates 3 1 io_rw))
               stream3 fil3 (opened_file O_RDWR fil3) FR_OK FR_OK
               (snd (f_lseek (world io_rw) fil3 1))
               (snd (f_truncate (snd (f_lseek (world io_rw) fil3 1)) fil3)));
        vm_compute; reflexivity.
    + vm_compute. reflexivity.
  - vm_compute. reflexivity.
Defined.

Lemma fputc_file_stream_unchecked_witness :
  fputc 65 (Some stream3) io_ro =
    Some (EOF, io_after (fputc 65 (Some stream3) io_ro)) /\
  errno (io_after (fputc 65 (Some stream3) io_ro)) = EACCES /\
  fputc 65 (Some stream3) io_rw =
    Some (65, io_after (fputc 65 (Some stream3) io_rw)) /\
  disk (fs (world (io_after (fputc 65 (Some stream3) io_rw)))) !! "/a.txt" =
    Some [x41; x62; x63].
Proof.
  split; [| split; [| split]].
  - etransitivity.
    + apply (fputc_file_stream_unchecked 65 io_ro stream3 fil3
               (opened_file O_RDONLY fil3)
               (Some 2%positive) (Some 2%positive) FR_DENIED 0
               (world io_ro));
        try discriminate; vm_compute; reflexivity.
    + vm_compute. reflexivity.
  - vm_compute. reflexivity.
  - etransitivity.
    + apply (fputc_file_stream_unchecked 65 io_rw stream3 fil3
               (opened_file O_RDWR fil3)
               (Some 2%positive) (Some 2%positive) FR_OK 1
               (snd (f_write (world io_rw) fil3 [x41])));
        try discriminate; vm_compute; reflexivity.
    + vm_compute. reflexivity.
  - vm_compute. reflexivity.
Defined.

Lemma write_file_delegates_witness :
  write 0 [x68; x69] 2 io0 = Some (-1, with_errno 0 io0) /\
  write 3 [x68; x69] 2 io_rw =
    Some (2, io_after (write 3 [x68; x69] 2 io_rw)) /\
  disk (fs (world (io_after (write 3 [x68; x69] 2 io_rw)))) !! "/a.txt" =
    Some [x68; x69; x63].
Proof.
  split; [| split].
  - apply (proj1 (write_file_delegates 0 [x68; x69] 2 io0 1%positive
                    (Some 1%positive) (Some 2%positive) (Some 2%positive)
                    eq_refl eq_refl eq_refl eq_refl
                    ltac:(discriminate) ltac:(discriminate))).
    reflexivity.
  - assert (Hs : slot io_rw 3 = Some stream3) by (vm_compute; reflexivity).
    assert (H0 : __iob io_rw !! 0%nat = Some (Some 1%positive))
      by (vm_compute; reflexivity).
    assert (H1 : __iob io_rw !! 1%nat = Some (Some 2%positive))
      by (vm_compute; reflexivity).
    assert (H2 : __iob io_rw !! 2%nat = Some (Some 2%positive))
      by (vm_compute; reflexivity).
    etransitivity.
    + apply (proj2 (write_file_delegates 3 [x68; x69] 2 io_rw stream3
                      (Some 1%positive) (Some 2%positive) (Some 2%positive)
                      Hs H0 H1 H2 ltac:(discriminate) ltac:(discriminate))
               fil3 (opened_file O_RDWR fil3) FR_OK 2
               (snd (f_write (world io_rw) fil3 [x68; x69])));
        try discriminate; vm_compute; reflexivity.
    + vm_compute. reflexivity.
  - vm_compute. reflexivity.
Defined.

Lemma syncfs_marks_pushback_pending_witness :
  syncfs 1 io0 = Some (-1, with_errno EBADF io0) /\
  syncfs 5 io0 = None /\
  exists st' st'' : state io_world,
    syncfs 3 io_ro = Some (0, st') /\
    fgetc (Some stream3) st' = Some (0, st'') /\
    f_tell (world st'') fil3 = 0.
Proof.
  split; [| split].
  - apply (proj1 (syncfs_marks_pushback_pending 1 io0)). reflexivity.
  - apply (proj1 (proj2 (syncfs_marks_pushback_pending 5 io0)));
      vm_compute; reflexivity.
  - destruct (proj2 (proj2 (syncfs_marks_pushback_pending 3 io_ro))
                stream3 fil3 (opened_file O_RDONLY fil3) FR_OK
                (world io_ro))
      as (st' & Hrun & Hst & Hget);
      [vm_compute; reflexivity | vm_compute; reflexivity
      | vm_compute; reflexivity | vm_compute; reflexivity
      | vm_compute; reflexivity |].
    destruct Hget as (st'' & Hg & Hw); [vm_compute; discriminate |].
    exists st', st''. split; [exact Hrun |]. split; [exact Hg |].
    rewrite Hw. vm_compute. reflexivity.
Defined.

Lemma fgetc_end_of_file_sets_feof_witness :
  exists st' : state mem_world,
    fgetc (Some stream3) st_a_end = Some (EOF, st') /\
    feof (Some stream3) st' = Some (1, st').
Proof.
  destruct (fgetc_end_of_file_sets_feof st_a_end stream3 fil3
              (with_len 3 file3))
    as (c & st' & Hrun & Hcase); try (vm_compute; congruence).
  assert (Hc : c = EOF).
  { pose proof Hrun as Hv. vm_compute in Hv. injection Hv as Hv _.
    rewrite <- Hv. reflexivity. }
  subst c. exists st'. split; [exact Hrun |].
  destruct Hcase as [[Hc _] | (_ & Hfeof & _)]; [| exact Hfeof].
  vm_compute in Hc. destruct Hc as [Hc _]. exfalso. apply Hc. reflexivity.
Defined.

Lemma fsetpos_then_fgetpos_witness :
  exists st' : state mem_world,
    fsetpos (Some stream3) 2 st_a = Some (0, st') /\
    fgetpos (Some stream3) st' = Some ((0, 2), st').
Proof.
  destruct (fsetpos_then_fgetpos 3 2 st_a stream3 fil3 file3)
    as (r & st' & Hrun & Hcase);
    [vm_compute; reflexivity | vm_compute; reflexivity
    | vm_compute; reflexivity | vm_compute; reflexivity
    | vm_compute; reflexivity | lia |].
  assert (Hr : r = 0).
  { pose proof Hrun as Hv. vm_compute in Hv. injection Hv as Hv _.
    rewrite <- Hv. reflexivity. }
  subst r. exists st'. split; [exact Hrun |].
  destruct Hcase as [Hc | (_ & _ & Hpos)]; [discriminate | exact Hpos].
Defined.

Lemma invalid_handle_taken_for_missing_console_witness :
  read 5 [x2a] 1 (io_state st_boot) = None /\
  write 5 [x2a] 1 (io_state st_boot) =
    Some (0, with_errno EBADF (io_state st_boot)).
Proof.
  destruct (invalid_handle_taken_for_missing_console 5 [x2a] 1
              (io_state st_boot)) as [Hr Hw]; [reflexivity |].
  split; [apply Hr; reflexivity |].
  apply Hw; [reflexivity |]. right. split; [lia |].
  exists x2a. split; [reflexivity | vm_compute; discriminate].
Defined.

Lemma sync_returns_and_marks_open_files_witness :
  exists (st' : state io_world) (f' : FILE),
    sync io_ro = Some (tt, st') /\ __iob st' = __iob io_ro /\
    heap st' !! stream3 = Some (B_FILE f') /\
    Z.land (flags f') __SUNGET <> 0.
Proof.
  destruct (sync_returns_and_marks_open_files io_ro)
    as (st' & Hrun & [Ht _] & Hmark).
  - intros k s Hk.
    do 8 (destruct k as [| k];
          [vm_compute in Hk; try discriminate; injection Hk as <-;
           eexists; vm_compute; reflexivity |]).
    vm_compute in Hk. discriminate.
  - destruct (Hmark 3 stream3 fil3 (opened_file O_RDONLY fil3))
      as (f' & Hf' & Hun); try (vm_compute; reflexivity).
    exists st', f'. split; [exact Hrun |]. split; [exact Ht |].
    split; [exact Hf' | exact Hun].
Defined.

Lemma fopen_then_fclose_restores_witness :
  exists (rc : Z) (st'' : state mem_world),
    fclose (Some stream3) (after (fopen "/a.txt" "r" st0)) =
      Some (rc, st'') /\
    __iob st'' = __iob st0 /\ heap st'' = heap st0.
Proof.
  apply (fopen_then_fclose_restores "/a.txt" "r" st0).
  - intros k s Hk.
    do 8 (destruct k as [| k];
          [vm_compute in Hk; try discriminate; injection Hk as <-;
           eexists; vm_compute; reflexivity |]).
    vm_compute in Hk. discriminate.
  - vm_compute. reflexivity.
Defined.
